(** * Pool inspection system: services, model and dashboard cache

    A shallow embedding of the Python sources

    - [pools/models.py], [accounts/models.py], [hotels/models.py]
    - [services/pool_reading_service.py], [services/auth.py]
    - [ui/submissions_dashboard.py], [ui/pool_form.py], [ui/login_form.py]
    - [config/app_config.py], [ui/navigation.py], [app.py]

    Python objects are records, the database tables are lists of rows,
    [app.storage.user] is a finite map per browser token, and a service
    call is a function from the state of the process to a result (a value
    or a raised exception) and the state after the call.  A [try]/[except]
    block keeps every effect made before the exception was raised, as
    Python does.  A float is a rational number: the finite values, compared
    as Python compares them; NaN and the infinities are left out. *)

From Stdlib Require Import ZArith QArith String Ascii List Bool Lia DecimalString.
From stdpp Require Import base option list gmap strings.
Import ListNotations.
Local Open Scope Z_scope.

(** ** Python: exceptions and results *)

Module Py.

(** The exception classes that the modelled code raises or catches.
    [ValidationError] is pydantic's and derives from [ValueError];
    [IntegrityError] and [OperationalError] are Django's and derive from
    [DatabaseError].  All derive from [Exception]. *)
Inductive exn_class : Type :=
| ValueError
| ValidationError
| AttributeError
| DoesNotExist
| MultipleObjectsReturned
| DatabaseError
| IntegrityError
| OperationalError.

Record exn : Type := Exn { cls : exn_class; args : string }.

(** [isinstance(e, ValueError)] *)
Definition is_ValueError (e : exn) : bool :=
  match cls e with
  | ValueError | ValidationError => true
  | _ => false
  end.

(** [isinstance(e, Model.DoesNotExist)] *)
Definition is_DoesNotExist (e : exn) : bool :=
  match cls e with
  | DoesNotExist => true
  | _ => false
  end.

(** [str(e)] *)
Definition str (e : exn) : string := args e.

Inductive res (A : Type) : Type :=
| Ok (a : A)
| Raise (e : exn).
Arguments Ok {A} a.
Arguments Raise {A} e.

Definition returns {A} (r : res A) : bool :=
  match r with Ok _ => true | Raise _ => false end.

(** [str(n)] for an integer *)
Definition str_int (z : Z) : string := NilZero.string_of_int (Z.to_int z).

(** Truthiness of a string: [not s] holds of the empty string only. *)
Definition truthy (s : string) : bool :=
  match s with EmptyString => false | String _ _ => true end.

End Py.
Import Py.

(** ** A state and exception monad

    [ST S A] is a computation over a state [S] that returns an [A] or raises.
    The state that comes out of a raising computation is the state at the
    raise: nothing is rolled back. *)

Definition ST (S A : Type) : Type := S -> res A * S.

Definition ret {S A} (a : A) : ST S A := fun s => (Ok a, s).

Definition bind {S A B} (m : ST S A) (k : A -> ST S B) : ST S B :=
  fun s => match m s with
           | (Ok a, s') => k a s'
           | (Raise e, s') => (Raise e, s')
           end.

Definition raise {S A} (e : exn) : ST S A := fun s => (Raise e, s).

Definition gets {S A} (f : S -> A) : ST S A := fun s => (Ok (f s), s).

Definition modify {S} (f : S -> S) : ST S unit := fun s => (Ok tt, f s).

(** [try: body  except Exception as e: handler e]; a handler that does not
    match the class of [e] re-raises it. *)
Definition try_except {S A} (body : ST S A) (handler : exn -> ST S A) : ST S A :=
  fun s => match body s with
           | (Ok a, s') => (Ok a, s')
           | (Raise e, s') => handler e s'
           end.

(** Run a computation on the second component of a pair state. *)
Definition lift {O S A} (m : ST S A) : ST (O * S) A :=
  fun os => match m (snd os) with
            | (r, s') => (r, (fst os, s'))
            end.

(** Run a method on a fresh local object [o]; the object is returned with
    the result and dropped when the method raises. *)
Definition with_object {O S A} (o : O) (m : ST (O * S) A) : ST S (A * O) :=
  fun s => match m (o, s) with
           | (Ok a, (o', s')) => (Ok (a, o'), s')
           | (Raise e, (_, s')) => (Raise e, s')
           end.

Declare Scope st_scope.
Delimit Scope st_scope with st.
Notation "x <- m ;; k" := (bind m (fun x => k))
  (at level 100, m at next level, right associativity) : st_scope.
Notation "m ;;; k" := (bind m (fun _ => k))
  (at level 100, right associativity) : st_scope.
Local Open Scope st_scope.

(** ** datetime *)

Module datetime.

Record t : Type := mk {
  year : Z; month : Z; day : Z;
  hour : Z; minute : Z; second : Z; microsecond : Z }.

Definition digit (n : Z) : ascii := ascii_of_nat (48 + Z.to_nat (n mod 10)).

Definition pad2 (n : Z) : string :=
  String (digit (n / 10)) (String (digit n) EmptyString).

Definition pad4 (n : Z) : string :=
  String (digit (n / 1000)) (String (digit (n / 100)) (pad2 n)).

(** The directives the sources use: %Y %m %d %H %M %S.  %Y is the
    four-digit year; the other fields are zero-padded to two digits. *)
Definition directive (c : ascii) (d : t) : string :=
  if Ascii.eqb c "Y" then pad4 (year d)
  else if Ascii.eqb c "m" then pad2 (month d)
  else if Ascii.eqb c "d" then pad2 (day d)
  else if Ascii.eqb c "H" then pad2 (hour d)
  else if Ascii.eqb c "M" then pad2 (minute d)
  else if Ascii.eqb c "S" then pad2 (second d)
  else String "%" (String c EmptyString).

Fixpoint strftime_go (pct : bool) (fmt : string) (d : t) : string :=
  match fmt with
  | EmptyString => if pct then String "%" EmptyString else EmptyString
  | String c rest =>
      if pct then directive c d +:+ strftime_go false rest d
      else if Ascii.eqb c "%" then strftime_go true rest d
      else String c (strftime_go false rest d)
  end.

(** [d.strftime(fmt)] *)
Definition strftime (d : t) (fmt : string) : string := strftime_go false fmt d.

(** The proleptic Gregorian ordinal of the date, as [date.toordinal]. *)
Definition is_leap (y : Z) : bool :=
  (y mod 4 =? 0) && (negb (y mod 100 =? 0) || (y mod 400 =? 0)).

Definition days_before_year (y : Z) : Z :=
  let y1 := y - 1 in y1 * 365 + y1 / 4 - y1 / 100 + y1 / 400.

Definition days_before_month (y m : Z) : Z :=
  nth (Z.to_nat m) [0; 0; 31; 59; 90; 120; 151; 181; 212; 243; 273; 304; 334] 0
  + (if (2 <? m) && is_leap y then 1 else 0).

Definition toordinal (d : t) : Z :=
  days_before_year (year d) + days_before_month (year d) (month d) + day d.

Definition to_microseconds (d : t) : Z :=
  (((toordinal d * 24 + hour d) * 60 + minute d) * 60 + second d) * 1000000
  + microsecond d.

(** A [timedelta] is its number of microseconds. *)
Definition timedelta : Type := Z.

(** [a - b] *)
Definition sub (a b : t) : timedelta := to_microseconds a - to_microseconds b.

(** [td.total_seconds()] *)
Definition total_seconds (td : timedelta) : Q := (td # 1000000)%Q.

(** A datetime that Python can hold, from year 1000 on, where %Y has
    four digits on every platform. *)
Definition valid (d : t) : Prop :=
  1000 <= year d <= 9999 /\ 1 <= month d <= 12 /\ 1 <= day d <= 31 /\
  0 <= hour d <= 23 /\ 0 <= minute d <= 59 /\ 0 <= second d <= 59 /\
  0 <= microsecond d <= 999999.

End datetime.


(** ** Models

    [hotels/models.py], [accounts/models.py] and [pools/models.py].  The
    columns that the services never read (addresses, [created_at]) are
    left out.  A [PoolReading] carries its hotel and its submitter as
    [select_related] loads them. *)

Module Hotel.

Record t : Type := mk { id : Z; name : string }.

End Hotel.

Module User.

Record t : Type := mk {
  id : Z;
  username : string;
  password_hash : string;
  is_admin : bool;
  hotel : option Hotel.t }.

(** [user.hotel_id], the raw foreign key: [None] for SQL NULL *)
Definition hotel_id (u : t) : option Z := Hotel.id <$> hotel u.

End User.

Module PoolReading.

(** [class WaterClarity(models.TextChoices)] *)
Definition WaterClarity_choices : list (string * string) :=
  [("clear", "Berrak"); ("cloudy", "Bulanık"); ("algae", "Yosun Var")].

(** [class Status(models.TextChoices)] *)
Definition Status_OPEN : string := "open".
Definition Status_SUBMITTED : string := "submitted".
Definition Status_IN_PROGRESS : string := "in_progress".
Definition Status_COMPLETED : string := "completed".

Definition Status_choices : list (string * string) :=
  [(Status_OPEN, "Açık"); (Status_SUBMITTED, "Gönderildi");
   (Status_IN_PROGRESS, "İnceleniyor"); (Status_COMPLETED, "Tamamlandı")].

(** [key in dict(choices)] *)
Definition in_choices (key : string) (choices : list (string * string)) : bool :=
  existsb (fun kv => String.eqb (fst kv) key) choices.

(** [dict(choices).get(key, key)], what [get_FOO_display] returns *)
Fixpoint display (choices : list (string * string)) (key : string) : string :=
  match choices with
  | [] => key
  | (k, label) :: rest => if String.eqb k key then label else display rest key
  end.

(** An instance of the model.  [id] is [None] until the row is inserted,
    [submission_date] is [None] until [auto_now_add] fills it in, and
    [reference_id] is the empty string until [save] derives it. *)
Record t : Type := mk {
  id : option Z;
  hotel : Hotel.t;
  submitted_by : User.t;
  submission_date : option datetime.t;
  ph_level : Q;
  chlorine_ppm : Q;
  alkalinity_ppm : Z;
  temperature_celsius : Q;
  water_clarity : string;
  notes : string;
  reference_id : string;
  status : string }.

Definition hotel_id (r : t) : Z := Hotel.id (hotel r).

Definition set_id (v : option Z) (r : t) : t :=
  mk v (hotel r) (submitted_by r) (submission_date r) (ph_level r)
     (chlorine_ppm r) (alkalinity_ppm r) (temperature_celsius r)
     (water_clarity r) (notes r) (reference_id r) (status r).

Definition set_submission_date (v : option datetime.t) (r : t) : t :=
  mk (id r) (hotel r) (submitted_by r) v (ph_level r)
     (chlorine_ppm r) (alkalinity_ppm r) (temperature_celsius r)
     (water_clarity r) (notes r) (reference_id r) (status r).

Definition set_reference_id (v : string) (r : t) : t :=
  mk (id r) (hotel r) (submitted_by r) (submission_date r) (ph_level r)
     (chlorine_ppm r) (alkalinity_ppm r) (temperature_celsius r)
     (water_clarity r) (notes r) v (status r).

Definition set_status (v : string) (r : t) : t :=
  mk (id r) (hotel r) (submitted_by r) (submission_date r) (ph_level r)
     (chlorine_ppm r) (alkalinity_ppm r) (temperature_celsius r)
     (water_clarity r) (notes r) (reference_id r) v.

(** The column names of the table, as [update_fields] may list them. *)
Definition field_names : list string :=
  ["hotel"; "submitted_by"; "submission_date"; "ph_level"; "chlorine_ppm";
   "alkalinity_ppm"; "temperature_celsius"; "water_clarity"; "notes";
   "reference_id"; "status"].

(** [UPDATE ... SET f = self.f] for one column [f] of the row [row]. *)
Definition copy_field (f : string) (self row : t) : t :=
  if String.eqb f "hotel" then
    mk (id row) (hotel self) (submitted_by row) (submission_date row) (ph_level row)
       (chlorine_ppm row) (alkalinity_ppm row) (temperature_celsius row)
       (water_clarity row) (notes row) (reference_id row) (status row)
  else if String.eqb f "submitted_by" then
    mk (id row) (hotel row) (submitted_by self) (submission_date row) (ph_level row)
       (chlorine_ppm row) (alkalinity_ppm row) (temperature_celsius row)
       (water_clarity row) (notes row) (reference_id row) (status row)
  else if String.eqb f "submission_date" then set_submission_date (submission_date self) row
  else if String.eqb f "ph_level" then
    mk (id row) (hotel row) (submitted_by row) (submission_date row) (ph_level self)
       (chlorine_ppm row) (alkalinity_ppm row) (temperature_celsius row)
       (water_clarity row) (notes row) (reference_id row) (status row)
  else if String.eqb f "chlorine_ppm" then
    mk (id row) (hotel row) (submitted_by row) (submission_date row) (ph_level row)
       (chlorine_ppm self) (alkalinity_ppm row) (temperature_celsius row)
       (water_clarity row) (notes row) (reference_id row) (status row)
  else if String.eqb f "alkalinity_ppm" then
    mk (id row) (hotel row) (submitted_by row) (submission_date row) (ph_level row)
       (chlorine_ppm row) (alkalinity_ppm self) (temperature_celsius row)
       (water_clarity row) (notes row) (reference_id row) (status row)
  else if String.eqb f "temperature_celsius" then
    mk (id row) (hotel row) (submitted_by row) (submission_date row) (ph_level row)
       (chlorine_ppm row) (alkalinity_ppm row) (temperature_celsius self)
       (water_clarity row) (notes row) (reference_id row) (status row)
  else if String.eqb f "water_clarity" then
    mk (id row) (hotel row) (submitted_by row) (submission_date row) (ph_level row)
       (chlorine_ppm row) (alkalinity_ppm row) (temperature_celsius row)
       (water_clarity self) (notes row) (reference_id row) (status row)
  else if String.eqb f "notes" then
    mk (id row) (hotel row) (submitted_by row) (submission_date row) (ph_level row)
       (chlorine_ppm row) (alkalinity_ppm row) (temperature_celsius row)
       (water_clarity row) (notes self) (reference_id row) (status row)
  else if String.eqb f "reference_id" then set_reference_id (reference_id self) row
  else if String.eqb f "status" then set_status (status self) row
  else row.

Definition copy_fields (fs : list string) (self row : t) : t :=
  fold_left (fun acc f => copy_field f self acc) fs row.

(** [row.pk == pk] *)
Definition has_pk (pk : Z) (row : t) : bool :=
  match id row with
  | Some i => i =? pk
  | None => false
  end.

End PoolReading.

(** ** The dashboard row and the cache object ([ui/submissions_dashboard.py]) *)

Definition CACHE_TTL_SECONDS : Z := 60.
Definition DATE_FORMAT : string := "%Y-%m-%d %H:%M".

Module SubmissionRow.

(** [id] is what [reading.id] held: the dataclass does not check it. *)
Record t : Type := mk {
  id : option Z;
  reference_id : string;
  hotel_name : string;
  submitted_by : string;
  submission_date : string;
  status : string;
  ph_level : Q;
  chlorine_ppm : Q;
  water_clarity : string }.

End SubmissionRow.

Module SubmissionsCache.

(** The three fields of the single slot and the time to live. *)
Record t : Type := mk {
  _data : option (list SubmissionRow.t);
  _timestamp : option datetime.t;
  _user_id : option Z;
  _ttl_seconds : Z }.

(** [__init__(self, ttl_seconds=CACHE_TTL_SECONDS)] *)
Definition init (ttl_seconds : Z) : t := mk None None None ttl_seconds.

End SubmissionsCache.

(** ** The state of the process

    The two database tables, whether the database answers at all, the
    session storage of NiceGUI ([app.storage.user], one dictionary per
    browser token), the module-level cache [_cache], the records the
    loggers have emitted, the messages shown by [ui.notify], and the wall
    clock.  The clock is an input: it
    stands still during one call and the environment moves it between
    calls. *)

Inductive level : Type := DEBUG | INFO | WARNING | ERROR.

Record LogRecord : Type := mkLog { levelname : level; message : string }.

Record World : Type := mkWorld {
  users : list User.t;
  readings : list PoolReading.t;
  reading_seq : Z;
  db_up : bool;
  storage : gmap string (gmap string Z);
  cache : SubmissionsCache.t;
  log : list LogRecord;
  notifications : list string;
  clock : datetime.t }.

Definition set_readings (v : list PoolReading.t) (w : World) : World :=
  mkWorld (users w) v (reading_seq w) (db_up w) (storage w) (cache w) (log w) (notifications w) (clock w).

Definition set_reading_seq (v : Z) (w : World) : World :=
  mkWorld (users w) (readings w) v (db_up w) (storage w) (cache w) (log w) (notifications w) (clock w).

Definition set_storage (v : gmap string (gmap string Z)) (w : World) : World :=
  mkWorld (users w) (readings w) (reading_seq w) (db_up w) v (cache w) (log w) (notifications w) (clock w).

Definition set_cache (v : SubmissionsCache.t) (w : World) : World :=
  mkWorld (users w) (readings w) (reading_seq w) (db_up w) (storage w) v (log w) (notifications w) (clock w).

Definition set_log (v : list LogRecord) (w : World) : World :=
  mkWorld (users w) (readings w) (reading_seq w) (db_up w) (storage w) (cache w) v (notifications w) (clock w).

Definition set_notifications (v : list string) (w : World) : World :=
  mkWorld (users w) (readings w) (reading_seq w) (db_up w) (storage w) (cache w) (log w) v (clock w).

Definition set_clock (v : datetime.t) (w : World) : World :=
  mkWorld (users w) (readings w) (reading_seq w) (db_up w) (storage w) (cache w) (log w) (notifications w) v.

Definition set_db_up (v : bool) (w : World) : World :=
  mkWorld (users w) (readings w) (reading_seq w) v (storage w) (cache w) (log w) (notifications w) (clock w).

Definition M (A : Type) : Type := ST World A.

(** [datetime.now()] *)
Definition datetime_now : M datetime.t := gets clock.

(** [logger.debug], [logger.info], [logger.warning], [logger.error] *)
Definition logger (l : level) (msg : string) : M unit :=
  modify (fun w => set_log (log w ++ [mkLog l msg]) w).

(** ** The ORM

    What the services use of Django: a query needs the database to answer
    and raises [OperationalError] if it does not; [get] raises
    [DoesNotExist] on no row and [MultipleObjectsReturned] on several;
    [reference_id] is a UNIQUE column; [Meta.ordering] of [PoolReading] is
    [-submission_date].  The rounding of the DecimalField columns is not
    modelled: a row holds the measurements as they were given. *)

Definition db_unavailable : exn := Exn OperationalError "could not connect to the database".

Definition db_execute : M unit :=
  fun w => if db_up w then (Ok tt, w) else (Raise db_unavailable, w).

(** [QuerySet.get] on the rows that matched *)
Definition qs_get {A} (model : string) (rows : list A) : M A :=
  match rows with
  | [r] => ret r
  | [] => raise (Exn DoesNotExist (model +:+ " matching query does not exist."))
  | _ :: _ :: _ => raise (Exn MultipleObjectsReturned
                            ("get() returned more than one " +:+ model))
  end.

(** [User.objects.select_related('hotel').aget(username=username)] *)
Definition User_aget_username (username : string) : M User.t :=
  db_execute ;;;
  rows <- gets (fun w => filter (fun u => User.username u = username) (users w)) ;;
  qs_get "User" rows.

(** [User.objects.select_related('hotel').aget(id=user_id)] *)
Definition User_aget_id (user_id : Z) : M User.t :=
  db_execute ;;;
  rows <- gets (fun w => filter (fun u => User.id u = user_id) (users w)) ;;
  qs_get "User" rows.

(** [Meta.ordering = ['-submission_date']]: latest first, rows of equal
    date in table order. *)
Definition date_key (r : PoolReading.t) : Z :=
  from_option datetime.to_microseconds 0 (PoolReading.submission_date r).

Fixpoint insert_desc (r : PoolReading.t) (l : list PoolReading.t) : list PoolReading.t :=
  match l with
  | [] => [r]
  | x :: l' => if date_key x <=? date_key r then r :: x :: l'
               else x :: insert_desc r l'
  end.

Definition order_by_submission_date_desc (l : list PoolReading.t) : list PoolReading.t :=
  fold_right insert_desc [] l.

(** [queryset.filter(hotel_id=v)]; a [None] is compiled to [IS NULL], and
    the column is NOT NULL, so no row matches it. *)
Definition filter_hotel_id (v : option Z) (rows : list PoolReading.t) : list PoolReading.t :=
  filter (fun r => v = Some (PoolReading.hotel_id r)) rows.

(** Iterating a queryset of [PoolReading] runs the query. *)
Definition PoolReading_fetch (q : list PoolReading.t -> list PoolReading.t)
  : M (list PoolReading.t) :=
  db_execute ;;;
  gets (fun w => order_by_submission_date_desc (q (readings w))).

(** [PoolReading.objects.select_related(...).aget(reference_id=reference_id)] *)
Definition PoolReading_aget_reference_id (reference_id : string) : M PoolReading.t :=
  db_execute ;;;
  rows <- gets (fun w =>
    filter (fun r => PoolReading.reference_id r = reference_id) (readings w)) ;;
  qs_get "PoolReading" rows.

(** The keyword arguments of [save] that the sources pass:
    [force_insert=True] (from [acreate]) and [update_fields=[...]]. *)
Inductive save_kwargs : Type :=
| force_insert
| update_fields (fields : list string).

(** [models.Model.save], the method that [PoolReading.save] calls through
    [super()].  The state is the instance [self] and the world. *)
Definition Model_save (kw : save_kwargs) : ST (PoolReading.t * World) unit :=
  fun '(self, w) =>
    match kw with
    | update_fields [] => (Ok tt, (self, w))
    | update_fields (f :: fs) =>
        if negb (forallb (fun x => bool_decide (x ∈ PoolReading.field_names)) (f :: fs)) then
          (Raise (Exn ValueError "The following fields do not exist in this model"), (self, w))
        else
          match PoolReading.id self with
          | None =>
              (Raise (Exn ValueError "Cannot force an update in save() with no primary key."),
               (self, w))
          | Some pk =>
              if negb (db_up w) then (Raise db_unavailable, (self, w))
              else if existsb (PoolReading.has_pk pk) (readings w) then
                (Ok tt,
                 (self,
                  set_readings
                    (map (fun row => if PoolReading.has_pk pk row
                                     then PoolReading.copy_fields (f :: fs) self row
                                     else row)
                         (readings w)) w))
              else
                (Raise (Exn DatabaseError "Save with update_fields did not affect any rows."),
                 (self, w))
          end
    | force_insert =>
        (* pre_save: auto_now_add *)
        let self := PoolReading.set_submission_date (Some (clock w)) self in
        if negb (db_up w) then (Raise db_unavailable, (self, w))
        else if existsb (fun row => String.eqb (PoolReading.reference_id row)
                                               (PoolReading.reference_id self))
                        (readings w) then
          (Raise (Exn IntegrityError "UNIQUE constraint failed: pools_poolreading.reference_id"),
           (self, w))
        else
          let self := PoolReading.set_id (Some (reading_seq w)) self in
          (Ok tt,
           (self, set_reading_seq (reading_seq w + 1) (set_readings (readings w ++ [self]) w)))
    end.

Definition REFERENCE_TIMESTAMP_FORMAT : string := "%Y%m%d_%H%M%S".

(** [PoolReading.save] of [pools/models.py] *)
Definition save (kw : save_kwargs) : ST (PoolReading.t * World) unit :=
  self <- gets fst ;;
  (if negb (truthy (PoolReading.reference_id self)) then
     timestamp <- match PoolReading.submission_date self with
                  | Some d => ret (datetime.strftime d REFERENCE_TIMESTAMP_FORMAT)
                  | None => now <- lift datetime_now ;;
                            ret (datetime.strftime now REFERENCE_TIMESTAMP_FORMAT)
                  end ;;
     modify (fun '(self, w) =>
       (PoolReading.set_reference_id
          (Hotel.name (PoolReading.hotel self) +:+ "__" +:+
           User.username (PoolReading.submitted_by self) +:+ "__" +:+ timestamp)
          self, w))
   else ret tt) ;;;
  Model_save kw.

(** [reading.asave(update_fields=...)] *)
Definition asave (fields : list string) : ST (PoolReading.t * World) unit :=
  save (update_fields fields).

(** [reading.arefresh_from_db()]: reload the instance from its row. *)
Definition arefresh_from_db : ST (PoolReading.t * World) unit :=
  self <- gets fst ;;
  row <- lift (db_execute ;;;
               rows <- gets (fun w =>
                 filter (fun r => PoolReading.id r = PoolReading.id self) (readings w)) ;;
               qs_get "PoolReading" rows) ;;
  modify (fun '(_, w) => (row, w)).

(** [PoolReading.objects.acreate] with keyword arguments: build the instance with the
    defaults of the model for the other fields, then [save(force_insert=True)]. *)
Definition PoolReading_acreate
    (hotel : Hotel.t) (submitted_by : User.t)
    (ph_level chlorine_ppm : Q) (alkalinity_ppm : Z) (temperature_celsius : Q)
    (water_clarity notes status : string) : M PoolReading.t :=
  let obj := PoolReading.mk None hotel submitted_by None ph_level chlorine_ppm
               alkalinity_ppm temperature_celsius water_clarity notes
               EmptyString status in
  r <- with_object obj (save force_insert) ;;
  ret (snd r).

(** ** The reading service ([services/pool_reading_service.py]) *)

Module PoolReadingSubmissionResult.

Record t : Type := mk {
  success : bool;
  message : string;
  reference_id : option string;
  reading : option PoolReading.t }.

End PoolReadingSubmissionResult.

Module PoolReadingData.

Record t : Type := mk {
  ph_level : Q;
  chlorine_ppm : Q;
  alkalinity_ppm : Z;
  temperature_celsius : Q;
  water_clarity : string;
  notes : string }.

(** The constraints of the fields: [ge=0.0, le=14.0], [ge=0.0], [ge=0].
    [temperature_celsius], [water_clarity] and [notes] carry none. *)
Definition fields_valid (ph_level chlorine_ppm : Q) (alkalinity_ppm : Z) : bool :=
  Qle_bool 0 ph_level && Qle_bool ph_level 14
  && Qle_bool 0 chlorine_ppm
  && (0 <=? alkalinity_ppm).

Definition validation_error : exn :=
  Exn ValidationError "validation error for PoolReadingData".

(** The constructor that pydantic generates: it validates, then builds. *)
Definition init (ph_level chlorine_ppm : Q) (alkalinity_ppm : Z)
    (temperature_celsius : Q) (water_clarity notes : string) : M t :=
  if fields_valid ph_level chlorine_ppm alkalinity_ppm then
    ret (mk ph_level chlorine_ppm alkalinity_ppm temperature_celsius water_clarity notes)
  else raise validation_error.

End PoolReadingData.

Definition MSG_NO_HOTEL : string :=
  "Kullanıcı bir otelle ilişkilendirilmemiş. Lütfen yöneticiyle iletişime geçin.".
Definition MSG_SUBMITTED : string := "Havuz ölçümü başarıyla gönderildi.".
Definition MSG_VALIDATION : string := "Doğrulama hatası: ".
Definition MSG_SYSTEM_ERROR : string :=
  "Sistem hatası nedeniyle gönderim başarısız oldu. Lütfen daha sonra tekrar deneyin.".

(** [PoolReadingService._create_reading].  With [user.hotel] unset the
    instance is built with [hotel=None] and [save] raises
    [RelatedObjectDoesNotExist] when it reads [self.hotel.name]. *)
Definition _create_reading (data : PoolReadingData.t) (user : User.t) : M PoolReading.t :=
  match User.hotel user with
  | Some hotel =>
      PoolReading_acreate hotel user
        (PoolReadingData.ph_level data) (PoolReadingData.chlorine_ppm data)
        (PoolReadingData.alkalinity_ppm data) (PoolReadingData.temperature_celsius data)
        (PoolReadingData.water_clarity data) (PoolReadingData.notes data)
        PoolReading.Status_SUBMITTED
  | None => raise (Exn DoesNotExist "PoolReading has no hotel.")
  end.

(** [PoolReadingService.submit_reading] *)
Definition submit_reading (data : PoolReadingData.t) (user : User.t)
  : M PoolReadingSubmissionResult.t :=
  try_except
    (match User.hotel user with
     | None =>
         (* Validate user has associated hotel *)
         ret (PoolReadingSubmissionResult.mk false MSG_NO_HOTEL None None)
     | Some _ =>
         (* Create the pool reading *)
         reading <- _create_reading data user ;;
         (* Refresh to get auto-generated fields *)
         r <- with_object reading arefresh_from_db ;;
         let reading := snd r in
         logger INFO ("Pool reading submitted successfully: " +:+
                      PoolReading.reference_id reading +:+
                      " by user " +:+ User.username user) ;;;
         ret (PoolReadingSubmissionResult.mk true MSG_SUBMITTED
                (Some (PoolReading.reference_id reading)) (Some reading))
     end)
    (fun e =>
       if is_ValueError e then
         (* Validation errors *)
         logger WARNING ("Validation error during submission: " +:+ str e) ;;;
         ret (PoolReadingSubmissionResult.mk false (MSG_VALIDATION +:+ str e) None None)
       else
         (* Unexpected errors *)
         logger ERROR ("Database error during form submission by " +:+
                       User.username user +:+ ": " +:+ str e) ;;;
         ret (PoolReadingSubmissionResult.mk false MSG_SYSTEM_ERROR None None)).

(** [PoolReadingService.get_reading_by_reference] *)
Definition get_reading_by_reference (reference_id : string) : M (option PoolReading.t) :=
  try_except
    (r <- PoolReading_aget_reference_id reference_id ;; ret (Some r))
    (fun e =>
       if is_DoesNotExist e then
         logger WARNING ("Pool reading not found: " +:+ reference_id) ;;;
         ret None
       else raise e).

(** [PoolReadingService.update_reading_status].  The state holds the
    instance that the caller passed as [reading] (the caller sees its
    mutations) and the world. *)
Definition update_reading_status (new_status : string) (updated_by : User.t)
  : ST (PoolReading.t * World) bool :=
  try_except
    ((* Validate status *)
     (if negb (PoolReading.in_choices new_status PoolReading.Status_choices)
      then raise (Exn ValueError ("Invalid status: " +:+ new_status))
      else ret tt) ;;;
     modify (fun '(reading, w) => (PoolReading.set_status new_status reading, w)) ;;;
     asave ["status"] ;;;
     reading <- gets fst ;;
     lift (logger INFO ("Reading " +:+ PoolReading.reference_id reading +:+
                        " status updated to " +:+ new_status +:+
                        " by " +:+ User.username updated_by)) ;;;
     ret true)
    (fun e =>
       lift (logger ERROR ("Error updating reading status: " +:+ str e)) ;;;
       ret false).

(** [submit_pool_reading], the function the form calls *)
Definition submit_pool_reading (ph_level chlorine_ppm : Q) (alkalinity_ppm : Z)
    (temperature_celsius : Q) (water_clarity notes : string) (user : User.t)
  : M PoolReadingSubmissionResult.t :=
  data <- PoolReadingData.init ph_level chlorine_ppm alkalinity_ppm
            temperature_celsius water_clarity notes ;;
  submit_reading data user.

(** ** The authentication service ([services/auth.py]) *)

Definition SESSION_USER_ID_KEY : string := "user_id".

Module AuthenticationResult.

Record t : Type := mk {
  success : bool;
  message : string;
  user : option User.t }.

End AuthenticationResult.

(** [app.storage.user] in a request of the browser [token]: the dictionary
    of that browser, empty if it has none yet. *)
Definition app_storage_user (token : string) (w : World) : gmap string Z :=
  default ∅ (storage w !! token).

(** [AuthenticationService.clear_session] *)
Definition clear_session (token : string) : M unit :=
  modify (fun w => set_storage (<[token := ∅]> (storage w)) w) ;;;
  logger DEBUG "Session cleared".

(** [AuthenticationService.store_user_session] *)
Definition store_user_session (token : string) (user : User.t) : M unit :=
  modify (fun w =>
    set_storage (<[token := <[SESSION_USER_ID_KEY := User.id user]> (app_storage_user token w)]>
                   (storage w)) w) ;;;
  logger DEBUG ("Session created for user: " +:+ User.username user).

(** [AuthenticationService.authenticate]; [check_password] is Django's
    hasher, taken as a parameter. *)
Definition authenticate (check_password : string -> string -> bool)
    (username password : string) : M AuthenticationResult.t :=
  if negb (truthy username) || negb (truthy password) then
    ret (AuthenticationResult.mk false "Kullanıcı adı ve şifre gereklidir" None)
  else
    try_except
      (user <- User_aget_username username ;;
       if check_password password (User.password_hash user) then
         logger INFO ("Successful authentication for user: " +:+ username) ;;;
         ret (AuthenticationResult.mk true "Giriş başarılı!" (Some user))
       else
         logger WARNING ("Failed authentication for user: " +:+ username) ;;;
         ret (AuthenticationResult.mk false "Geçersiz şifre" None))
      (fun e =>
         if is_DoesNotExist e then
           logger WARNING ("Authentication attempt for non-existent user: " +:+ username) ;;;
           ret (AuthenticationResult.mk false "Kullanıcı bulunamadı" None)
         else
           logger ERROR ("Authentication error for " +:+ username +:+ ": " +:+ str e) ;;;
           ret (AuthenticationResult.mk false "Kimlik doğrulama sırasında bir hata oluştu" None)).

(** [not user_id] for the value that [dict.get] returned *)
Definition falsy_id (user_id : option Z) : bool :=
  match user_id with
  | None => true
  | Some n => n =? 0
  end.

(** [AuthenticationService.get_current_user], in a request of [token] *)
Definition get_current_user (token : string) : M (option User.t) :=
  user_id <- gets (fun w => app_storage_user token w !! SESSION_USER_ID_KEY) ;;
  match user_id with
  | Some uid =>
      if falsy_id user_id then ret None
      else
        try_except
          (user <- User_aget_id uid ;; ret (Some user))
          (fun e =>
             if is_DoesNotExist e then
               logger WARNING ("Stale session detected for user_id=" +:+ str_int uid) ;;;
               clear_session token ;;;
               ret None
             else
               logger ERROR ("Error retrieving current user: " +:+ str e) ;;;
               ret None)
  | None => ret None
  end.

(** ** The dashboard ([ui/submissions_dashboard.py]) *)

(** [x < y] on the rationals *)
Definition Qlt_bool (x y : Q) : bool := negb (Qle_bool y x).

(** [SubmissionsCache._is_valid], on the cache of the process *)
Definition _is_valid (user_id : Z) : M bool :=
  self <- gets cache ;;
  match SubmissionsCache._data self, SubmissionsCache._timestamp self with
  | Some _, Some timestamp =>
      if bool_decide (SubmissionsCache._user_id self ≠ Some user_id) then ret false
      else
        now <- datetime_now ;;
        let age := datetime.total_seconds (datetime.sub now timestamp) in
        ret (Qlt_bool age (inject_Z (SubmissionsCache._ttl_seconds self)))
  | _, _ => ret false
  end.

(** [SubmissionsCache.get].  The log record leaves out the age that the
    source formats into it. *)
Definition SubmissionsCache_get (user_id : Z) : M (option (list SubmissionRow.t)) :=
  valid <- _is_valid user_id ;;
  if negb valid then ret None
  else
    logger INFO "✓ Cache HIT - Using cached data" ;;;
    gets (fun w => SubmissionsCache._data (cache w)).

(** [SubmissionsCache.set] *)
Definition SubmissionsCache_set (user_id : Z) (data : list SubmissionRow.t) : M unit :=
  now <- datetime_now ;;
  modify (fun w =>
    set_cache (SubmissionsCache.mk (Some data) (Some now) (Some user_id)
                 (SubmissionsCache._ttl_seconds (cache w))) w) ;;;
  logger INFO ("Cache updated for user " +:+ str_int user_id).

(** [SubmissionsCache.invalidate] *)
Definition SubmissionsCache_invalidate : M unit :=
  modify (fun w =>
    set_cache (SubmissionsCache.mk None None None
                 (SubmissionsCache._ttl_seconds (cache w))) w) ;;;
  logger INFO "Cache invalidated".

(** The body of the loop of [_fetch_from_database]: one typed row.  A
    reading without a date makes [strftime] fail on [None]. *)
Definition make_submission_row (reading : PoolReading.t) : M SubmissionRow.t :=
  match PoolReading.submission_date reading with
  | Some d =>
      ret (SubmissionRow.mk
             (PoolReading.id reading)
             (PoolReading.reference_id reading)
             (Hotel.name (PoolReading.hotel reading))
             (User.username (PoolReading.submitted_by reading))
             (datetime.strftime d DATE_FORMAT)
             (PoolReading.display PoolReading.Status_choices (PoolReading.status reading))
             (PoolReading.ph_level reading)
             (PoolReading.chlorine_ppm reading)
             (PoolReading.display PoolReading.WaterClarity_choices
                (PoolReading.water_clarity reading)))
  | None => raise (Exn AttributeError "'NoneType' object has no attribute 'strftime'")
  end.

(** [async for reading in queryset: ... submissions.append(submission)] *)
Fixpoint collect_rows (queryset : list PoolReading.t) (submissions : list SubmissionRow.t)
  : M (list SubmissionRow.t) :=
  match queryset with
  | [] => ret submissions
  | reading :: rest =>
      submission <- make_submission_row reading ;;
      collect_rows rest (submissions ++ [submission])
  end.

(** [SubmissionsDashboardComponent._fetch_from_database] for [self.user = user] *)
Definition _fetch_from_database (user : User.t) : M (list SubmissionRow.t) :=
  (* Build query based on user permissions *)
  let queryset :=
    if negb (User.is_admin user) then filter_hotel_id (User.hotel_id user)
    else (fun rows => rows) in
  rows <- PoolReading_fetch queryset ;;
  (* Convert to typed rows *)
  collect_rows rows [].

(** [SubmissionsDashboardComponent.load_submissions] *)
Definition load_submissions (user : User.t) (force_refresh : bool)
  : M (list SubmissionRow.t) :=
  cached_data <- (if negb force_refresh then SubmissionsCache_get (User.id user)
                  else ret None) ;;
  match cached_data with
  | Some rows => ret rows
  | None =>
      logger INFO "✗ Cache MISS - Fetching from database" ;;;
      submissions <- _fetch_from_database user ;;
      SubmissionsCache_set (User.id user) submissions ;;;
      ret submissions
  end.

(** ** The form ([ui/pool_form.py])

    The component, the dictionary [self.state] that the widgets are bound
    to, and the handlers.  Of the rendering only what decides who may act
    is kept: whether the status selector is enabled and whether the submit
    button is shown. *)

(** Statuses that lock the form from editing *)
Definition READONLY_STATUSES : list string := ["in_progress"; "completed"].

Module FormState.

Record t : Type := mk {
  hotel : string;
  status : string;
  ph_level : Q;
  chlorine_ppm : Q;
  alkalinity_ppm : Z;
  temperature_celsius : Q;
  water_clarity : string;
  notes : string;
  is_readonly : bool;
  is_existing : bool }.

(** [FormState().to_dict()], the defaults of a new form *)
Definition default : t :=
  mk EmptyString "open" (72 # 10) 1 100 26 "clear" EmptyString false false.

Definition set_hotel (v : string) (s : t) : t :=
  mk v (status s) (ph_level s) (chlorine_ppm s) (alkalinity_ppm s)
     (temperature_celsius s) (water_clarity s) (notes s) (is_readonly s) (is_existing s).

Definition set_status (v : string) (s : t) : t :=
  mk (hotel s) v (ph_level s) (chlorine_ppm s) (alkalinity_ppm s)
     (temperature_celsius s) (water_clarity s) (notes s) (is_readonly s) (is_existing s).

(** What the number input bound to [ph_level] writes when the user edits it. *)
Definition set_ph_level (v : Q) (s : t) : t :=
  mk (hotel s) (status s) v (chlorine_ppm s) (alkalinity_ppm s)
     (temperature_celsius s) (water_clarity s) (notes s) (is_readonly s) (is_existing s).

End FormState.

(** A [ui.label]: its text and the classes added to it. *)
Module Label.

Record t : Type := mk { text : string; classes : list string }.

End Label.

(** A [ui.select] as far as it gates the user. *)
Module Select.

Record t : Type := mk {
  options : list (string * string);
  value : string;
  enabled : bool;
  props : list string }.

End Select.

Module PoolFormComponent.

Record t : Type := mk {
  user : User.t;
  reading_ref_id : option string;
  state : FormState.t }.

(** [__init__] *)
Definition init (user : User.t) (reading_ref_id : option string) : t :=
  mk user reading_ref_id FormState.default.

Definition set_state (v : FormState.t) (c : t) : t :=
  mk (user c) (reading_ref_id c) v.

End PoolFormComponent.

(** [ui.notify(message, type='negative')] *)
Definition ui_notify (msg : string) : M unit :=
  modify (fun w => set_notifications (notifications w ++ [msg]) w).

(** [PoolFormComponent._get_user_hotel_name] *)
Definition _get_user_hotel_name (self : PoolFormComponent.t) : string :=
  match User.hotel (PoolFormComponent.user self) with
  | Some h => Hotel.name h
  | None => EmptyString
  end.

(** [PoolFormComponent._populate_state_from_reading] *)
Definition _populate_state_from_reading (reading : PoolReading.t) (self : PoolFormComponent.t)
  : PoolFormComponent.t :=
  PoolFormComponent.set_state
    (FormState.mk
       (Hotel.name (PoolReading.hotel reading))
       (PoolReading.status reading)
       (PoolReading.ph_level reading)
       (PoolReading.chlorine_ppm reading)
       (PoolReading.alkalinity_ppm reading)
       (PoolReading.temperature_celsius reading)
       (PoolReading.water_clarity reading)
       (PoolReading.notes reading)
       (bool_decide (PoolReading.status reading ∈ READONLY_STATUSES))
       true)
    self.

(** [PoolFormComponent.load_data] *)
Definition load_data : ST (PoolFormComponent.t * World) unit :=
  (* Load hotel name for the current user *)
  modify (fun '(self, w) =>
    (PoolFormComponent.set_state
       (FormState.set_hotel (_get_user_hotel_name self) (PoolFormComponent.state self))
       self, w)) ;;;
  self <- gets fst ;;
  match PoolFormComponent.reading_ref_id self with
  | Some ref_id =>
      (* If no reference ID, this is a new form *)
      if negb (truthy ref_id) then ret tt
      else
        (* Load existing reading data *)
        try_except
          (reading <- lift (PoolReading_aget_reference_id ref_id) ;;
           modify (fun '(self, w) => (_populate_state_from_reading reading self, w)))
          (fun e =>
             if is_DoesNotExist e then
               lift (logger ERROR ("Reading not found: " +:+ ref_id) ;;;
                     ui_notify ("Reading " +:+ ref_id +:+ " not found"))
             else raise e)
  | None => ret tt
  end.

(** [PoolFormComponent._submit_form] *)
Definition _submit_form (self : PoolFormComponent.t) : M PoolReadingSubmissionResult.t :=
  let state := PoolFormComponent.state self in
  submit_pool_reading
    (FormState.ph_level state)
    (FormState.chlorine_ppm state)
    (FormState.alkalinity_ppm state)
    (FormState.temperature_celsius state)
    (FormState.water_clarity state)
    (FormState.notes state)
    (PoolFormComponent.user self).

(** [str(x)] for an optional string *)
Definition str_opt (x : option string) : string := default "None" x.

(** [PoolFormComponent._handle_success] *)
Definition _handle_success (result : PoolReadingSubmissionResult.t)
  : ST ((PoolFormComponent.t * Label.t) * World) unit :=
  modify (fun '((self, msg_label), w) =>
    ((PoolFormComponent.set_state
        (FormState.set_status "submitted" (PoolFormComponent.state self)) self,
      Label.mk ("✓ Başarılı! Referans: " +:+
                str_opt (PoolReadingSubmissionResult.reference_id result))
               (Label.classes msg_label ++ ["text-green-600"])),
     w)) ;;;
  lift (logger INFO ("Form submitted successfully: " +:+
                     str_opt (PoolReadingSubmissionResult.reference_id result))).

(** [PoolFormComponent._handle_error] *)
Definition _handle_error (result : PoolReadingSubmissionResult.t)
  : ST ((PoolFormComponent.t * Label.t) * World) unit :=
  modify (fun '((self, msg_label), w) =>
    ((self,
      Label.mk ("✗ Hata: " +:+ PoolReadingSubmissionResult.message result)
               (Label.classes msg_label ++ ["text-red-600"])),
     w)) ;;;
  lift (logger ERROR ("Form submission failed: " +:+
                      PoolReadingSubmissionResult.message result)).

(** [PoolFormComponent.handle_submit]; the state holds the component and
    the label [msg_label] that the caller passed. *)
Definition handle_submit : ST ((PoolFormComponent.t * Label.t) * World) unit :=
  self <- gets (fun s => fst (fst s)) ;;
  result <- lift (_submit_form self) ;;
  if PoolReadingSubmissionResult.success result then _handle_success result
  else _handle_error result.

(** [PoolFormComponent._render_status_field]: the selector it builds *)
Definition _render_status_field (self : PoolFormComponent.t) : Select.t :=
  let status_select :=
    Select.mk PoolReading.Status_choices
              (FormState.status (PoolFormComponent.state self)) true [] in
  (* Only admins can change status *)
  if negb (User.is_admin (PoolFormComponent.user self)) then
    Select.mk (Select.options status_select) (Select.value status_select)
              false (Select.props status_select ++ ["readonly"])
  else status_select.

(** [show_submit] of [PoolFormComponent._render_actions] *)
Definition show_submit (self : PoolFormComponent.t) : bool :=
  negb (FormState.is_readonly (PoolFormComponent.state self))
  || User.is_admin (PoolFormComponent.user self).

(** ** Routes ([config/app_config.py], [ui/navigation.py])

    [PATH_PREFIX] is read once from the environment; the functions take the
    resulting constant as their first argument. *)

(** [s.rstrip('/')] *)
Fixpoint rstrip_slash (s : string) : string :=
  match s with
  | EmptyString => EmptyString
  | String c rest =>
      match rstrip_slash rest with
      | EmptyString => if Ascii.eqb c "/" then EmptyString else String c EmptyString
      | String c' rest' => String c (String c' rest')
      end
  end.

(** [PATH_PREFIX = os.getenv('PATH_PREFIX', '').rstrip('/')]; the argument
    is the variable of the environment, [None] when it is not set. *)
Definition PATH_PREFIX (env : option string) : string :=
  rstrip_slash (default EmptyString env).

(** [path.startswith('/')] *)
Definition startswith_slash (path : string) : bool :=
  match path with
  | String c _ => Ascii.eqb c "/"
  | EmptyString => false
  end.

(** [get_route] *)
Definition get_route (prefix : string) (path : string) : string :=
  let path := if negb (startswith_slash path) then String "/" path else path in
  if truthy prefix then prefix +:+ path else path.

(** [get_navigation_path] *)
Definition get_navigation_path (prefix : string) (path : string) : string :=
  get_route prefix path.

(** The routes of [ui/navigation.py] *)
Definition ROUTE_LOGIN (prefix : string) : string := get_navigation_path prefix "/".
Definition ROUTE_SUBMISSIONS (prefix : string) : string :=
  get_navigation_path prefix "/submissions".


(** ** The application ([app.py]) and the login form ([ui/login_form.py])

    [app.py] keeps the module-level dictionary [logged_in_user], shared by
    every request of the process; [ui.navigate.to] is recorded as the list
    of the targets navigated to. *)

Record App : Type := mkApp {
  logged_in_user : option User.t;
  navigated : list string;
  world : World }.

Definition set_world (v : World) (a : App) : App :=
  mkApp (logged_in_user a) (navigated a) v.

(** Run a computation of the services inside the application. *)
Definition in_world {A} (m : M A) : ST App A :=
  fun a => match m (world a) with
           | (r, w') => (r, set_world w' a)
           end.

(** [ui.navigate.to(target)] *)
Definition ui_navigate_to (target : string) : ST App unit :=
  modify (fun a => mkApp (logged_in_user a) (navigated a ++ [target]) (world a)).

(** [set_logged_in_user] of [app.py], in a request of the browser [token] *)
Definition set_logged_in_user (token : string) (user : User.t) : ST App unit :=
  modify (fun a => mkApp (Some user) (navigated a) (world a)) ;;;
  in_world (modify (fun w =>
    set_storage (<[token := <[SESSION_USER_ID_KEY := User.id user]> (app_storage_user token w)]>
                   (storage w)) w)).

(** [authenticate_user] and [get_current_user], the module-level functions
    of [services/auth.py] *)
Definition authenticate_user (check_password : string -> string -> bool)
    (username password : string) : M AuthenticationResult.t :=
  authenticate check_password username password.

Definition get_current_user_legacy (token : string) : M (option User.t) :=
  get_current_user token.

Module LoginFormComponent.

(** The values of the two inputs and the label of the message. *)
Record t : Type := mk {
  username_input : string;
  password_input : string;
  message_label : Label.t }.

Definition set_message_label (v : Label.t) (c : t) : t :=
  mk (username_input c) (password_input c) v.

End LoginFormComponent.

Definition REDIRECT_AFTER_LOGIN (prefix : string) : string := ROUTE_SUBMISSIONS prefix.

(** [LoginFormComponent._show_error] *)
Definition _show_error (message : string) : ST (LoginFormComponent.t * App) unit :=
  modify (fun '(self, a) =>
    (LoginFormComponent.set_message_label
       (Label.mk message
          (Label.classes (LoginFormComponent.message_label self) ++ ["text-red-600"]))
       self, a)).

(** [LoginFormComponent._authenticate] *)
Definition _authenticate (check_password : string -> string -> bool)
    (username password : string) : M AuthenticationResult.t :=
  try_except
    (authenticate_user check_password username password)
    (fun e =>
       logger ERROR ("Authentication error: " +:+ str e) ;;;
       ret (AuthenticationResult.mk false "Kimlik doğrulama sırasında bir hata oluştu" None)).

(** [LoginFormComponent._handle_success]; [on_success_callback] is the
    callback given to the component.  A result without a user makes
    [result.user.username] fail on [None]. *)
Definition login_handle_success (prefix : string)
    (on_success_callback : User.t -> ST App unit) (result : AuthenticationResult.t)
  : ST (LoginFormComponent.t * App) unit :=
  match AuthenticationResult.user result with
  | Some user =>
      lift (in_world (logger INFO ("User logged in successfully: " +:+ User.username user))) ;;;
      modify (fun '(self, a) =>
        (LoginFormComponent.set_message_label
           (Label.mk (AuthenticationResult.message result)
              (Label.classes (LoginFormComponent.message_label self) ++ ["text-green-600"]))
           self, a)) ;;;
      (* Execute callback to store user session *)
      lift (on_success_callback user) ;;;
      (* Redirect to dashboard *)
      lift (ui_navigate_to (REDIRECT_AFTER_LOGIN prefix))
  | None => raise (Exn AttributeError "'NoneType' object has no attribute 'username'")
  end.

(** [LoginFormComponent._handle_error] *)
Definition login_handle_error (result : AuthenticationResult.t)
  : ST (LoginFormComponent.t * App) unit :=
  lift (in_world (logger WARNING ("Failed login attempt: " +:+
                                  AuthenticationResult.message result))) ;;;
  modify (fun '(self, a) =>
    (LoginFormComponent.set_message_label
       (Label.mk (AuthenticationResult.message result)
          (Label.classes (LoginFormComponent.message_label self) ++ ["text-red-600"]))
       self, a)).

(** [LoginFormComponent.handle_login] *)
Definition handle_login (prefix : string) (check_password : string -> string -> bool)
    (on_success_callback : User.t -> ST App unit)
  : ST (LoginFormComponent.t * App) unit :=
  self <- gets fst ;;
  let username := LoginFormComponent.username_input self in
  let password := LoginFormComponent.password_input self in
  (* Validate inputs *)
  if negb (truthy username) || negb (truthy password) then
    _show_error "Lütfen kullanıcı adı ve şifre girin"
  else
    (* Authenticate *)
    result <- lift (in_world (_authenticate check_password username password)) ;;
    if AuthenticationResult.success result then
      login_handle_success prefix on_success_callback result
    else login_handle_error result.

(** What a page function of [app.py] renders. *)
Inductive Page : Type :=
| PagePoolForm (form : PoolFormComponent.t)
| PageDashboard (user : User.t)
| PagePleaseLogin
| PageLoginRequired.

(** [render_pool_form]: build the component and load its data. *)
Definition render_pool_form (user : User.t) (reading_ref_id : option string) : M Page :=
  r <- with_object (PoolFormComponent.init user reading_ref_id) load_data ;;
  ret (PagePoolForm (snd r)).

(** [pool_page] and [new_form_page]: both render a new form for the user
    held in [logged_in_user]. *)
Definition pool_page : ST App Page :=
  u <- gets logged_in_user ;;
  match u with
  | Some user => in_world (render_pool_form user None)
  | None => ret PagePleaseLogin
  end.

Definition new_form_page : ST App Page := pool_page.

(** [submissions_page] *)
Definition submissions_page : ST App Page :=
  u <- gets logged_in_user ;;
  match u with
  | Some user => ret (PageDashboard user)
  | None => ret PagePleaseLogin
  end.

(** [form_page], in a request of the browser [token] *)
Definition form_page (prefix : string) (token : string) (ref_id : string) : ST App Page :=
  (* Get the current logged-in user *)
  user <- in_world (get_current_user_legacy token) ;;
  match user with
  | None =>
      (* Authentication Guard *)
      ui_navigate_to (get_navigation_path prefix "/") ;;;
      ret PageLoginRequired
  | Some user =>
      (* Render the Form Component *)
      in_world (render_pool_form user (Some ref_id))
  end.

(** ** Sample data for the worked examples *)

Definition hotel_x : Hotel.t := Hotel.mk 1 "Palmiye".
Definition hotel_y : Hotel.t := Hotel.mk 2 "Marina".

Definition admin_user : User.t := User.mk 1 "admin" "pbkdf2_sha256$a" true None.
Definition staff_x : User.t := User.mk 2 "ayse" "pbkdf2_sha256$b" false (Some hotel_x).
Definition staff_y : User.t := User.mk 3 "mehmet" "pbkdf2_sha256$c" false (Some hotel_y).
Definition unassigned_user : User.t := User.mk 4 "deniz" "pbkdf2_sha256$d" false None.

Definition noon : datetime.t := datetime.mk 2024 5 17 12 0 0 0.

(** An empty store with the four users, the database up, no session, the
    cache as the module creates it. *)
Definition world0 : World :=
  mkWorld [admin_user; staff_x; staff_y; unassigned_user] [] 1 true ∅
          (SubmissionsCache.init CACHE_TTL_SECONDS) [] [] noon.

Definition good_data : PoolReadingData.t :=
  PoolReadingData.mk (72 # 10) 1 100 26 "clear" EmptyString.

(** The reading that [staff_x] submits at [noon] into [world0], and the
    world with that one row stored. *)
Definition reading1 : PoolReading.t :=
  PoolReading.mk (Some 1) hotel_x staff_x (Some noon) (72 # 10) 1 100 26
                 "clear" EmptyString "Palmiye__ayse__20240517_120000" "submitted".

Definition world1 : World :=
  mkWorld [admin_user; staff_x; staff_y; unassigned_user] [reading1] 2 true ∅
          (SubmissionsCache.init CACHE_TTL_SECONDS) [] [] noon.

(** The instance that [acreate] builds for [staff_x] before it is saved. *)
Definition fresh_reading : PoolReading.t :=
  PoolReading.mk None hotel_x staff_x None (72 # 10) 1 100 26
                 "clear" EmptyString EmptyString "submitted".

(** Half a second after [noon]. *)
Definition noon_and_a_half : datetime.t := datetime.mk 2024 5 17 12 0 0 500000.

(** One hour later [staff_x] opens the form of [reading1], changes the pH
    to 7.6 and presses the submit button. *)
Definition one_pm : datetime.t := datetime.mk 2024 5 17 13 0 0 0.

Definition edit_form : PoolFormComponent.t :=
  fst (snd (load_data (PoolFormComponent.init staff_x (Some (PoolReading.reference_id reading1)),
                       set_clock one_pm world1))).

Definition revised_form : PoolFormComponent.t :=
  PoolFormComponent.set_state
    (FormState.set_ph_level (76 # 10) (PoolFormComponent.state edit_form)) edit_form.

Definition after_resubmit : (PoolFormComponent.t * Label.t) * World :=
  snd (handle_submit ((revised_form, Label.mk EmptyString []), set_clock one_pm world1)).

Definition reading2 : PoolReading.t :=
  PoolReading.mk (Some 2) hotel_x staff_x (Some one_pm) (76 # 10) 1 100 26
                 "clear" EmptyString "Palmiye__ayse__20240517_130000" "submitted".

(** The scenario of the cache: viewer 2 gets a listing cached at [noon]. *)
Definition rowsA : list SubmissionRow.t :=
  [SubmissionRow.mk (Some 1) "Palmiye__ayse__20240517_120000" "Palmiye" "ayse"
                    "2024-05-17 12:00" "Gönderildi" (72 # 10) 1 "Berrak"].

Definition world_cached : World := snd (SubmissionsCache_set 2 rowsA world1).

Definition just_before_expiry : datetime.t := datetime.mk 2024 5 17 12 0 59 999999.
Definition at_expiry : datetime.t := datetime.mk 2024 5 17 12 1 0 0.

(** A browser whose session names the user 99, who does not exist. *)
Definition world_stale : World :=
  set_storage (<["browser-1" := <[SESSION_USER_ID_KEY := 99]> ∅]> ∅) world1.

(** Two hotels, one reading each. *)
Definition reading_y : PoolReading.t :=
  PoolReading.mk (Some 2) hotel_y staff_y (Some one_pm) (68 # 10) 2 90 27
                 "cloudy" EmptyString "Marina__mehmet__20240517_130000" "in_progress".

Definition world_two_hotels : World := set_readings [reading1; reading_y] world1.

(** The same two rows with the sequence of keys past both. *)
Definition world_two_hotels_next : World := set_reading_seq 3 world_two_hotels.

(** The application before anybody has logged in, a hasher that accepts one
    password, and the login form as a user has filled it in. *)
Definition app0 : App := mkApp None [] world1.

Definition accept_secret (password password_hash : string) : bool :=
  String.eqb password "secret".

Definition login_form_ayse : LoginFormComponent.t :=
  LoginFormComponent.mk "ayse" "secret" (Label.mk EmptyString []).

Definition login_form_wrong : LoginFormComponent.t :=
  LoginFormComponent.mk "ayse" "guess" (Label.mk EmptyString []).

(** ** Notions used in the statements *)

(** The identifier that [save] derives for an instance without one; [now]
    is the reading of the clock that [save] takes when the instance has no
    submission date yet. *)
Definition derived_reference_id (self : PoolReading.t) (now : datetime.t) : string :=
  Hotel.name (PoolReading.hotel self) +:+ "__" +:+
  User.username (PoolReading.submitted_by self) +:+ "__" +:+
  datetime.strftime (default now (PoolReading.submission_date self))
                    REFERENCE_TIMESTAMP_FORMAT.

(** What may happen to an instance after its first save: further saves,
    status updates, and any activity of the rest of the process. *)
Inductive reading_op : Type :=
| op_save (kw : save_kwargs)
| op_update_status (new_status : string) (updated_by : User.t)
| op_world (f : World -> World).

Definition run_op (s : PoolReading.t * World) (op : reading_op) : PoolReading.t * World :=
  match op with
  | op_save kw => snd (save kw s)
  | op_update_status new_status updated_by => snd (update_reading_status new_status updated_by s)
  | op_world f => (fst s, f (snd s))
  end.

Definition run_ops (ops : list reading_op) (s : PoolReading.t * World) : PoolReading.t * World :=
  fold_left run_op ops s.

(** The two failure results of [submit_reading]. *)
Definition no_hotel_result : PoolReadingSubmissionResult.t :=
  PoolReadingSubmissionResult.mk false MSG_NO_HOTEL None None.

Definition system_error_result : PoolReadingSubmissionResult.t :=
  PoolReadingSubmissionResult.mk false MSG_SYSTEM_ERROR None None.

(** The instance that [_create_reading] builds, and the row that its
    insertion stores in the world [w]. *)
Definition unsaved_reading (data : PoolReadingData.t) (h : Hotel.t) (user : User.t)
  : PoolReading.t :=
  PoolReading.mk None h user None
    (PoolReadingData.ph_level data) (PoolReadingData.chlorine_ppm data)
    (PoolReadingData.alkalinity_ppm data) (PoolReadingData.temperature_celsius data)
    (PoolReadingData.water_clarity data) (PoolReadingData.notes data)
    EmptyString PoolReading.Status_SUBMITTED.

Definition submitted_reference_id (h : Hotel.t) (user : User.t) (now : datetime.t) : string :=
  Hotel.name h +:+ "__" +:+ User.username user +:+ "__" +:+
  datetime.strftime now REFERENCE_TIMESTAMP_FORMAT.

Definition inserted_reading (data : PoolReadingData.t) (h : Hotel.t) (user : User.t)
    (w : World) : PoolReading.t :=
  PoolReading.set_id (Some (reading_seq w))
    (PoolReading.set_submission_date (Some (clock w))
       (PoolReading.set_reference_id (submitted_reference_id h user (clock w))
          (unsaved_reading data h user))).

Definition reference_id_taken (ref : string) (w : World) : bool :=
  existsb (fun row => String.eqb (PoolReading.reference_id row) ref) (readings w).

Definition log_error_submit (user : User.t) (e : exn) (w : World) : World :=
  set_log (log w ++ [mkLog ERROR ("Database error during form submission by " +:+
                                  User.username user +:+ ": " +:+ str e)]) w.

(** What the specification asks of the outcome of a reference-id
    collision: that the caller can tell it from the system-error result. *)
Definition distinct_from_system_error (r : res PoolReadingSubmissionResult.t) : Prop :=
  r <> Ok system_error_result.

(** The row that the loop of [_fetch_from_database] builds for a stored
    reading. *)
Definition row_of_reading (reading : PoolReading.t) : SubmissionRow.t :=
  SubmissionRow.mk
    (PoolReading.id reading)
    (PoolReading.reference_id reading)
    (Hotel.name (PoolReading.hotel reading))
    (User.username (PoolReading.submitted_by reading))
    (from_option (fun d => datetime.strftime d DATE_FORMAT) EmptyString
                 (PoolReading.submission_date reading))
    (PoolReading.display PoolReading.Status_choices (PoolReading.status reading))
    (PoolReading.ph_level reading)
    (PoolReading.chlorine_ppm reading)
    (PoolReading.display PoolReading.WaterClarity_choices (PoolReading.water_clarity reading)).

(** The stored rows have a submission date: the column is NOT NULL. *)
Definition dated (rows : list PoolReading.t) : Prop :=
  Forall (fun r => is_Some (PoolReading.submission_date r)) rows.

(** Whether the viewer [user] may see the reading [r]. *)
Definition visible_to (user : User.t) (r : PoolReading.t) : Prop :=
  User.is_admin user = true \/ User.hotel_id user = Some (PoolReading.hotel_id r).

(** The results of [authenticate]. *)
Definition auth_required_result : AuthenticationResult.t :=
  AuthenticationResult.mk false "Kullanıcı adı ve şifre gereklidir" None.

Definition auth_ok_result (user : User.t) : AuthenticationResult.t :=
  AuthenticationResult.mk true "Giriş başarılı!" (Some user).

Definition auth_wrong_password_result : AuthenticationResult.t :=
  AuthenticationResult.mk false "Geçersiz şifre" None.

Definition auth_not_found_result : AuthenticationResult.t :=
  AuthenticationResult.mk false "Kullanıcı bulunamadı" None.

Definition auth_error_result : AuthenticationResult.t :=
  AuthenticationResult.mk false "Kimlik doğrulama sırasında bir hata oluştu" None.

(** Two worlds that differ in their log only. *)
Definition same_but_log (w w' : World) : Prop :=
  users w' = users w /\ readings w' = readings w /\ reading_seq w' = reading_seq w
  /\ db_up w' = db_up w /\ storage w' = storage w /\ cache w' = cache w
  /\ notifications w' = notifications w /\ clock w' = clock w.

(** [s.endswith('/')] and a run of [n] slashes *)
Fixpoint endswith_slash (s : string) : bool :=
  match s with
  | EmptyString => false
  | String c EmptyString => Ascii.eqb c "/"
  | String _ rest => endswith_slash rest
  end.

Fixpoint slashes (n : nat) : string :=
  match n with
  | O => EmptyString
  | S n' => String "/" (slashes n')
  end.

(** The invariant of the table of readings: the reference ids and the
    primary keys are unique, every key is below the next key of the
    sequence, and every row has its submission date. *)
Definition store_wf (w : World) : Prop :=
  NoDup (map PoolReading.reference_id (readings w))
  /\ NoDup (map PoolReading.id (readings w))
  /\ Forall (fun r => exists i, PoolReading.id r = Some i /\ i < reading_seq w) (readings w)
  /\ dated (readings w).

(** The world after the row of a submission has been inserted. *)
Definition inserted_world (data : PoolReadingData.t) (h : Hotel.t) (user : User.t)
    (w : World) : World :=
  set_reading_seq (reading_seq w + 1)
    (set_readings (readings w ++ [inserted_reading data h user w]) w).

(** The result of a successful submission that stored [row]. *)
Definition submitted_result (row : PoolReading.t) : PoolReadingSubmissionResult.t :=
  PoolReadingSubmissionResult.mk true MSG_SUBMITTED
    (Some (PoolReading.reference_id row)) (Some row).

(** When a status update goes through: the status is one of the four, the
    instance has a primary key, the database answers and holds a row of
    that key. *)
Definition update_goes_through (new_status : string) (reading : PoolReading.t) (w : World)
  : bool :=
  PoolReading.in_choices new_status PoolReading.Status_choices
  && match PoolReading.id reading with
     | Some pk => db_up w && existsb (PoolReading.has_pk pk) (readings w)
     | None => false
     end.

(** The requests that write to the store or move its environment, and the
    world after serving one: a submission through the form function, a
    status update of some instance, a tick of the clock, the database going
    down or coming back. *)
Inductive request : Type :=
| req_submit (ph_level chlorine_ppm : Q) (alkalinity_ppm : Z) (temperature_celsius : Q)
             (water_clarity notes : string) (user : User.t)
| req_update_status (reading : PoolReading.t) (new_status : string) (updated_by : User.t)
| req_clock (now : datetime.t)
| req_db (up : bool).

Definition serve (w : World) (r : request) : World :=
  match r with
  | req_submit ph chl alk temp wc notes user =>
      snd (submit_pool_reading ph chl alk temp wc notes user w)
  | req_update_status reading new_status updated_by =>
      snd (snd (update_reading_status new_status updated_by (reading, w)))
  | req_clock now => set_clock now w
  | req_db up => set_db_up up w
  end.

(** Two readings of the clock that fall in the same second. *)
Definition same_second (d1 d2 : datetime.t) : Prop :=
  datetime.year d1 = datetime.year d2 /\ datetime.month d1 = datetime.month d2
  /\ datetime.day d1 = datetime.day d2 /\ datetime.hour d1 = datetime.hour d2
  /\ datetime.minute d1 = datetime.minute d2 /\ datetime.second d1 = datetime.second d2.



(** * Proofs *)

Ltac st_unfold :=
  unfold logger, datetime_now, db_execute, qs_get in *;
  unfold bind, ret, raise, gets, modify, try_except, lift, with_object in *.

Lemma Model_save_reference_id kw self w :
  PoolReading.reference_id (fst (snd (Model_save kw (self, w)))) =
  PoolReading.reference_id self.
Proof.
  unfold Model_save. repeat case_match; reflexivity.
Qed.

Lemma save_first kw self w :
  PoolReading.reference_id self = EmptyString ->
  PoolReading.reference_id (fst (snd (save kw (self, w)))) =
  derived_reference_id self (clock w).
Proof.
  intros H. unfold save. st_unfold. cbn [fst snd]. rewrite H. cbn [truthy negb].
  unfold derived_reference_id.
  destruct (PoolReading.submission_date self) eqn:E; cbn [fst snd];
    rewrite Model_save_reference_id; reflexivity.
Qed.

Lemma truthy_nonempty s : s <> EmptyString -> truthy s = true.
Proof. destruct s; [congruence | reflexivity]. Qed.

Lemma save_later kw self w :
  PoolReading.reference_id self <> EmptyString ->
  PoolReading.reference_id (fst (snd (save kw (self, w)))) =
  PoolReading.reference_id self.
Proof.
  intros H. unfold save. st_unfold. cbn [fst snd].
  rewrite (truthy_nonempty _ H). cbn [negb].
  apply Model_save_reference_id.
Qed.

(** [update_reading_status] either fails validation before it touches the
    instance, or sets the status and saves. *)
Lemma update_reading_status_unfold new_status updated_by reading w :
  update_reading_status new_status updated_by (reading, w) =
  if PoolReading.in_choices new_status PoolReading.Status_choices then
    match asave ["status"] (PoolReading.set_status new_status reading, w) with
    | (Ok _, (reading', w')) =>
        (Ok true,
         (reading',
          set_log (log w' ++ [mkLog INFO
            ("Reading " +:+ PoolReading.reference_id reading' +:+
             " status updated to " +:+ new_status +:+
             " by " +:+ User.username updated_by)]) w'))
    | (Raise e, (reading', w')) =>
        (Ok false,
         (reading',
          set_log (log w' ++ [mkLog ERROR ("Error updating reading status: " +:+ str e)]) w'))
    end
  else
    (Ok false,
     (reading,
      set_log (log w ++ [mkLog ERROR
        ("Error updating reading status: " +:+ "Invalid status: " +:+ new_status)]) w)).
Proof.
  unfold update_reading_status. st_unfold.
  destruct (PoolReading.in_choices new_status PoolReading.Status_choices); cbn [negb fst snd].
  - destruct (asave ["status"] (PoolReading.set_status new_status reading, w))
      as [[[]|e] [reading' w']]; reflexivity.
  - reflexivity.
Qed.

Lemma derived_reference_id_nonempty self now :
  derived_reference_id self now <> EmptyString.
Proof.
  unfold derived_reference_id.
  destruct (Hotel.name (PoolReading.hotel self)); discriminate.
Qed.

Lemma set_status_reference_id v r :
  PoolReading.reference_id (PoolReading.set_status v r) = PoolReading.reference_id r.
Proof. reflexivity. Qed.

Lemma update_reading_status_reference_id new_status updated_by reading w :
  PoolReading.reference_id reading <> EmptyString ->
  PoolReading.reference_id (fst (snd (update_reading_status new_status updated_by (reading, w)))) =
  PoolReading.reference_id reading.
Proof.
  intros H. rewrite update_reading_status_unfold.
  destruct (PoolReading.in_choices _ _); [|reflexivity].
  unfold asave.
  pose proof (save_later (update_fields ["status"])
                (PoolReading.set_status new_status reading) w) as HS.
  rewrite set_status_reference_id in HS. specialize (HS H).
  destruct (save _ _) as [[[]|e] [reading' w']]; exact HS.
Qed.

Lemma run_op_reference_id op self w :
  PoolReading.reference_id self <> EmptyString ->
  PoolReading.reference_id (fst (run_op (self, w) op)) = PoolReading.reference_id self.
Proof.
  intros H. destruct op; cbn [run_op].
  - apply save_later, H.
  - apply update_reading_status_reference_id, H.
  - reflexivity.
Qed.

Lemma run_ops_reference_id ops : forall self w,
  PoolReading.reference_id self <> EmptyString ->
  PoolReading.reference_id (fst (run_ops ops (self, w))) = PoolReading.reference_id self.
Proof.
  induction ops as [|op ops IH]; intros self w H; [reflexivity|].
  unfold run_ops in *. cbn [fold_left].
  pose proof (run_op_reference_id op self w H) as Hop.
  destruct (run_op (self, w) op) as [self1 w1]. cbn [fst] in Hop.
  rewrite IH; [exact Hop | rewrite Hop; exact H].
Qed.

Lemma strftime_reference_format d :
  datetime.strftime d REFERENCE_TIMESTAMP_FORMAT =
  datetime.pad4 (datetime.year d) +:+ datetime.pad2 (datetime.month d) +:+
  datetime.pad2 (datetime.day d) +:+ "_" +:+
  datetime.pad2 (datetime.hour d) +:+ datetime.pad2 (datetime.minute d) +:+
  datetime.pad2 (datetime.second d).
Proof. reflexivity. Qed.

Lemma strftime_reference_length d :
  String.length (datetime.strftime d REFERENCE_TIMESTAMP_FORMAT) = 15%nat.
Proof. reflexivity. Qed.

Lemma digit_spec n : 0 <= n <= 9 -> datetime.digit n = ascii_of_nat (48 + Z.to_nat n).
Proof. intros H. unfold datetime.digit. rewrite Z.mod_small by lia. reflexivity. Qed.

(** *** Saving: what it leaves alone *)

Lemma Model_save_status kw self w :
  PoolReading.status (fst (snd (Model_save kw (self, w)))) = PoolReading.status self.
Proof. unfold Model_save. repeat case_match; reflexivity. Qed.

Lemma Model_save_raise_world kw self w e :
  fst (Model_save kw (self, w)) = Raise e -> snd (snd (Model_save kw (self, w))) = w.
Proof. unfold Model_save. repeat case_match; cbn [fst snd]; congruence. Qed.

Lemma save_unfold kw self w :
  save kw (self, w) =
  Model_save kw
    (if truthy (PoolReading.reference_id self) then self
     else PoolReading.set_reference_id (derived_reference_id self (clock w)) self, w).
Proof.
  unfold save. st_unfold. cbn [fst snd]. unfold derived_reference_id.
  destruct (truthy (PoolReading.reference_id self)); cbn [negb].
  - reflexivity.
  - destruct (PoolReading.submission_date self); reflexivity.
Qed.

Lemma save_status kw self w :
  PoolReading.status (fst (snd (save kw (self, w)))) = PoolReading.status self.
Proof.
  rewrite save_unfold, Model_save_status. destruct (truthy _); reflexivity.
Qed.

Lemma save_raise_world kw self w e :
  fst (save kw (self, w)) = Raise e -> snd (snd (save kw (self, w))) = w.
Proof. rewrite save_unfold. apply Model_save_raise_world. Qed.

Lemma status_is_a_field :
  forallb (fun x => bool_decide (x ∈ PoolReading.field_names)) ["status"] = true.
Proof. vm_compute. reflexivity. Qed.

(** [save(update_fields=['status'])] on an instance [self]. *)
Lemma Model_save_status_unfold self w :
  Model_save (update_fields ["status"]) (self, w) =
  match PoolReading.id self with
  | None =>
      (Raise (Exn ValueError "Cannot force an update in save() with no primary key."),
       (self, w))
  | Some pk =>
      if negb (db_up w) then (Raise db_unavailable, (self, w))
      else if existsb (PoolReading.has_pk pk) (readings w) then
        (Ok tt,
         (self,
          set_readings
            (map (fun row => if PoolReading.has_pk pk row
                             then PoolReading.set_status (PoolReading.status self) row
                             else row)
                 (readings w)) w))
      else
        (Raise (Exn DatabaseError "Save with update_fields did not affect any rows."),
         (self, w))
  end.
Proof. unfold Model_save. rewrite status_is_a_field. reflexivity. Qed.

Lemma map_set_status_reference_ids pk v rows :
  map PoolReading.reference_id
      (map (fun row => if PoolReading.has_pk pk row
                       then PoolReading.set_status v row else row) rows) =
  map PoolReading.reference_id rows.
Proof.
  induction rows as [|r rows IH]; [reflexivity|].
  cbn [map]. rewrite IH. destruct (PoolReading.has_pk pk r); reflexivity.
Qed.

Lemma asave_status_reference_ids self w :
  map PoolReading.reference_id (readings (snd (snd (asave ["status"] (self, w))))) =
  map PoolReading.reference_id (readings w).
Proof.
  unfold asave. rewrite save_unfold, Model_save_status_unfold.
  repeat case_match; cbn [fst snd readings set_readings];
    try reflexivity; apply map_set_status_reference_ids.
Qed.

Lemma update_reading_status_stored_reference_ids new_status updated_by reading w :
  map PoolReading.reference_id
      (readings (snd (snd (update_reading_status new_status updated_by (reading, w))))) =
  map PoolReading.reference_id (readings w).
Proof.
  rewrite update_reading_status_unfold.
  destruct (PoolReading.in_choices _ _); [|reflexivity].
  pose proof (asave_status_reference_ids (PoolReading.set_status new_status reading) w) as H.
  destruct (asave _ _) as [[[]|e] [reading' w']]; exact H.
Qed.

Lemma strftime_reference_seconds y mo d h mi s us us' :
  datetime.strftime (datetime.mk y mo d h mi s us) REFERENCE_TIMESTAMP_FORMAT =
  datetime.strftime (datetime.mk y mo d h mi s us') REFERENCE_TIMESTAMP_FORMAT.
Proof. reflexivity. Qed.

(** C6.  The reference id is derived at the first save of an instance that
    has none, as hotel name, two underscores, username, two underscores and
    the timestamp in the form YYYYMMDD_HHMMSS (fifteen characters, the
    microseconds do not enter); no later save, status update or other
    activity changes the identifier of the instance, and a status update
    leaves every stored identifier as it was. *)
Theorem reference_id_assigned_once :
  (forall kw self w,
     PoolReading.reference_id self = EmptyString ->
     PoolReading.reference_id (fst (snd (save kw (self, w)))) =
     Hotel.name (PoolReading.hotel self) +:+ "__" +:+
     User.username (PoolReading.submitted_by self) +:+ "__" +:+
     datetime.strftime (default (clock w) (PoolReading.submission_date self))
                       "%Y%m%d_%H%M%S")
  /\ (forall d,
        datetime.strftime d "%Y%m%d_%H%M%S" =
        datetime.pad4 (datetime.year d) +:+ datetime.pad2 (datetime.month d) +:+
        datetime.pad2 (datetime.day d) +:+ "_" +:+
        datetime.pad2 (datetime.hour d) +:+ datetime.pad2 (datetime.minute d) +:+
        datetime.pad2 (datetime.second d)
        /\ String.length (datetime.strftime d "%Y%m%d_%H%M%S") = 15%nat)
  /\ (forall y mo d h mi s us us',
        datetime.strftime (datetime.mk y mo d h mi s us) "%Y%m%d_%H%M%S" =
        datetime.strftime (datetime.mk y mo d h mi s us') "%Y%m%d_%H%M%S")
  /\ (forall kw self w ops,
        PoolReading.reference_id self = EmptyString ->
        PoolReading.reference_id (fst (run_ops ops (snd (save kw (self, w))))) =
        PoolReading.reference_id (fst (snd (save kw (self, w)))))
  /\ (forall kw self w,
        PoolReading.reference_id self <> EmptyString ->
        PoolReading.reference_id (fst (snd (save kw (self, w)))) =
        PoolReading.reference_id self)
  /\ (forall new_status updated_by reading w,
        PoolReading.reference_id reading <> EmptyString ->
        PoolReading.reference_id
          (fst (snd (update_reading_status new_status updated_by (reading, w)))) =
        PoolReading.reference_id reading
        /\ map PoolReading.reference_id
             (readings (snd (snd (update_reading_status new_status updated_by (reading, w))))) =
           map PoolReading.reference_id (readings w)).
Proof.
  repeat split.
  - intros kw self w H. apply save_first, H.
  - intros kw self w ops H.
    pose proof (save_first kw self w H) as H1.
    destruct (snd (save kw (self, w))) as [self1 w1]. cbn [fst] in *.
    apply run_ops_reference_id. rewrite H1. apply derived_reference_id_nonempty.
  - intros kw self w H. apply save_later, H.
  - apply update_reading_status_reference_id. assumption.
  - apply update_reading_status_stored_reference_ids.
Qed.

Example world1_is_submitted :
  readings (snd (submit_reading good_data staff_x world0)) = readings world1
  /\ reading_seq (snd (submit_reading good_data staff_x world0)) = reading_seq world1.
Proof. split; reflexivity. Qed.

(** *** Status updates *)

(** C10.  When the requested status is one of the four and the store write
    of [update_reading_status] fails, the call returns [False] and the
    stored rows are as before, but the instance of the caller keeps the
    requested status: the assignment made before the write is not undone. *)
Theorem update_reading_status_not_rolled_back
    (new_status : string) (updated_by : User.t) (reading : PoolReading.t) (w : World) (e : exn) :
  PoolReading.in_choices new_status PoolReading.Status_choices = true ->
  fst (asave ["status"] (PoolReading.set_status new_status reading, w)) = Raise e ->
  fst (update_reading_status new_status updated_by (reading, w)) = Ok false
  /\ PoolReading.status (fst (snd (update_reading_status new_status updated_by (reading, w))))
     = new_status
  /\ readings (snd (snd (update_reading_status new_status updated_by (reading, w))))
     = readings w.
Proof.
  intros Hin Hfail. rewrite update_reading_status_unfold, Hin.
  unfold asave in *.
  pose proof (save_status (update_fields ["status"])
                (PoolReading.set_status new_status reading) w) as Hst.
  pose proof (save_raise_world _ _ _ _ Hfail) as Hw.
  destruct (save _ _) as [[[]|e'] [reading' w']]; cbn [fst snd] in *; [discriminate|].
  subst w'. repeat split. exact Hst.
Qed.

Lemma update_reading_status_not_rolled_back_witness :
  fst (update_reading_status "completed" admin_user (reading1, set_db_up false world1))
  = Ok false
  /\ PoolReading.status
       (fst (snd (update_reading_status "completed" admin_user
                    (reading1, set_db_up false world1))))
     = "completed"
  /\ readings (snd (snd (update_reading_status "completed" admin_user
                           (reading1, set_db_up false world1))))
     = [reading1].
Proof.
  exact (update_reading_status_not_rolled_back "completed" admin_user reading1
           (set_db_up false world1) db_unavailable eq_refl eq_refl).
Defined.

Lemma reference_id_assigned_once_witness :
  PoolReading.reference_id (fst (snd (save force_insert (fresh_reading, world0)))) =
  "Palmiye__ayse__20240517_120000"
  /\ PoolReading.reference_id
       (fst (run_ops [op_update_status "completed" admin_user;
                      op_world (set_clock (datetime.mk 2025 1 1 8 30 0 0));
                      op_save (update_fields ["status"])]
                     (snd (save force_insert (fresh_reading, world0))))) =
     "Palmiye__ayse__20240517_120000".
Proof.
  pose proof reference_id_assigned_once as [Hfirst [_ [_ [Hops _]]]].
  split.
  - exact (Hfirst force_insert fresh_reading world0 eq_refl).
  - rewrite (Hops force_insert fresh_reading world0 _ eq_refl).
    exact (Hfirst force_insert fresh_reading world0 eq_refl).
Defined.

(** The role of the actor is not read: two actors of the same name get the
    same outcome. *)
Lemma update_reading_status_actor_unread new_status (u1 u2 : User.t) s :
  User.username u1 = User.username u2 ->
  update_reading_status new_status u1 s = update_reading_status new_status u2 s.
Proof.
  intros H. destruct s as [reading w].
  rewrite !update_reading_status_unfold, H. reflexivity.
Qed.

(** The form disables the status selector for whoever is not an
    administrator. *)
Lemma status_selector_enabled_iff_admin self :
  Select.enabled (_render_status_field self) = User.is_admin (PoolFormComponent.user self).
Proof.
  unfold _render_status_field. destruct (User.is_admin _); reflexivity.
Qed.

(** C1.  The specification wants [update_reading_status] to return [False]
    and to leave the status alone for every actor that is not an
    administrator.  The service never reads [is_admin]; only the form
    disables the selector.  For the staff user [staff_x], the stored reading
    [reading1] and the status [completed], the call returns [True], and
    both the instance and the stored row end up [completed]. *)
Theorem nonadmin_update_reading_status_succeeds :
  User.is_admin staff_x = false
  /\ Select.enabled (_render_status_field (PoolFormComponent.init staff_x None)) = false
  /\ PoolReading.status reading1 = "submitted"
  /\ fst (update_reading_status "completed" staff_x (reading1, world1)) = Ok true
  /\ PoolReading.status
       (fst (snd (update_reading_status "completed" staff_x (reading1, world1))))
     = "completed"
  /\ readings (snd (snd (update_reading_status "completed" staff_x (reading1, world1))))
     = [PoolReading.set_status "completed" reading1].
Proof. repeat split. Qed.

(** *** Submission *)

Lemma _create_reading_unfold data user h w :
  User.hotel user = Some h ->
  _create_reading data user w =
  if negb (db_up w) then (Raise db_unavailable, w)
  else if reference_id_taken (submitted_reference_id h user (clock w)) w then
    (Raise (Exn IntegrityError "UNIQUE constraint failed: pools_poolreading.reference_id"), w)
  else
    (Ok (inserted_reading data h user w),
     set_reading_seq (reading_seq w + 1)
       (set_readings (readings w ++ [inserted_reading data h user w]) w)).
Proof.
  intros Hh. unfold _create_reading, PoolReading_acreate. rewrite Hh.
  st_unfold. rewrite save_unfold. unfold Model_save, reference_id_taken.
  cbn [PoolReading.reference_id truthy].
  unfold inserted_reading, unsaved_reading, submitted_reference_id, derived_reference_id.
  cbn [PoolReading.reference_id PoolReading.set_reference_id PoolReading.set_submission_date
       PoolReading.submission_date PoolReading.hotel PoolReading.submitted_by default
       PoolReading.id PoolReading.ph_level PoolReading.chlorine_ppm PoolReading.alkalinity_ppm
       PoolReading.temperature_celsius PoolReading.water_clarity PoolReading.notes
       PoolReading.status from_option].
  destruct (db_up w); cbn [negb]; [|reflexivity].
  destruct (existsb _ _); reflexivity.
Qed.

Lemma submit_reading_no_hotel data user w :
  User.hotel user = None ->
  submit_reading data user w = (Ok no_hotel_result, w).
Proof. intros H. unfold submit_reading. st_unfold. rewrite H. reflexivity. Qed.

Lemma submit_reading_db_down data user h w :
  User.hotel user = Some h -> db_up w = false ->
  submit_reading data user w =
  (Ok system_error_result, log_error_submit user db_unavailable w).
Proof.
  intros Hh Hdb. unfold submit_reading. rewrite Hh.
  unfold try_except, bind at 1.
  rewrite (_create_reading_unfold _ _ _ _ Hh), Hdb. reflexivity.
Qed.

Lemma submit_reading_duplicate data user h w :
  User.hotel user = Some h -> db_up w = true ->
  reference_id_taken (submitted_reference_id h user (clock w)) w = true ->
  submit_reading data user w =
  (Ok system_error_result,
   log_error_submit user
     (Exn IntegrityError "UNIQUE constraint failed: pools_poolreading.reference_id") w).
Proof.
  intros Hh Hdb Hdup. unfold submit_reading. rewrite Hh.
  unfold try_except, bind at 1.
  rewrite (_create_reading_unfold _ _ _ _ Hh), Hdb, Hdup. reflexivity.
Qed.

Lemma submit_reading_success_inv data user w r :
  fst (submit_reading data user w) = Ok r ->
  PoolReadingSubmissionResult.success r = true ->
  exists h,
    User.hotel user = Some h /\ db_up w = true
    /\ reference_id_taken (submitted_reference_id h user (clock w)) w = false
    /\ readings (snd (submit_reading data user w)) =
       readings w ++ [inserted_reading data h user w]
    /\ db_up (snd (submit_reading data user w)) = true.
Proof.
  intros Hr Hs.
  destruct (User.hotel user) as [h|] eqn:Hh.
  2:{ rewrite (submit_reading_no_hotel _ _ _ Hh) in Hr. cbn in Hr.
      injection Hr as <-. discriminate. }
  exists h. split; [reflexivity|].
  destruct (db_up w) eqn:Hdb.
  2:{ rewrite (submit_reading_db_down _ _ _ _ Hh Hdb) in Hr. cbn in Hr.
      injection Hr as <-. discriminate. }
  destruct (reference_id_taken (submitted_reference_id h user (clock w)) w) eqn:Hdup.
  { rewrite (submit_reading_duplicate _ _ _ _ Hh Hdb Hdup) in Hr. cbn in Hr.
    injection Hr as <-. discriminate. }
  repeat split.
  - clear Hr Hs. unfold submit_reading. rewrite Hh.
    unfold try_except, bind at 1.
    rewrite (_create_reading_unfold _ _ _ _ Hh), Hdb, Hdup. cbn [negb].
    st_unfold. unfold arefresh_from_db. st_unfold.
    cbn [fst snd db_up set_reading_seq set_readings readings].
    rewrite Hdb.
    repeat case_match; simplify_eq; reflexivity.
  - clear Hr Hs. unfold submit_reading. rewrite Hh.
    unfold try_except, bind at 1.
    rewrite (_create_reading_unfold _ _ _ _ Hh), Hdb, Hdup. cbn [negb].
    st_unfold. unfold arefresh_from_db. st_unfold.
    cbn [fst snd db_up set_reading_seq set_readings readings].
    rewrite Hdb.
    repeat case_match; simplify_eq; cbn; assumption.
Qed.

Lemma reference_id_taken_last ref rows row w :
  readings w = rows ++ [row] -> PoolReading.reference_id row = ref ->
  reference_id_taken ref w = true.
Proof.
  intros Hr Href. unfold reference_id_taken. rewrite Hr, existsb_app.
  cbn [existsb]. rewrite Href, String.eqb_refl, orb_true_r. reflexivity.
Qed.

(** C2, as the code has it.  After a successful submission, a second
    submission by the same user whose clock reading falls in the same second
    returns the system-error result, the one every store failure yields,
    and stores nothing: the rows are those left by the first submission. *)
Theorem same_second_resubmit_is_system_error
    (data1 data2 : PoolReadingData.t) (user : User.t) (w : World) (now2 : datetime.t)
    (r1 : PoolReadingSubmissionResult.t) :
  fst (submit_reading data1 user w) = Ok r1 ->
  PoolReadingSubmissionResult.success r1 = true ->
  datetime.strftime now2 "%Y%m%d_%H%M%S" = datetime.strftime (clock w) "%Y%m%d_%H%M%S" ->
  fst (submit_reading data2 user (set_clock now2 (snd (submit_reading data1 user w))))
  = Ok system_error_result
  /\ readings (snd (submit_reading data2 user
                      (set_clock now2 (snd (submit_reading data1 user w)))))
     = readings (snd (submit_reading data1 user w)).
Proof.
  intros Hr Hs Hsec.
  destruct (submit_reading_success_inv _ _ _ _ Hr Hs) as (h & Hh & Hdb & Hfree & Hrows & Hdb1).
  set (w1 := snd (submit_reading data1 user w)) in *.
  assert (Hdup : reference_id_taken
                   (submitted_reference_id h user (clock (set_clock now2 w1)))
                   (set_clock now2 w1) = true).
  { apply (reference_id_taken_last _ (readings w) (inserted_reading data1 h user w)).
    - exact Hrows.
    - cbn [clock set_clock]. unfold inserted_reading, submitted_reference_id.
      cbn [PoolReading.reference_id PoolReading.set_id PoolReading.set_submission_date
           PoolReading.set_reference_id].
      unfold REFERENCE_TIMESTAMP_FORMAT. rewrite Hsec. reflexivity. }
  rewrite (submit_reading_duplicate data2 user h (set_clock now2 w1) Hh Hdb1 Hdup).
  split; reflexivity.
Qed.

Lemma same_second_resubmit_is_system_error_witness :
  fst (submit_reading good_data staff_x
         (set_clock noon_and_a_half (snd (submit_reading good_data staff_x world0))))
  = Ok system_error_result
  /\ readings (snd (submit_reading good_data staff_x
                      (set_clock noon_and_a_half (snd (submit_reading good_data staff_x world0)))))
     = readings (snd (submit_reading good_data staff_x world0)).
Proof.
  exact (same_second_resubmit_is_system_error good_data good_data staff_x world0
           noon_and_a_half _ eq_refl eq_refl eq_refl).
Defined.

Example outage_is_system_error :
  fst (submit_reading good_data staff_x
         (set_db_up false (snd (submit_reading good_data staff_x world0))))
  = Ok system_error_result.
Proof. reflexivity. Qed.

(** C2, as the specification states it, fails: the second submission of the
    same second gets exactly the system-error result, the one that a
    database outage gets, so the caller cannot tell a reference-id conflict
    from any other failure. *)
Lemma same_second_resubmit_not_distinct :
  ~ distinct_from_system_error
      (fst (submit_reading good_data staff_x
              (set_clock noon_and_a_half (snd (submit_reading good_data staff_x world0))))).
Proof. intros H. apply H. reflexivity. Qed.

(** *** The hotel check and the validation of the fields *)

Lemma submit_pool_reading_unfold ph chl alk temp wc notes user w :
  submit_pool_reading ph chl alk temp wc notes user w =
  if PoolReadingData.fields_valid ph chl alk then
    submit_reading (PoolReadingData.mk ph chl alk temp wc notes) user w
  else (Raise PoolReadingData.validation_error, w).
Proof.
  unfold submit_pool_reading, PoolReadingData.init. st_unfold.
  destruct (PoolReadingData.fields_valid ph chl alk); reflexivity.
Qed.

(** C4, as the code has it.  For a user without a hotel, [submit_reading]
    returns the no-hotel result for every data object and touches nothing;
    the constraints of the fields are checked earlier, when the data object
    is built, so through [submit_pool_reading] the no-hotel result is
    returned exactly when the fields are within range. *)
Theorem no_hotel_checked_after_field_constraints
    (ph chl : Q) (alk : Z) (temp : Q) (wc notes : string) (user : User.t) (w : World) :
  User.hotel user = None ->
  (forall data, submit_reading data user w = (Ok no_hotel_result, w))
  /\ (fst (submit_pool_reading ph chl alk temp wc notes user w) = Ok no_hotel_result
      <-> PoolReadingData.fields_valid ph chl alk = true)
  /\ snd (submit_pool_reading ph chl alk temp wc notes user w) = w.
Proof.
  intros Hh. split; [|split].
  - intros data. apply submit_reading_no_hotel, Hh.
  - rewrite submit_pool_reading_unfold.
    destruct (PoolReadingData.fields_valid ph chl alk).
    + rewrite (submit_reading_no_hotel _ _ _ Hh). split; reflexivity.
    + split; discriminate.
  - rewrite submit_pool_reading_unfold.
    destruct (PoolReadingData.fields_valid ph chl alk); [|reflexivity].
    rewrite (submit_reading_no_hotel _ _ _ Hh). reflexivity.
Qed.

Lemma no_hotel_checked_after_field_constraints_witness :
  (forall data, submit_reading data unassigned_user world0 = (Ok no_hotel_result, world0))
  /\ (fst (submit_pool_reading (72 # 10) 1 100 26 "clear" EmptyString unassigned_user world0)
      = Ok no_hotel_result
      <-> PoolReadingData.fields_valid (72 # 10) 1 100 = true)
  /\ snd (submit_pool_reading (72 # 10) 1 100 26 "clear" EmptyString unassigned_user world0)
     = world0.
Proof.
  exact (no_hotel_checked_after_field_constraints (72 # 10) 1 100 26 "clear" EmptyString
           unassigned_user world0 eq_refl).
Defined.

(** C4, as the specification states it, fails: with a pH of 14.1 and a user
    without a hotel, the out-of-range field is reported and the no-hotel
    result is not. *)
Lemma out_of_range_preempts_no_hotel :
  fst (submit_pool_reading (141 # 10) 1 100 26 "clear" EmptyString unassigned_user world0)
  <> Ok no_hotel_result.
Proof. discriminate. Qed.

(** *** Which operations can raise *)

Lemma try_except_returns {S A} (body : ST S A) (handler : exn -> ST S A) :
  (forall e s, returns (fst (handler e s)) = true) ->
  forall s, returns (fst (try_except body handler s)) = true.
Proof.
  intros Hh s. unfold try_except.
  destruct (body s) as [[a|e] s']; [reflexivity | apply Hh].
Qed.

Lemma submit_reading_returns data user w :
  returns (fst (submit_reading data user w)) = true.
Proof.
  unfold submit_reading. apply try_except_returns.
  intros e s. destruct (is_ValueError e); reflexivity.
Qed.

Lemma update_reading_status_returns new_status updated_by s :
  returns (fst (update_reading_status new_status updated_by s)) = true.
Proof.
  unfold update_reading_status. apply try_except_returns. intros e s'. reflexivity.
Qed.

Lemma authenticate_returns check_password username password w :
  returns (fst (authenticate check_password username password w)) = true.
Proof.
  unfold authenticate. destruct (_ || _); [reflexivity|].
  apply try_except_returns. intros e s. destruct (is_DoesNotExist e); reflexivity.
Qed.

Lemma get_current_user_returns token w :
  returns (fst (get_current_user token w)) = true.
Proof.
  unfold get_current_user, bind at 1. unfold gets at 1.
  destruct (app_storage_user token w !! SESSION_USER_ID_KEY) as [uid|]; [|reflexivity].
  destruct (falsy_id (Some uid)); [reflexivity|].
  apply try_except_returns. intros e s. destruct (is_DoesNotExist e); reflexivity.
Qed.

(** A validation failure leaves [submit_pool_reading] as an exception. *)
Lemma submit_pool_reading_raises_iff ph chl alk temp wc notes user w :
  returns (fst (submit_pool_reading ph chl alk temp wc notes user w)) = false
  <-> PoolReadingData.fields_valid ph chl alk = false.
Proof.
  rewrite submit_pool_reading_unfold.
  destruct (PoolReadingData.fields_valid ph chl alk).
  - rewrite submit_reading_returns. split; discriminate.
  - split; reflexivity.
Qed.

(** A failure of the store leaves [get_reading_by_reference] as an
    exception: its handler catches [DoesNotExist] only. *)
Lemma get_reading_by_reference_db_down reference_id w :
  db_up w = false ->
  get_reading_by_reference reference_id w = (Raise db_unavailable, w).
Proof.
  intros H. unfold get_reading_by_reference, PoolReading_aget_reference_id.
  st_unfold. rewrite H. reflexivity.
Qed.

(** C3.  The specification wants every exposed operation to return a
    structured result and never to raise.  [authenticate],
    [get_current_user], [submit_reading] and [update_reading_status] catch
    every exception, as the lemmas above show.  Two paths do not:
    [submit_pool_reading] builds the data object outside any [try], so a pH
    of 14.1 raises the validation error instead of returning a result with
    [success] false; and [get_reading_by_reference] catches [DoesNotExist]
    only, so a database outage raises out of it. *)
Theorem service_boundary_raises :
  fst (submit_pool_reading (141 # 10) 1 100 26 "clear" EmptyString staff_x world0)
  = Raise PoolReadingData.validation_error
  /\ fst (get_reading_by_reference "Palmiye__ayse__20240517_120000"
            (set_db_up false world1))
     = Raise db_unavailable.
Proof. split; reflexivity. Qed.

(** *** Resubmitting from the form of an existing reading *)

Lemma submit_reading_appends data user w :
  readings (snd (submit_reading data user w)) = readings w
  \/ exists h, User.hotel user = Some h /\
       readings (snd (submit_reading data user w)) =
       readings w ++ [inserted_reading data h user w].
Proof.
  destruct (User.hotel user) as [h|] eqn:Hh.
  2:{ left. rewrite (submit_reading_no_hotel _ _ _ Hh). reflexivity. }
  destruct (db_up w) eqn:Hdb.
  2:{ left. rewrite (submit_reading_db_down _ _ _ _ Hh Hdb). reflexivity. }
  destruct (reference_id_taken (submitted_reference_id h user (clock w)) w) eqn:Hdup.
  { left. rewrite (submit_reading_duplicate _ _ _ _ Hh Hdb Hdup). reflexivity. }
  right. exists h. split; [reflexivity|].
  unfold submit_reading. rewrite Hh.
  unfold try_except, bind at 1.
  rewrite (_create_reading_unfold _ _ _ _ Hh), Hdb, Hdup. cbn [negb].
  st_unfold. unfold arefresh_from_db. st_unfold.
  cbn [fst snd db_up set_reading_seq set_readings readings].
  rewrite Hdb.
  repeat case_match; simplify_eq; reflexivity.
Qed.

(** Whatever the form holds, submitting it leaves every stored row as it
    was and at most appends one new row: no path updates a row in place. *)
Lemma handle_submit_appends self msg_label w :
  readings (snd (snd (handle_submit ((self, msg_label), w)))) = readings w
  \/ exists row,
       readings (snd (snd (handle_submit ((self, msg_label), w)))) = readings w ++ [row]
       /\ PoolReading.id row = Some (reading_seq w).
Proof.
  unfold handle_submit, _submit_form. st_unfold. cbn [fst snd].
  rewrite submit_pool_reading_unfold.
  destruct (PoolReadingData.fields_valid _ _ _); [|left; reflexivity].
  match goal with |- context [submit_reading ?d ?u w] =>
    pose proof (submit_reading_appends d u w) as Happ;
    pose proof (submit_reading_returns d u w) as Hret;
    destruct (submit_reading d u w) as [[r|e] w'] end; [|discriminate Hret].
  cbn [fst snd] in *.
  destruct (PoolReadingSubmissionResult.success r);
    unfold _handle_success, _handle_error; st_unfold; cbn [fst snd readings set_log];
    (destruct Happ as [Happ | (h & _ & Happ)];
     [left; exact Happ | right; eexists; split; [exact Happ | reflexivity]]).
Qed.

(** C5.  The specification wants a submission from the form of an existing,
    editable reading to update that reading in place.  The form of
    [reading1] is loaded as existing and editable and shows the submit
    button, but [handle_submit] sends only the fields and the user to
    [submit_pool_reading], which always creates: afterwards the store holds
    [reading1] unchanged and a second row with a new reference id. *)
Theorem resubmit_creates_new_reading :
  FormState.is_existing (PoolFormComponent.state edit_form) = true
  /\ FormState.is_readonly (PoolFormComponent.state edit_form) = false
  /\ FormState.status (PoolFormComponent.state edit_form) = "submitted"
  /\ show_submit edit_form = true
  /\ readings (snd after_resubmit) = [reading1; reading2]
  /\ PoolReading.reference_id reading2 <> PoolReading.reference_id reading1
  /\ Label.text (snd (fst after_resubmit))
     = "✓ Başarılı! Referans: Palmiye__ayse__20240517_130000".
Proof. repeat split. discriminate. Qed.

(** *** The dashboard cache *)

Lemma age_below_ttl (age_us ttl : Z) :
  Qlt_bool (datetime.total_seconds age_us) (inject_Z ttl) = true
  <-> age_us < ttl * 1000000.
Proof.
  unfold Qlt_bool, datetime.total_seconds.
  rewrite negb_true_iff, <- not_true_iff_false, Qle_bool_iff.
  unfold Qle, inject_Z. cbn [Qnum Qden]. lia.
Qed.

Lemma SubmissionsCache_get_unfold user_id w :
  SubmissionsCache_get user_id w =
  match SubmissionsCache._data (cache w), SubmissionsCache._timestamp (cache w) with
  | Some rows, Some ts =>
      if bool_decide (SubmissionsCache._user_id (cache w) = Some user_id)
         && Qlt_bool (datetime.total_seconds (datetime.sub (clock w) ts))
                     (inject_Z (SubmissionsCache._ttl_seconds (cache w)))
      then (Ok (Some rows),
            set_log (log w ++ [mkLog INFO "✓ Cache HIT - Using cached data"]) w)
      else (Ok None, w)
  | _, _ => (Ok None, w)
  end.
Proof.
  unfold SubmissionsCache_get, _is_valid. st_unfold.
  destruct (SubmissionsCache._data (cache w)) as [rows|] eqn:Hd; [|reflexivity].
  destruct (SubmissionsCache._timestamp (cache w)) as [ts|]; [|reflexivity].
  destruct (decide (SubmissionsCache._user_id (cache w) = Some user_id)) as [Hu|Hu].
  - rewrite (bool_decide_eq_false_2 _ (fun H => H Hu)), (bool_decide_eq_true_2 _ Hu).
    cbn [andb negb fst snd].
    destruct (Qlt_bool _ _); cbn [negb cache set_log]; [rewrite Hd|]; reflexivity.
  - rewrite (bool_decide_eq_true_2 _ Hu), (bool_decide_eq_false_2 _ Hu). reflexivity.
Qed.

Lemma SubmissionsCache_get_hit user_id w rows :
  fst (SubmissionsCache_get user_id w) = Ok (Some rows) <->
  SubmissionsCache._data (cache w) = Some rows
  /\ SubmissionsCache._user_id (cache w) = Some user_id
  /\ exists ts, SubmissionsCache._timestamp (cache w) = Some ts
       /\ datetime.to_microseconds (clock w) - datetime.to_microseconds ts
          < SubmissionsCache._ttl_seconds (cache w) * 1000000.
Proof.
  rewrite SubmissionsCache_get_unfold. unfold datetime.sub.
  destruct (SubmissionsCache._data (cache w)) as [rows0|];
    destruct (SubmissionsCache._timestamp (cache w)) as [ts0|];
    try (split; [discriminate | intros (? & ? & ? & ? & ?); congruence]).
  destruct (bool_decide _) eqn:Hb; destruct (Qlt_bool _ _) eqn:Hq; cbn [andb fst].
  - apply bool_decide_eq_true in Hb. apply age_below_ttl in Hq. split.
    + intros H. injection H as <-. repeat split; [exact Hb|].
      exists ts0. split; [reflexivity | exact Hq].
    + intros (H & _). injection H as <-. reflexivity.
  - split; [discriminate|]. intros (_ & _ & ts & H3 & H4). injection H3 as <-.
    apply age_below_ttl in H4. congruence.
  - apply bool_decide_eq_false in Hb.
    split; [discriminate|]. intros (_ & H2 & _). contradiction.
  - apply bool_decide_eq_false in Hb.
    split; [discriminate|]. intros (_ & H2 & _). contradiction.
Qed.

Lemma SubmissionsCache_get_total user_id w :
  fst (SubmissionsCache_get user_id w) = Ok None
  \/ exists rows, fst (SubmissionsCache_get user_id w) = Ok (Some rows).
Proof.
  rewrite SubmissionsCache_get_unfold. repeat case_match; cbn [fst]; eauto.
Qed.

Lemma SubmissionsCache_get_cache user_id w :
  cache (snd (SubmissionsCache_get user_id w)) = cache w.
Proof.
  rewrite SubmissionsCache_get_unfold. repeat case_match; reflexivity.
Qed.

Lemma SubmissionsCache_set_cache user_id data w :
  cache (snd (SubmissionsCache_set user_id data w)) =
  SubmissionsCache.mk (Some data) (Some (clock w)) (Some user_id)
                      (SubmissionsCache._ttl_seconds (cache w)).
Proof. reflexivity. Qed.

(** C7.  With the time to live of the module (60 seconds), [get] returns
    rows exactly when the slot holds them, the slot belongs to the asking
    user and its age is strictly below 60 seconds; a slot of another
    viewer, an expired slot and an empty slot are misses; [get] never
    raises and never changes the slot; [set] overwrites the three fields
    of the slot with the rows, the current time and the user. *)
Theorem cache_get_hit_iff_owner_and_fresh (user_id : Z) (w : World) :
  SubmissionsCache._ttl_seconds (cache w) = CACHE_TTL_SECONDS ->
  (forall rows,
     fst (SubmissionsCache_get user_id w) = Ok (Some rows) <->
     SubmissionsCache._data (cache w) = Some rows
     /\ SubmissionsCache._user_id (cache w) = Some user_id
     /\ exists ts, SubmissionsCache._timestamp (cache w) = Some ts
          /\ datetime.to_microseconds (clock w) - datetime.to_microseconds ts
             < 60 * 1000000)
  /\ (SubmissionsCache._user_id (cache w) <> Some user_id ->
      fst (SubmissionsCache_get user_id w) = Ok None)
  /\ (forall ts, SubmissionsCache._timestamp (cache w) = Some ts ->
        60 * 1000000 <= datetime.to_microseconds (clock w) - datetime.to_microseconds ts ->
        fst (SubmissionsCache_get user_id w) = Ok None)
  /\ (SubmissionsCache._data (cache w) = None ->
      fst (SubmissionsCache_get user_id w) = Ok None)
  /\ returns (fst (SubmissionsCache_get user_id w)) = true
  /\ cache (snd (SubmissionsCache_get user_id w)) = cache w
  /\ (forall data,
        cache (snd (SubmissionsCache_set user_id data w)) =
        SubmissionsCache.mk (Some data) (Some (clock w)) (Some user_id) CACHE_TTL_SECONDS).
Proof.
  intros Httl.
  assert (Hhit := SubmissionsCache_get_hit user_id w).
  rewrite Httl in Hhit. change (CACHE_TTL_SECONDS * 1000000) with (60 * 1000000) in Hhit.
  split; [exact Hhit|].
  repeat split.
  - intros Hu. destruct (SubmissionsCache_get_total user_id w) as [H|[rows H]]; [exact H|].
    apply Hhit in H as (_ & H & _). contradiction.
  - intros ts Hts Hold.
    destruct (SubmissionsCache_get_total user_id w) as [H|[rows H]]; [exact H|].
    apply Hhit in H as (_ & _ & ts' & H & Hfresh). simplify_eq. lia.
  - intros Hd. destruct (SubmissionsCache_get_total user_id w) as [H|[rows H]]; [exact H|].
    apply Hhit in H as (H & _). congruence.
  - destruct (SubmissionsCache_get_total user_id w) as [H|[rows H]]; rewrite H; reflexivity.
  - apply SubmissionsCache_get_cache.
  - intros data. rewrite SubmissionsCache_set_cache, Httl. reflexivity.
Qed.

Lemma cache_get_hit_iff_owner_and_fresh_witness :
  fst (SubmissionsCache_get 2 (set_clock just_before_expiry world_cached)) = Ok (Some rowsA)
  /\ fst (SubmissionsCache_get 3 (set_clock just_before_expiry world_cached)) = Ok None
  /\ fst (SubmissionsCache_get 2 (set_clock at_expiry world_cached)) = Ok None.
Proof.
  split; [|split].
  - apply (proj1 (cache_get_hit_iff_owner_and_fresh 2
                    (set_clock just_before_expiry world_cached) eq_refl)).
    split; [reflexivity|]. split; [reflexivity|].
    exists noon. split; [reflexivity|]. vm_compute. reflexivity.
  - apply (proj1 (proj2 (cache_get_hit_iff_owner_and_fresh 3
                           (set_clock just_before_expiry world_cached) eq_refl))).
    discriminate.
  - apply (proj1 (proj2 (proj2 (cache_get_hit_iff_owner_and_fresh 2
                                  (set_clock at_expiry world_cached) eq_refl)))
             noon eq_refl).
    vm_compute. discriminate.
Defined.

(** *** Sessions *)

Lemma filter_no_user (uid : Z) (l : list User.t) :
  (forall u, u ∈ l -> User.id u <> uid) ->
  filter (fun u => User.id u = uid) l = [].
Proof.
  induction l as [|u l IH]; intros H; [reflexivity|].
  rewrite filter_cons. destruct (decide (User.id u = uid)) as [Heq|Hne].
  - exfalso. apply (H u); [left | exact Heq].
  - apply IH. intros u' Hu'. apply H. right. exact Hu'.
Qed.

(** C9.  When the session of a token holds a user id that no user has any
    more, and the database answers, [get_current_user] logs the stale
    session, empties the storage of that token, leaves the storage of every
    other token alone and returns [None]; a second call in the resulting
    world returns [None] again and changes nothing. *)
Theorem stale_session_is_cleared (token : string) (uid : Z) (w : World) :
  app_storage_user token w !! SESSION_USER_ID_KEY = Some uid ->
  uid <> 0 ->
  db_up w = true ->
  (forall u, u ∈ users w -> User.id u <> uid) ->
  fst (get_current_user token w) = Ok None
  /\ storage (snd (get_current_user token w)) !! token = Some ∅
  /\ (forall t, t <> token ->
        storage (snd (get_current_user token w)) !! t = storage w !! t)
  /\ log (snd (get_current_user token w)) =
     log w ++ [mkLog WARNING ("Stale session detected for user_id=" +:+ str_int uid);
               mkLog DEBUG "Session cleared"]
  /\ get_current_user token (snd (get_current_user token w)) =
     (Ok None, snd (get_current_user token w)).
Proof.
  intros Hsess Hnz Hdb Hgone.
  assert (Hrun : get_current_user token w =
    (Ok None,
     set_log (log w ++ [mkLog WARNING ("Stale session detected for user_id=" +:+ str_int uid);
                        mkLog DEBUG "Session cleared"])
       (set_storage (<[token := ∅]> (storage w)) w))).
  { unfold get_current_user, User_aget_id, clear_session. st_unfold.
    rewrite Hsess. cbn [falsy_id].
    destruct (Z.eqb_spec uid 0) as [|_]; [contradiction|].
    rewrite Hdb, (filter_no_user _ _ Hgone).
    cbn [is_DoesNotExist cls fst snd log set_log set_storage storage users readings
         reading_seq db_up cache notifications clock].
    rewrite <- app_assoc. reflexivity. }
  rewrite Hrun. cbn [fst snd storage set_log set_storage log].
  repeat split.
  - apply lookup_insert_eq.
  - intros t Ht. apply lookup_insert_ne. congruence.
  - unfold get_current_user, app_storage_user. st_unfold.
    cbn [storage set_log set_storage]. rewrite lookup_insert_eq.
    cbn [from_option id]. rewrite lookup_empty. reflexivity.
Qed.

Lemma stale_session_is_cleared_witness :
  fst (get_current_user "browser-1" world_stale) = Ok None
  /\ storage (snd (get_current_user "browser-1" world_stale)) !! "browser-1" = Some ∅
  /\ get_current_user "browser-1" (snd (get_current_user "browser-1" world_stale)) =
     (Ok None, snd (get_current_user "browser-1" world_stale)).
Proof.
  assert (Hgone : forall u, u ∈ users world_stale -> User.id u <> 99).
  { intros u Hu. cbn in Hu.
    repeat (apply elem_of_cons in Hu as [->|Hu]); try discriminate.
    apply elem_of_nil in Hu. destruct Hu. }
  assert (Hsess : app_storage_user "browser-1" world_stale !! SESSION_USER_ID_KEY = Some 99)
    by (vm_compute; reflexivity).
  assert (Hnz : (99 : Z) <> 0) by discriminate.
  destruct (stale_session_is_cleared "browser-1" 99 world_stale Hsess Hnz eq_refl Hgone)
    as (H1 & H2 & _ & _ & H5).
  split; [exact H1 | split; [exact H2 | exact H5]].
Defined.

(** *** The listing of the dashboard *)

Lemma insert_desc_perm r l : insert_desc r l ≡ₚ r :: l.
Proof.
  induction l as [|x l IH]; [reflexivity|].
  cbn [insert_desc]. destruct (date_key x <=? date_key r); [reflexivity|].
  rewrite IH. apply Permutation_swap.
Qed.

Lemma order_by_submission_date_desc_perm l : order_by_submission_date_desc l ≡ₚ l.
Proof.
  induction l as [|x l IH]; [reflexivity|].
  unfold order_by_submission_date_desc in *. cbn [fold_right].
  rewrite insert_desc_perm, IH. reflexivity.
Qed.

Lemma make_submission_row_dated reading w :
  is_Some (PoolReading.submission_date reading) ->
  make_submission_row reading w = (Ok (row_of_reading reading), w).
Proof.
  intros [d Hd]. unfold make_submission_row, row_of_reading. rewrite Hd. reflexivity.
Qed.

Lemma collect_rows_dated rows : forall submissions w,
  dated rows ->
  collect_rows rows submissions w = (Ok (submissions ++ map row_of_reading rows), w).
Proof.
  induction rows as [|r rows IH]; intros submissions w Hd.
  - cbn. rewrite app_nil_r. reflexivity.
  - apply Forall_cons in Hd as [Hr Hd]. cbn [collect_rows map]. unfold bind.
    rewrite (make_submission_row_dated _ _ Hr), (IH _ _ Hd), <- app_assoc. reflexivity.
Qed.

Lemma dated_perm l l' : l ≡ₚ l' -> dated l' -> dated l.
Proof. unfold dated. intros Hp H. rewrite Hp. exact H. Qed.

Lemma dated_filter (P : PoolReading.t -> Prop) `{!forall x, Decision (P x)} l :
  dated l -> dated (filter P l).
Proof.
  unfold dated. rewrite !Forall_forall. intros Hall x Hx.
  apply list_elem_of_filter in Hx as [_ Hx]. apply Hall, Hx.
Qed.

(** C8.  With the database up and every stored reading dated, the listing
    that [_fetch_from_database] builds is the list of rows of certain
    stored readings: for an administrator these are all the stored
    readings, for any other viewer exactly the stored readings whose hotel
    is the hotel of the viewer; both are taken from the same table, which
    the call leaves unchanged. *)
Theorem dashboard_rows_role_scoped (user : User.t) (w : World) :
  db_up w = true ->
  dated (readings w) ->
  exists listed : list PoolReading.t,
    _fetch_from_database user w = (Ok (map row_of_reading listed), w)
    /\ (User.is_admin user = true -> listed ≡ₚ readings w)
    /\ (User.is_admin user = false ->
        listed ≡ₚ filter (fun r => User.hotel_id user = Some (PoolReading.hotel_id r))
                         (readings w))
    /\ (forall r, r ∈ listed <-> r ∈ readings w /\ visible_to user r).
Proof.
  intros Hdb Hdated. unfold _fetch_from_database, PoolReading_fetch, visible_to.
  st_unfold. rewrite Hdb.
  destruct (User.is_admin user); cbn [negb].
  - exists (order_by_submission_date_desc (readings w)).
    pose proof (order_by_submission_date_desc_perm (readings w)) as Hp.
    split; [rewrite collect_rows_dated by (eapply dated_perm; eauto); reflexivity|].
    split; [intros _; exact Hp|].
    split; [discriminate|].
    intros r. rewrite Hp. split.
    + intros Hr. split; [exact Hr | left; reflexivity].
    + intros [Hr _]. exact Hr.
  - exists (order_by_submission_date_desc (filter_hotel_id (User.hotel_id user) (readings w))).
    pose proof (order_by_submission_date_desc_perm
                  (filter_hotel_id (User.hotel_id user) (readings w))) as Hp.
    split; [rewrite collect_rows_dated
              by (eapply dated_perm; [exact Hp | apply dated_filter, Hdated]);
            reflexivity|].
    split; [discriminate|].
    split; [intros _; exact Hp|].
    intros r. rewrite Hp. unfold filter_hotel_id. rewrite list_elem_of_filter. split.
    + intros [Hh Hr]. split; [exact Hr | right; exact Hh].
    + intros [Hr [Hadm|Hh]]; [discriminate | split; assumption].
Qed.

Example two_hotels_listings :
  fst (_fetch_from_database admin_user world_two_hotels)
  = Ok [row_of_reading reading_y; row_of_reading reading1]
  /\ fst (_fetch_from_database staff_x world_two_hotels) = Ok [row_of_reading reading1]
  /\ fst (_fetch_from_database staff_y world_two_hotels) = Ok [row_of_reading reading_y]
  /\ fst (_fetch_from_database unassigned_user world_two_hotels) = Ok [].
Proof. repeat split. Qed.

Lemma dashboard_rows_role_scoped_witness :
  exists listed : list PoolReading.t,
    _fetch_from_database staff_x world_two_hotels
    = (Ok (map row_of_reading listed), world_two_hotels)
    /\ (forall r, r ∈ listed <-> r ∈ readings world_two_hotels /\ visible_to staff_x r).
Proof.
  assert (Hdated : dated (readings world_two_hotels)).
  { repeat constructor; eexists; reflexivity. }
  destruct (dashboard_rows_role_scoped staff_x world_two_hotels eq_refl Hdated)
    as (listed & H1 & _ & _ & H4).
  exists listed. split; assumption.
Defined.

(** * Further properties of the code *)

(** ** Authentication *)

Lemma same_but_log_refl w : same_but_log w w.
Proof. repeat split. Qed.

Lemma same_but_log_set_log l w : same_but_log w (set_log l w).
Proof. repeat split. Qed.

Lemma authenticate_unfold check_password username password w :
  authenticate check_password username password w =
  if negb (truthy username) || negb (truthy password) then (Ok auth_required_result, w)
  else if negb (db_up w) then
    (Ok auth_error_result,
     set_log (log w ++ [mkLog ERROR ("Authentication error for " +:+ username +:+ ": " +:+
                                     str db_unavailable)]) w)
  else
    match filter (fun u => User.username u = username) (users w) with
    | [] =>
        (Ok auth_not_found_result,
         set_log (log w ++ [mkLog WARNING
           ("Authentication attempt for non-existent user: " +:+ username)]) w)
    | [user] =>
        if check_password password (User.password_hash user) then
          (Ok (auth_ok_result user),
           set_log (log w ++ [mkLog INFO
             ("Successful authentication for user: " +:+ username)]) w)
        else
          (Ok auth_wrong_password_result,
           set_log (log w ++ [mkLog WARNING
             ("Failed authentication for user: " +:+ username)]) w)
    | _ :: _ :: _ =>
        (Ok auth_error_result,
         set_log (log w ++ [mkLog ERROR ("Authentication error for " +:+ username +:+ ": " +:+
                                         "get() returned more than one User")]) w)
    end.
Proof.
  unfold authenticate. destruct (_ || _); [reflexivity|].
  unfold User_aget_username. st_unfold.
  destruct (db_up w); cbn [negb]; [|reflexivity].
  destruct (filter _ (users w)) as [|user [|user' rest]]; cbn [fst snd]; try reflexivity.
  destruct (check_password _ _); reflexivity.
Qed.

Lemma truthy_true_iff s : truthy s = true <-> s <> EmptyString.
Proof. destruct s; cbn; split; intros H; try congruence; try discriminate. Qed.

(** X1.  [authenticate] returns the successful result for [user] exactly
    when both credentials are non-empty, the database answers, [user] is the
    one stored user of that name and the hasher accepts the password; a
    successful result always carries a stored user of the given name; and
    whatever the outcome, the call changes nothing but the log. *)
Theorem authenticate_success_iff
    (check_password : string -> string -> bool) (username password : string) (w : World) :
  (forall user,
     fst (authenticate check_password username password w) = Ok (auth_ok_result user)
     <-> username <> EmptyString /\ password <> EmptyString /\ db_up w = true
         /\ filter (fun u => User.username u = username) (users w) = [user]
         /\ check_password password (User.password_hash user) = true)
  /\ (forall r,
        fst (authenticate check_password username password w) = Ok r ->
        AuthenticationResult.success r = true ->
        exists user, r = auth_ok_result user /\ User.username user = username
                     /\ user ∈ users w)
  /\ same_but_log w (snd (authenticate check_password username password w)).
Proof.
  rewrite authenticate_unfold.
  destruct (truthy username) eqn:Hu; destruct (truthy password) eqn:Hp; cbn [negb orb].
  2-4: (split; [|split]; [| |apply same_but_log_refl];
        [ intros user; split; [discriminate|];
          intros (H1 & H2 & _);
          apply (proj2 (truthy_true_iff _)) in H1;
          apply (proj2 (truthy_true_iff _)) in H2; congruence
        | intros r H Hs; injection H as <-; discriminate ]).
  apply (proj1 (truthy_true_iff _)) in Hu. apply (proj1 (truthy_true_iff _)) in Hp.
  destruct (db_up w); cbn [negb].
  2:{ split; [|split]; [| |apply same_but_log_set_log].
      - intros user; split; [discriminate | intros (_ & _ & H & _); discriminate].
      - intros r H Hs; injection H as <-; discriminate. }
  destruct (filter _ (users w)) as [|user0 [|user1 rest]] eqn:Hf.
  - split; [|split]; [| |apply same_but_log_set_log].
    + intros user; split; [discriminate | intros (_ & _ & _ & H & _); discriminate].
    + intros r H Hs; injection H as <-; discriminate.
  - assert (Hin : user0 ∈ filter (fun u => User.username u = username) (users w))
      by (rewrite Hf; left).
    apply list_elem_of_filter in Hin as [Hname Hin].
    destruct (check_password password (User.password_hash user0)) eqn:Hc.
    + split; [|split]; [| |apply same_but_log_set_log].
      * intros user; split.
        -- intros H. injection H as <-. repeat split; assumption.
        -- intros (_ & _ & _ & H & _). injection H as <-. reflexivity.
      * intros r H _. injection H as <-. exists user0. repeat split; assumption.
    + split; [|split]; [| |apply same_but_log_set_log].
      * intros user; split; [discriminate|].
        intros (_ & _ & _ & H & Hc'). injection H as <-. congruence.
      * intros r H Hs; injection H as <-; discriminate.
  - split; [|split]; [| |apply same_but_log_set_log].
    + intros user; split; [discriminate | intros (_ & _ & _ & H & _); discriminate].
    + intros r H Hs; injection H as <-; discriminate.
Qed.

Lemma authenticate_success_iff_witness :
  fst (authenticate (fun p h => String.eqb p "secret") "ayse" "secret" world0)
  = Ok (auth_ok_result staff_x).
Proof.
  apply (proj1 (authenticate_success_iff (fun p h => String.eqb p "secret")
                  "ayse" "secret" world0) staff_x).
  repeat split; discriminate.
Defined.

(** X2.  The four ways [authenticate] fails.  An empty username or password
    is rejected before the store is touched: the world is returned as it
    was, also during an outage.  With both given, an outage yields the
    general error message, a name that no stored user has yields the
    not-found message, and a known name with a password that the hasher
    rejects yields the wrong-password message: the caller can tell an
    unknown name from a wrong password. *)
Theorem authenticate_failure_kinds
    (check_password : string -> string -> bool) (username password : string) (w : World) :
  (username = EmptyString \/ password = EmptyString ->
   authenticate check_password username password w = (Ok auth_required_result, w))
  /\ (username <> EmptyString -> password <> EmptyString -> db_up w = false ->
      fst (authenticate check_password username password w) = Ok auth_error_result)
  /\ (username <> EmptyString -> password <> EmptyString -> db_up w = true ->
      (forall u, u ∈ users w -> User.username u <> username) ->
      fst (authenticate check_password username password w) = Ok auth_not_found_result)
  /\ (forall user,
        username <> EmptyString -> password <> EmptyString -> db_up w = true ->
        filter (fun u => User.username u = username) (users w) = [user] ->
        check_password password (User.password_hash user) = false ->
        fst (authenticate check_password username password w)
        = Ok auth_wrong_password_result).
Proof.
  rewrite authenticate_unfold. repeat split.
  - intros [-> | ->]; [reflexivity|]. rewrite orb_true_r. reflexivity.
  - intros Hu Hp Hdb.
    rewrite (proj2 (truthy_true_iff _) Hu), (proj2 (truthy_true_iff _) Hp), Hdb. reflexivity.
  - intros Hu Hp Hdb Hnone.
    rewrite (proj2 (truthy_true_iff _) Hu), (proj2 (truthy_true_iff _) Hp), Hdb.
    cbn [negb orb].
    destruct (filter _ (users w)) as [|u0 l] eqn:Hf; [reflexivity|].
    assert (Hin : u0 ∈ filter (fun u => User.username u = username) (users w))
      by (rewrite Hf; left).
    apply list_elem_of_filter in Hin as [Hname Hin]. destruct (Hnone u0 Hin Hname).
  - intros user Hu Hp Hdb Hf Hc.
    rewrite (proj2 (truthy_true_iff _) Hu), (proj2 (truthy_true_iff _) Hp), Hdb, Hf, Hc.
    reflexivity.
Qed.

Lemma authenticate_failure_kinds_witness :
  authenticate (fun p h => String.eqb p "secret") "ayse" EmptyString (set_db_up false world0)
  = (Ok auth_required_result, set_db_up false world0)
  /\ fst (authenticate (fun p h => String.eqb p "secret") "ayse" "guess" world0)
     = Ok auth_wrong_password_result.
Proof.
  split.
  - apply (proj1 (authenticate_failure_kinds (fun p h => String.eqb p "secret")
                    "ayse" EmptyString (set_db_up false world0))).
    right. reflexivity.
  - apply (proj2 (proj2 (proj2 (authenticate_failure_kinds
             (fun p h => String.eqb p "secret") "ayse" "guess" world0))) staff_x);
      try discriminate; reflexivity.
Defined.

(** ** Sessions *)

Lemma get_current_user_unfold token w :
  get_current_user token w =
  match app_storage_user token w !! SESSION_USER_ID_KEY with
  | None => (Ok None, w)
  | Some uid =>
      if uid =? 0 then (Ok None, w)
      else if negb (db_up w) then
        (Ok None,
         set_log (log w ++ [mkLog ERROR ("Error retrieving current user: " +:+
                                         str db_unavailable)]) w)
      else
        match filter (fun u => User.id u = uid) (users w) with
        | [] =>
            (Ok None,
             set_log (log w ++ [mkLog WARNING
                                  ("Stale session detected for user_id=" +:+ str_int uid);
                                mkLog DEBUG "Session cleared"])
               (set_storage (<[token := ∅]> (storage w)) w))
        | [user] => (Ok (Some user), w)
        | _ :: _ :: _ =>
            (Ok None,
             set_log (log w ++ [mkLog ERROR ("Error retrieving current user: " +:+
                                             "get() returned more than one User")]) w)
        end
  end.
Proof.
  unfold get_current_user, User_aget_id, clear_session. st_unfold.
  destruct (app_storage_user token w !! SESSION_USER_ID_KEY) as [uid|]; [|reflexivity].
  cbn [falsy_id]. destruct (uid =? 0); [reflexivity|].
  destruct (db_up w); cbn [negb]; [|reflexivity].
  destruct (filter _ (users w)) as [|user [|user' rest]];
    cbn [is_DoesNotExist cls fst snd log set_log set_storage storage]; try reflexivity.
  rewrite <- app_assoc. reflexivity.
Qed.

Lemma store_user_session_storage token user w :
  app_storage_user token (snd (store_user_session token user w)) !! SESSION_USER_ID_KEY
  = Some (User.id user).
Proof.
  unfold store_user_session, app_storage_user. st_unfold.
  cbn [snd storage set_log set_storage]. rewrite lookup_insert_eq.
  cbn [from_option id]. apply lookup_insert_eq.
Qed.

(** X3.  Logging in and out of one browser.  When [user] is the one stored
    user with its id, the id is not 0 and the database answers, then after
    [store_user_session] the call [get_current_user] of the same browser
    returns [user] and changes nothing; after [clear_session] it returns
    [None], again changing nothing, whatever the state of the database. *)
Theorem session_round_trip (token : string) (user : User.t) (w : World) :
  User.id user <> 0 ->
  db_up w = true ->
  filter (fun u => User.id u = User.id user) (users w) = [user] ->
  get_current_user token (snd (store_user_session token user w))
  = (Ok (Some user), snd (store_user_session token user w))
  /\ forall w', get_current_user token (snd (clear_session token w'))
                = (Ok None, snd (clear_session token w')).
Proof.
  intros Hnz Hdb Hf. split.
  - rewrite get_current_user_unfold, store_user_session_storage.
    destruct (Z.eqb_spec (User.id user) 0) as [|_]; [contradiction|].
    unfold store_user_session. st_unfold. cbn [snd db_up set_log set_storage users].
    rewrite Hdb, Hf. reflexivity.
  - intros w'. rewrite get_current_user_unfold.
    unfold clear_session, app_storage_user. st_unfold.
    cbn [snd storage set_log set_storage]. rewrite lookup_insert_eq.
    cbn [from_option id]. rewrite lookup_empty. reflexivity.
Qed.

Lemma session_round_trip_witness :
  get_current_user "browser-1" (snd (store_user_session "browser-1" staff_x world1))
  = (Ok (Some staff_x), snd (store_user_session "browser-1" staff_x world1)).
Proof.
  apply (session_round_trip "browser-1" staff_x world1); [discriminate | reflexivity..].
Defined.

Lemma get_current_user_ext token w1 w2 :
  app_storage_user token w1 !! SESSION_USER_ID_KEY
  = app_storage_user token w2 !! SESSION_USER_ID_KEY ->
  users w1 = users w2 -> db_up w1 = db_up w2 ->
  fst (get_current_user token w1) = fst (get_current_user token w2).
Proof.
  intros Hs Hu Hd. rewrite !get_current_user_unfold, Hs, Hu, Hd.
  repeat case_match; reflexivity.
Qed.

Lemma app_storage_user_insert_ne t t' d w l :
  t <> t' ->
  app_storage_user t' (set_log l (set_storage (<[t := d]> (storage w)) w))
  = app_storage_user t' w.
Proof.
  intros Hne. unfold app_storage_user. cbn [storage set_log set_storage].
  rewrite lookup_insert_ne by exact Hne. reflexivity.
Qed.

(** X4.  Sessions do not interfere across browsers: storing a session,
    clearing one, or resolving the user of one browser (which may clear a
    stale session) never changes what [get_current_user] returns for
    another browser. *)
Theorem sessions_are_per_browser (t t' : string) (user : User.t) (w : World) :
  t <> t' ->
  fst (get_current_user t' (snd (store_user_session t user w)))
  = fst (get_current_user t' w)
  /\ fst (get_current_user t' (snd (clear_session t w))) = fst (get_current_user t' w)
  /\ fst (get_current_user t' (snd (get_current_user t w))) = fst (get_current_user t' w).
Proof.
  intros Hne. repeat split.
  - apply get_current_user_ext; [|reflexivity..].
    unfold store_user_session. st_unfold. cbn [snd].
    rewrite (app_storage_user_insert_ne t t' _ w _ Hne). reflexivity.
  - apply get_current_user_ext; [|reflexivity..].
    unfold clear_session. st_unfold. cbn [snd].
    rewrite (app_storage_user_insert_ne t t' _ w _ Hne). reflexivity.
  - rewrite (get_current_user_unfold t w).
    repeat case_match; cbn [snd]; try reflexivity;
      apply get_current_user_ext; try reflexivity.
    rewrite (app_storage_user_insert_ne t t' _ w _ Hne). reflexivity.
Qed.

Lemma sessions_are_per_browser_witness :
  fst (get_current_user "browser-2"
         (snd (get_current_user "browser-1"
                 (snd (store_user_session "browser-2" staff_x world_stale)))))
  = Ok (Some staff_x).
Proof.
  rewrite (proj2 (proj2 (sessions_are_per_browser "browser-1" "browser-2" staff_x
                           (snd (store_user_session "browser-2" staff_x world_stale))
                           ltac:(discriminate)))).
  reflexivity.
Defined.

(** X5.  A database outage does not log anybody out.  When the session of
    the browser holds a user id and the database does not answer,
    [get_current_user] returns [None] but leaves the session storage as it
    was, so that once the database answers again the same browser is
    resolved to its user without a new login. *)
Theorem outage_keeps_session (token : string) (user : User.t) (w : World) :
  app_storage_user token w !! SESSION_USER_ID_KEY = Some (User.id user) ->
  User.id user <> 0 ->
  db_up w = false ->
  filter (fun u => User.id u = User.id user) (users w) = [user] ->
  fst (get_current_user token w) = Ok None
  /\ storage (snd (get_current_user token w)) = storage w
  /\ fst (get_current_user token (set_db_up true (snd (get_current_user token w))))
     = Ok (Some user).
Proof.
  intros Hs Hnz Hdb Hf.
  destruct (Z.eqb_spec (User.id user) 0) as [|Hz]; [contradiction|].
  assert (Hrun : get_current_user token w =
    (Ok None,
     set_log (log w ++ [mkLog ERROR ("Error retrieving current user: " +:+
                                     str db_unavailable)]) w)).
  { rewrite get_current_user_unfold, Hs.
    destruct (Z.eqb_spec (User.id user) 0) as [|_]; [contradiction|].
    rewrite Hdb. reflexivity. }
  rewrite Hrun. cbn [fst snd]. repeat split.
  rewrite get_current_user_unfold.
  unfold app_storage_user in *. cbn [storage set_db_up set_log db_up users].
  rewrite Hs. destruct (Z.eqb_spec (User.id user) 0) as [|_]; [contradiction|].
  cbn [negb]. rewrite Hf. reflexivity.
Qed.

Lemma outage_keeps_session_witness :
  fst (get_current_user "browser-1"
         (set_db_up false (snd (store_user_session "browser-1" staff_x world1))))
  = Ok None
  /\ fst (get_current_user "browser-1"
            (set_db_up true
               (snd (get_current_user "browser-1"
                       (set_db_up false (snd (store_user_session "browser-1" staff_x world1)))))))
     = Ok (Some staff_x).
Proof.
  destruct (outage_keeps_session "browser-1" staff_x
              (set_db_up false (snd (store_user_session "browser-1" staff_x world1)))
              ltac:(vm_compute; reflexivity) ltac:(discriminate) eq_refl eq_refl)
    as (H1 & _ & H3).
  split; assumption.
Defined.

(** ** Routes *)

Lemma append_cons c s t : String c s +:+ t = String c (s +:+ t).
Proof. reflexivity. Qed.

Lemma append_nil_r s : s +:+ EmptyString = s.
Proof. induction s as [|c s IH]; [reflexivity|]. rewrite append_cons, IH. reflexivity. Qed.


Lemma rstrip_slash_slashes n : rstrip_slash (slashes n) = EmptyString.
Proof. induction n as [|n IH]; [reflexivity|]. cbn [slashes rstrip_slash]. rewrite IH. reflexivity. Qed.

Lemma rstrip_slash_decompose s : exists n, s = rstrip_slash s +:+ slashes n.
Proof.
  induction s as [|c s [n IH]].
  - exists 0%nat. reflexivity.
  - cbn [rstrip_slash]. destruct (rstrip_slash s) as [|c' r] eqn:Hr.
    + destruct (Ascii.eqb_spec c "/") as [->|Hc].
      * exists (S n). cbn [slashes]. rewrite IH at 1. reflexivity.
      * exists n. rewrite IH at 1. reflexivity.
    + exists n. rewrite IH at 1. reflexivity.
Qed.

Lemma rstrip_slash_no_trailing s : endswith_slash (rstrip_slash s) = false.
Proof.
  induction s as [|c s IH]; [reflexivity|].
  cbn [rstrip_slash]. destruct (rstrip_slash s) as [|c' r].
  - destruct (Ascii.eqb_spec c "/") as [->|Hc]; [reflexivity|].
    cbn [endswith_slash]. apply Ascii.eqb_neq, Hc.
  - exact IH.
Qed.

Lemma rstrip_slash_append_slash s : rstrip_slash (s +:+ "/") = rstrip_slash s.
Proof.
  induction s as [|c s IH]; [reflexivity|].
  rewrite append_cons. cbn [rstrip_slash]. rewrite IH. reflexivity.
Qed.

(** X6.  The prefix of the routes is normalised: whatever the environment
    holds, [PATH_PREFIX] has no trailing slash and differs from the
    configured value by trailing slashes only; a configured value with one
    more trailing slash gives the same prefix; an unset or all-slash
    variable gives the empty prefix. *)
Theorem path_prefix_normalised (env : option string) :
  endswith_slash (PATH_PREFIX env) = false
  /\ (exists n, default EmptyString env = PATH_PREFIX env +:+ slashes n)
  /\ (forall s, PATH_PREFIX (Some (s +:+ "/")) = PATH_PREFIX (Some s))
  /\ PATH_PREFIX None = EmptyString
  /\ (forall n, PATH_PREFIX (Some (slashes n)) = EmptyString).
Proof.
  unfold PATH_PREFIX. repeat split.
  - apply rstrip_slash_no_trailing.
  - apply rstrip_slash_decompose.
  - intros s. apply rstrip_slash_append_slash.
  - intros n. apply rstrip_slash_slashes.
Qed.



(** ** Submitting and looking up readings *)

Lemma submit_reading_unfold data user w :
  submit_reading data user w =
  match User.hotel user with
  | None => (Ok no_hotel_result, w)
  | Some h =>
      if negb (db_up w) then (Ok system_error_result, log_error_submit user db_unavailable w)
      else if reference_id_taken (submitted_reference_id h user (clock w)) w then
        (Ok system_error_result,
         log_error_submit user
           (Exn IntegrityError "UNIQUE constraint failed: pools_poolreading.reference_id") w)
      else
        match filter (fun r => PoolReading.id r = Some (reading_seq w))
                     (readings w ++ [inserted_reading data h user w]) with
        | [] =>
            (Ok system_error_result,
             log_error_submit user
               (Exn DoesNotExist "PoolReading matching query does not exist.")
               (inserted_world data h user w))
        | [row] =>
            (Ok (submitted_result row),
             set_log (log w ++ [mkLog INFO ("Pool reading submitted successfully: " +:+
                                            PoolReading.reference_id row +:+
                                            " by user " +:+ User.username user)])
                     (inserted_world data h user w))
        | _ :: _ :: _ =>
            (Ok system_error_result,
             log_error_submit user
               (Exn MultipleObjectsReturned "get() returned more than one PoolReading")
               (inserted_world data h user w))
        end
  end.
Proof.
  destruct (User.hotel user) as [h|] eqn:Hh; [|apply submit_reading_no_hotel, Hh].
  destruct (db_up w) eqn:Hdb; cbn [negb];
    [|apply (submit_reading_db_down _ _ _ _ Hh Hdb)].
  destruct (reference_id_taken _ w) eqn:Hdup;
    [apply (submit_reading_duplicate _ _ _ _ Hh Hdb Hdup)|].
  unfold submit_reading. rewrite Hh.
  unfold try_except, bind at 1.
  rewrite (_create_reading_unfold _ _ _ _ Hh), Hdb, Hdup. cbn [negb].
  st_unfold. unfold arefresh_from_db. st_unfold.
  cbn [fst snd db_up set_reading_seq set_readings readings]. rewrite Hdb.
  change (PoolReading.id (inserted_reading data h user w)) with (Some (reading_seq w)).
  destruct (filter _ _) as [|row [|row' rest]]; reflexivity.
Qed.

Lemma filter_inserted data h user w :
  filter (fun r => PoolReading.id r = Some (reading_seq w))
         (readings w ++ [inserted_reading data h user w])
  = filter (fun r => PoolReading.id r = Some (reading_seq w)) (readings w)
    ++ [inserted_reading data h user w].
Proof. rewrite filter_app, filter_cons_True by reflexivity. reflexivity. Qed.



Lemma store_wf_world0 : store_wf world0.
Proof. repeat split; constructor. Qed.


Lemma reference_id_free_filter ref w :
  reference_id_taken ref w = false ->
  filter (fun r => PoolReading.reference_id r = ref) (readings w) = [].
Proof.
  unfold reference_id_taken. induction (readings w) as [|r l IH]; [reflexivity|].
  cbn [existsb]. intros H. apply orb_false_iff in H as [Hr Hl].
  rewrite filter_cons. destruct (decide _) as [Heq|_]; [|apply IH, Hl].
  apply String.eqb_neq in Hr. contradiction.
Qed.

Lemma get_reading_by_reference_unfold reference_id w :
  get_reading_by_reference reference_id w =
  if negb (db_up w) then (Raise db_unavailable, w)
  else
    match filter (fun r => PoolReading.reference_id r = reference_id) (readings w) with
    | [] =>
        (Ok None,
         set_log (log w ++ [mkLog WARNING ("Pool reading not found: " +:+ reference_id)]) w)
    | [r] => (Ok (Some r), w)
    | _ :: _ :: _ =>
        (Raise (Exn MultipleObjectsReturned "get() returned more than one PoolReading"), w)
    end.
Proof.
  unfold get_reading_by_reference, PoolReading_aget_reference_id. st_unfold.
  destruct (db_up w); cbn [negb]; [|reflexivity].
  destruct (filter _ (readings w)) as [|r [|r' rest]]; reflexivity.
Qed.

(** X9.  What was submitted can be looked up.  After any successful
    submission, the result carries a reference id and the stored reading,
    and [get_reading_by_reference] with that reference id, in the world that
    the submission left, returns that same reading. *)
Theorem submit_then_lookup
    (data : PoolReadingData.t) (user : User.t) (w : World)
    (r : PoolReadingSubmissionResult.t) :
  fst (submit_reading data user w) = Ok r ->
  PoolReadingSubmissionResult.success r = true ->
  exists ref reading,
    PoolReadingSubmissionResult.reference_id r = Some ref
    /\ PoolReadingSubmissionResult.reading r = Some reading
    /\ PoolReading.reference_id reading = ref
    /\ reading ∈ readings (snd (submit_reading data user w))
    /\ fst (get_reading_by_reference ref (snd (submit_reading data user w)))
       = Ok (Some reading).
Proof.
  rewrite submit_reading_unfold.
  destruct (User.hotel user) as [h|]; [|intros H; injection H as <-; discriminate].
  destruct (db_up w) eqn:Hdb; cbn [negb]; [|intros H; injection H as <-; discriminate].
  destruct (reference_id_taken _ w) eqn:Hfree; [intros H; injection H as <-; discriminate|].
  rewrite filter_inserted.
  destruct (filter _ (readings w)) as [|x l]; cbn [app].
  2:{ destruct l; cbn [app]; intros H; injection H as <-; discriminate. }
  intros H _. injection H as <-. cbn [fst snd].
  exists (PoolReading.reference_id (inserted_reading data h user w)),
         (inserted_reading data h user w).
  repeat split.
  - cbn [readings set_log inserted_world set_reading_seq set_readings].
    apply elem_of_app. right. left.
  - rewrite get_reading_by_reference_unfold.
    cbn [db_up set_log inserted_world set_reading_seq set_readings readings].
    change (PoolReading.reference_id (inserted_reading data h user w))
      with (submitted_reference_id h user (clock w)).
    rewrite Hdb, filter_app, (reference_id_free_filter _ _ Hfree).
    rewrite filter_cons_True by reflexivity. reflexivity.
Qed.

Lemma submit_then_lookup_witness :
  fst (get_reading_by_reference "Palmiye__ayse__20240517_120000"
         (snd (submit_reading good_data staff_x world0)))
  = Ok (Some reading1).
Proof.
  destruct (submit_then_lookup good_data staff_x world0 _ eq_refl eq_refl)
    as (ref & reading & H1 & H2 & _ & _ & H5).
  injection H1 as <-. injection H2 as <-. exact H5.
Defined.

Lemma filter_unique_key {A B} `{EqDecision B} (f : A -> B) (a : B) (l : list A) :
  NoDup (map f l) ->
  filter (fun x => f x = a) l = [] \/ exists x, filter (fun x => f x = a) l = [x].
Proof.
  induction l as [|y l IH]; intros Hnd; [left; reflexivity|].
  cbn [map] in Hnd. apply NoDup_cons in Hnd as [Hy Hnd].
  rewrite filter_cons. destruct (decide (f y = a)) as [Heq|Hne]; [|apply IH, Hnd].
  right. exists y. f_equal.
  destruct (filter (fun x => f x = a) l) as [|z l'] eqn:Hf; [reflexivity|].
  exfalso. apply Hy.
  assert (Hz : z ∈ filter (fun x => f x = a) l) by (rewrite Hf; left).
  apply list_elem_of_filter in Hz as [Hz Hin].
  rewrite Heq, <- Hz. apply list_elem_of_fmap. exists z. split; [reflexivity | exact Hin].
Qed.

(** X10.  Looking up a reference id in a well-formed table with the database
    up: [get_reading_by_reference] returns a reading exactly when that
    reading is stored under the reference id, returns [None] exactly when no
    stored reading has the reference id, never raises, and changes nothing
    but the log. *)
Theorem lookup_by_reference (reference_id : string) (w : World) :
  db_up w = true ->
  store_wf w ->
  (forall r, fst (get_reading_by_reference reference_id w) = Ok (Some r)
             <-> r ∈ readings w /\ PoolReading.reference_id r = reference_id)
  /\ (fst (get_reading_by_reference reference_id w) = Ok None
      <-> forall r, r ∈ readings w -> PoolReading.reference_id r <> reference_id)
  /\ returns (fst (get_reading_by_reference reference_id w)) = true
  /\ same_but_log w (snd (get_reading_by_reference reference_id w)).
Proof.
  intros Hdb (Hnd & _). rewrite get_reading_by_reference_unfold, Hdb. cbn [negb].
  assert (Hmem : forall r, r ∈ filter (fun r => PoolReading.reference_id r = reference_id)
                                      (readings w)
                           <-> r ∈ readings w /\ PoolReading.reference_id r = reference_id).
  { intros r. rewrite list_elem_of_filter. tauto. }
  destruct (filter_unique_key PoolReading.reference_id reference_id (readings w) Hnd)
    as [Hf | [x Hf]]; rewrite Hf in *; cbn [fst snd].
  - split; [|split; [|split; [reflexivity | apply same_but_log_set_log]]].
    + intros r. split; [discriminate|]. intros Hr. apply Hmem in Hr. inversion Hr.
    + split; [|reflexivity]. intros _ r Hin Href.
      assert (Hr : r ∈ []) by (apply Hmem; tauto). inversion Hr.
  - split; [|split; [|split; [reflexivity | apply same_but_log_refl]]].
    + intros r. split.
      * intros Heq. injection Heq as <-. apply Hmem. left.
      * intros Hr. apply Hmem in Hr. apply list_elem_of_singleton in Hr as ->. reflexivity.
    + split; [discriminate|]. intros Hall. exfalso. assert (Hx : x ∈ [x]) by left.
      apply Hmem in Hx as [Hin Href]. exact (Hall x Hin Href).
Qed.

Lemma store_wf_world1 : store_wf world1.
Proof.
  split; [apply NoDup_singleton|]. split; [apply NoDup_singleton|]. split.
  - constructor; [|constructor]. exists 1. split; reflexivity.
  - constructor; [|constructor]. eexists. reflexivity.
Qed.

Lemma lookup_by_reference_witness :
  fst (get_reading_by_reference "Palmiye__ayse__20240517_120000" world1) = Ok (Some reading1)
  /\ fst (get_reading_by_reference "Marina__mehmet__20240517_130000" world1) = Ok None.
Proof.
  destruct (lookup_by_reference "Palmiye__ayse__20240517_120000" world1 eq_refl store_wf_world1)
    as (H1 & _).
  destruct (lookup_by_reference "Marina__mehmet__20240517_130000" world1 eq_refl store_wf_world1)
    as (_ & H2 & _).
  split.
  - apply H1. split; [left | reflexivity].
  - apply H2. intros r Hr. apply list_elem_of_singleton in Hr as ->. discriminate.
Defined.

(** ** Status updates, in general *)

Lemma update_reading_status_result new_status updated_by reading w :
  fst (update_reading_status new_status updated_by (reading, w))
  = Ok (update_goes_through new_status reading w)
  /\ reading_seq (snd (snd (update_reading_status new_status updated_by (reading, w))))
     = reading_seq w
  /\ readings (snd (snd (update_reading_status new_status updated_by (reading, w))))
     = match PoolReading.id reading with
       | Some pk =>
           if update_goes_through new_status reading w then
             map (fun row => if PoolReading.has_pk pk row
                             then PoolReading.set_status new_status row else row)
                 (readings w)
           else readings w
       | None => readings w
       end.
Proof.
  rewrite update_reading_status_unfold. unfold update_goes_through, asave.
  destruct (PoolReading.in_choices new_status PoolReading.Status_choices); cbn [andb].
  2:{ destruct (PoolReading.id reading); repeat split. }
  rewrite save_unfold, Model_save_status_unfold, set_status_reference_id.
  destruct (truthy (PoolReading.reference_id reading));
    cbn [PoolReading.id PoolReading.set_status PoolReading.set_reference_id PoolReading.status];
    destruct (PoolReading.id reading) as [pk|]; try (repeat split; fail);
    destruct (db_up w); cbn [negb andb]; try (repeat split; fail);
    destruct (existsb _ (readings w)); repeat split.
Qed.

(** X11.  [update_reading_status] returns [True] exactly when the status is
    one of the four, the instance has a primary key, the database answers
    and holds a row of that key; the current status, the role of the actor
    and the hotel of the reading play no part, so a status may also move
    backwards.  When it returns [True], the rows of that key get the new
    status and nothing else in the table changes, whatever the other fields
    of the instance hold; when it returns [False], the table is untouched,
    and for a status outside the four the instance is untouched too. *)
Theorem update_reading_status_characterised
    (new_status : string) (updated_by : User.t) (reading : PoolReading.t) (w : World) :
  fst (update_reading_status new_status updated_by (reading, w))
  = Ok (update_goes_through new_status reading w)
  /\ (update_goes_through new_status reading w = true ->
      exists pk,
        PoolReading.id reading = Some pk
        /\ readings (snd (snd (update_reading_status new_status updated_by (reading, w))))
           = map (fun row => if PoolReading.has_pk pk row
                             then PoolReading.set_status new_status row else row)
                 (readings w)
        /\ PoolReading.status
             (fst (snd (update_reading_status new_status updated_by (reading, w))))
           = new_status)
  /\ (update_goes_through new_status reading w = false ->
      readings (snd (snd (update_reading_status new_status updated_by (reading, w))))
      = readings w)
  /\ (PoolReading.in_choices new_status PoolReading.Status_choices = false ->
      fst (snd (update_reading_status new_status updated_by (reading, w))) = reading).
Proof.
  destruct (update_reading_status_result new_status updated_by reading w) as (Hr & _ & Hrows).
  split; [exact Hr|]. split; [|split].
  - intros Hgo. rewrite Hgo in Hrows.
    destruct (PoolReading.id reading) as [pk|] eqn:Hid.
    2:{ unfold update_goes_through in Hgo. rewrite Hid, andb_false_r in Hgo. discriminate. }
    exists pk. split; [reflexivity|]. split; [exact Hrows|].
    rewrite update_reading_status_unfold.
    unfold update_goes_through in Hgo. apply andb_true_iff in Hgo as [Hin _]. rewrite Hin.
    pose proof (save_status (update_fields ["status"])
                  (PoolReading.set_status new_status reading) w) as Hst.
    unfold asave. destruct (save _ _) as [[[]|e] [reading' w']]; exact Hst.
  - intros Hgo. rewrite Hgo in Hrows. destruct (PoolReading.id reading); exact Hrows.
  - intros Hin. rewrite update_reading_status_unfold, Hin. reflexivity.
Qed.

Lemma update_reading_status_characterised_witness :
  fst (update_reading_status "open" staff_x (reading_y, world_two_hotels)) = Ok true
  /\ readings (snd (snd (update_reading_status "open" staff_x (reading_y, world_two_hotels))))
     = [reading1; PoolReading.set_status "open" reading_y].
Proof.
  destruct (update_reading_status_characterised "open" staff_x reading_y world_two_hotels)
    as (H1 & H2 & _).
  split; [exact H1|].
  destruct (H2 eq_refl) as (pk & Hpk & Hrows & _).
  injection Hpk as <-. exact Hrows.
Defined.

(** ** The invariant of the table *)

Lemma store_wf_ext w w' :
  readings w' = readings w -> reading_seq w' = reading_seq w -> store_wf w -> store_wf w'.
Proof. unfold store_wf. intros -> ->. tauto. Qed.

Lemma store_wf_inserted data h user w :
  store_wf w ->
  reference_id_taken (submitted_reference_id h user (clock w)) w = false ->
  store_wf (inserted_world data h user w).
Proof.
  intros (Href & Hid & Hlt & Hd) Hfree. unfold store_wf, inserted_world, dated in *.
  cbn [readings reading_seq set_reading_seq set_readings].
  rewrite !map_app. cbn [map].
  change (PoolReading.reference_id (inserted_reading data h user w))
    with (submitted_reference_id h user (clock w)).
  change (PoolReading.id (inserted_reading data h user w)) with (Some (reading_seq w)).
  repeat split.
  - apply NoDup_app. split; [exact Href|]. split; [|apply NoDup_singleton].
    intros x Hx Hx'. apply list_elem_of_singleton in Hx' as ->.
    apply list_elem_of_fmap in Hx as (r & Hr & Hin).
    assert (Hf : r ∈ filter (fun r => PoolReading.reference_id r
                                      = submitted_reference_id h user (clock w)) (readings w))
      by (apply list_elem_of_filter; split; [symmetry; exact Hr | exact Hin]).
    rewrite (reference_id_free_filter _ _ Hfree) in Hf. inversion Hf.
  - apply NoDup_app. split; [exact Hid|]. split; [|apply NoDup_singleton].
    intros x Hx Hx'. apply list_elem_of_singleton in Hx' as ->.
    apply list_elem_of_fmap in Hx as (r & Hr & Hin).
    rewrite Forall_forall in Hlt. destruct (Hlt r Hin) as (i & Hi & Hlti).
    rewrite Hi in Hr. injection Hr as Hr. lia.
  - apply Forall_app. split.
    + eapply Forall_impl; [exact Hlt|]. intros r (i & Hi & Hlti).
      exists i. split; [exact Hi | lia].
    + constructor; [|constructor]. exists (reading_seq w). split; [reflexivity | lia].
  - apply Forall_app. split; [exact Hd|]. constructor; [|constructor].
    eexists. reflexivity.
Qed.

Lemma map_set_status_ids pk v rows :
  map PoolReading.id
      (map (fun row => if PoolReading.has_pk pk row
                       then PoolReading.set_status v row else row) rows) =
  map PoolReading.id rows.
Proof.
  induction rows as [|r rows IH]; [reflexivity|].
  cbn [map]. rewrite IH. destruct (PoolReading.has_pk pk r); reflexivity.
Qed.

Lemma store_wf_set_status pk v w :
  store_wf w ->
  store_wf (set_readings
              (map (fun row => if PoolReading.has_pk pk row
                               then PoolReading.set_status v row else row) (readings w)) w).
Proof.
  intros (Href & Hid & Hlt & Hd). unfold store_wf, dated in *.
  cbn [readings reading_seq set_readings].
  rewrite map_set_status_reference_ids, map_set_status_ids.
  repeat split; try assumption.
  - apply Forall_map. eapply Forall_impl; [exact Hlt|].
    intros r H. destruct (PoolReading.has_pk pk r); exact H.
  - apply Forall_map. eapply Forall_impl; [exact Hd|].
    intros r H. destruct (PoolReading.has_pk pk r); exact H.
Qed.

Lemma submit_reading_store_wf data user w :
  store_wf w -> store_wf (snd (submit_reading data user w)).
Proof.
  intros Hwf. rewrite submit_reading_unfold.
  destruct (User.hotel user) as [h|]; [|exact Hwf].
  destruct (db_up w); cbn [negb]; [|exact Hwf].
  destruct (reference_id_taken _ w) eqn:Hfree; [exact Hwf|].
  pose proof (store_wf_inserted data h user w Hwf Hfree) as Hins.
  destruct (filter _ _) as [|row [|row' rest]]; exact Hins.
Qed.

Lemma submit_pool_reading_store_wf ph chl alk temp wc notes user w :
  store_wf w -> store_wf (snd (submit_pool_reading ph chl alk temp wc notes user w)).
Proof.
  intros Hwf. rewrite submit_pool_reading_unfold.
  destruct (PoolReadingData.fields_valid ph chl alk); [|exact Hwf].
  apply submit_reading_store_wf, Hwf.
Qed.

Lemma update_reading_status_store_wf new_status updated_by reading w :
  store_wf w ->
  store_wf (snd (snd (update_reading_status new_status updated_by (reading, w)))).
Proof.
  intros Hwf.
  destruct (update_reading_status_result new_status updated_by reading w) as (_ & Hseq & Hrows).
  destruct (PoolReading.id reading) as [pk|];
    [destruct (update_goes_through new_status reading w)|].
  - pose proof (store_wf_set_status pk new_status w Hwf) as H.
    revert H. unfold store_wf. rewrite Hrows, Hseq. cbn [readings reading_seq set_readings].
    tauto.
  - eapply store_wf_ext; eassumption.
  - eapply store_wf_ext; eassumption.
Qed.

(** X12.  The table stays well formed.  Starting from a well-formed table
    (the empty one is), after any sequence of form submissions, status
    updates of any instance by any user, clock changes and database outages,
    the reference ids and the primary keys of the stored readings are
    unique, every key is below the next key, and every row has a
    submission date. *)
Theorem store_wf_invariant (requests : list request) (w : World) :
  store_wf w -> store_wf (fold_left serve requests w).
Proof.
  revert w. induction requests as [|r requests IH]; intros w Hwf; [exact Hwf|].
  cbn [fold_left]. apply IH. destruct r; cbn [serve].
  - apply submit_pool_reading_store_wf, Hwf.
  - apply update_reading_status_store_wf, Hwf.
  - exact Hwf.
  - exact Hwf.
Qed.

Lemma store_wf_invariant_witness :
  store_wf (fold_left serve
              [req_submit (72 # 10) 1 100 26 "clear" EmptyString staff_x;
               req_submit (70 # 10) 1 100 26 "clear" EmptyString staff_x;
               req_clock one_pm;
               req_submit (68 # 10) 2 90 27 "cloudy" EmptyString staff_y;
               req_update_status reading1 "completed" admin_user]
              world0).
Proof. exact (store_wf_invariant _ world0 store_wf_world0). Defined.

(** ** The timestamp of the reference id *)

Lemma digit_inj a b : datetime.digit a = datetime.digit b -> a mod 10 = b mod 10.
Proof.
  unfold datetime.digit. intros H.
  apply (f_equal nat_of_ascii) in H.
  pose proof (Z.mod_pos_bound a 10 ltac:(lia)) as Ha.
  pose proof (Z.mod_pos_bound b 10 ltac:(lia)) as Hb.
  rewrite !nat_ascii_embedding in H by lia. lia.
Qed.

Lemma pad2_inj a b :
  0 <= a < 100 -> 0 <= b < 100 -> datetime.pad2 a = datetime.pad2 b -> a = b.
Proof.
  intros Ha Hb H. unfold datetime.pad2 in H. injection H as H1 H2.
  apply digit_inj in H1, H2.
  Z.div_mod_to_equations. lia.
Qed.

Lemma pad4_inj a b :
  0 <= a < 10000 -> 0 <= b < 10000 -> datetime.pad4 a = datetime.pad4 b -> a = b.
Proof.
  intros Ha Hb H. unfold datetime.pad4, datetime.pad2 in H. injection H as H1 H2 H3 H4.
  apply digit_inj in H1, H2, H3, H4.
  Z.div_mod_to_equations. lia.
Qed.

Lemma same_second_strftime d1 d2 :
  same_second d1 d2 ->
  datetime.strftime d1 REFERENCE_TIMESTAMP_FORMAT
  = datetime.strftime d2 REFERENCE_TIMESTAMP_FORMAT.
Proof.
  intros (Hy & Hmo & Hd & Hh & Hmi & Hs).
  rewrite !strftime_reference_format, Hy, Hmo, Hd, Hh, Hmi, Hs. reflexivity.
Qed.

Lemma strftime_same_second d1 d2 :
  datetime.valid d1 -> datetime.valid d2 ->
  datetime.strftime d1 REFERENCE_TIMESTAMP_FORMAT
  = datetime.strftime d2 REFERENCE_TIMESTAMP_FORMAT ->
  same_second d1 d2.
Proof.
  intros (Hy1 & Hmo1 & Hd1 & Hh1 & Hmi1 & Hs1 & _) (Hy2 & Hmo2 & Hd2 & Hh2 & Hmi2 & Hs2 & _) H.
  rewrite !strftime_reference_format in H.
  cbv [String.append datetime.pad4 datetime.pad2] in H.
  injection H as Y1 Y2 Y3 Y4 M1 M2 D1 D2 H1 H2 MI1 MI2 S1 S2.
  unfold same_second. repeat split.
  - apply pad4_inj; [lia | lia |]. unfold datetime.pad4, datetime.pad2. congruence.
  - apply pad2_inj; [lia | lia |]. unfold datetime.pad2. congruence.
  - apply pad2_inj; [lia | lia |]. unfold datetime.pad2. congruence.
  - apply pad2_inj; [lia | lia |]. unfold datetime.pad2. congruence.
  - apply pad2_inj; [lia | lia |]. unfold datetime.pad2. congruence.
  - apply pad2_inj; [lia | lia |]. unfold datetime.pad2. congruence.
Qed.

(** X13.  For clock readings that Python can hold (from the year 1000 on),
    two timestamps of reference ids are equal exactly when the readings fall
    in the same second, and so are the reference ids derived for one user of
    one hotel: such a user gets distinct reference ids for submissions in
    distinct seconds, and the same one within a second. *)
Theorem reference_id_collides_iff_same_second
    (h : Hotel.t) (user : User.t) (d1 d2 : datetime.t) :
  datetime.valid d1 -> datetime.valid d2 ->
  (datetime.strftime d1 "%Y%m%d_%H%M%S" = datetime.strftime d2 "%Y%m%d_%H%M%S"
   <-> same_second d1 d2)
  /\ (submitted_reference_id h user d1 = submitted_reference_id h user d2
      <-> same_second d1 d2).
Proof.
  intros Hv1 Hv2. split; split.
  - apply strftime_same_second; assumption.
  - apply same_second_strftime.
  - unfold submitted_reference_id. intros H.
    apply (inj (String.app _)) in H. apply (inj (String.app _)) in H.
    apply (inj (String.app _)) in H. apply (inj (String.app _)) in H.
    apply strftime_same_second; assumption.
  - intros H. unfold submitted_reference_id.
    rewrite (same_second_strftime _ _ H). reflexivity.
Qed.


Lemma reference_id_collides_iff_same_second_witness :
  submitted_reference_id hotel_x staff_x noon
  = submitted_reference_id hotel_x staff_x noon_and_a_half
  /\ submitted_reference_id hotel_x staff_x noon
     <> submitted_reference_id hotel_x staff_x one_pm.
Proof.
  assert (Hnoon : datetime.valid noon) by (unfold datetime.valid; cbn; lia).
  assert (Hhalf : datetime.valid noon_and_a_half) by (unfold datetime.valid; cbn; lia).
  assert (Hone : datetime.valid one_pm) by (unfold datetime.valid; cbn; lia).
  split.
  - apply (proj2 (reference_id_collides_iff_same_second hotel_x staff_x noon noon_and_a_half
                    Hnoon Hhalf)).
    repeat split.
  - intros H.
    apply (proj2 (reference_id_collides_iff_same_second hotel_x staff_x noon one_pm
                    Hnoon Hone)) in H.
    destruct H as (_ & _ & _ & H & _). discriminate H.
Defined.

(** ** Loading the dashboard through the cache *)

Lemma collect_rows_world rows : forall submissions w,
  snd (collect_rows rows submissions w) = w.
Proof.
  induction rows as [|r rows IH]; intros submissions w; [reflexivity|].
  cbn [collect_rows]. unfold bind, make_submission_row.
  destruct (PoolReading.submission_date r); cbn [ret raise]; [apply IH | reflexivity].
Qed.

Lemma collect_rows_ext rows : forall submissions w w',
  fst (collect_rows rows submissions w) = fst (collect_rows rows submissions w').
Proof.
  induction rows as [|r rows IH]; intros submissions w w'; [reflexivity|].
  cbn [collect_rows]. unfold bind, make_submission_row.
  destruct (PoolReading.submission_date r); cbn [ret raise]; [apply IH | reflexivity].
Qed.

Lemma _fetch_from_database_unfold user w :
  _fetch_from_database user w =
  if db_up w then
    collect_rows
      (order_by_submission_date_desc
         ((if negb (User.is_admin user) then filter_hotel_id (User.hotel_id user)
           else (fun rows => rows)) (readings w)))
      [] w
  else (Raise db_unavailable, w).
Proof.
  unfold _fetch_from_database, PoolReading_fetch. st_unfold.
  destruct (db_up w); reflexivity.
Qed.

Lemma _fetch_from_database_world user w : snd (_fetch_from_database user w) = w.
Proof.
  rewrite _fetch_from_database_unfold.
  destruct (db_up w); [|reflexivity]. apply collect_rows_world.
Qed.

Lemma _fetch_from_database_ext user w w' :
  db_up w' = db_up w -> readings w' = readings w ->
  fst (_fetch_from_database user w') = fst (_fetch_from_database user w).
Proof.
  intros Hdb Hr. rewrite !_fetch_from_database_unfold, Hdb, Hr.
  destruct (db_up w); [|reflexivity]. apply collect_rows_ext.
Qed.

Lemma _fetch_from_database_db_down user w :
  db_up w = false -> fst (_fetch_from_database user w) = Raise db_unavailable.
Proof. intros H. rewrite _fetch_from_database_unfold, H. reflexivity. Qed.

(** The path of [load_submissions] that rebuilds the listing. *)
Lemma load_submissions_rebuild user w :
  load_submissions user true w =
  match fst (_fetch_from_database user w) with
  | Ok rows =>
      (Ok rows,
       set_log (log w ++ [mkLog INFO "✗ Cache MISS - Fetching from database";
                          mkLog INFO ("Cache updated for user " +:+ str_int (User.id user))])
         (set_cache (SubmissionsCache.mk (Some rows) (Some (clock w)) (Some (User.id user))
                       (SubmissionsCache._ttl_seconds (cache w))) w))
  | Raise e =>
      (Raise e, set_log (log w ++ [mkLog INFO "✗ Cache MISS - Fetching from database"]) w)
  end.
Proof.
  unfold load_submissions, SubmissionsCache_set. st_unfold. cbn [negb].
  match goal with |- context [_fetch_from_database user ?w1] =>
    pose proof (_fetch_from_database_world user w1) as Hw;
    pose proof (_fetch_from_database_ext user w w1 eq_refl eq_refl) as He;
    destruct (_fetch_from_database user w1) as [[rows|e] w2] end;
    cbn [fst snd] in *; subst w2; rewrite <- He;
    cbn [fst snd clock cache log set_log set_cache]; [|reflexivity].
  rewrite <- app_assoc. reflexivity.
Qed.

Lemma SubmissionsCache_get_miss_world user_id w :
  fst (SubmissionsCache_get user_id w) = Ok None -> snd (SubmissionsCache_get user_id w) = w.
Proof.
  rewrite SubmissionsCache_get_unfold. repeat case_match; cbn [fst snd]; congruence.
Qed.

Lemma load_submissions_unfold user w :
  load_submissions user false w =
  match fst (SubmissionsCache_get (User.id user) w) with
  | Ok (Some rows) => (Ok rows, snd (SubmissionsCache_get (User.id user) w))
  | _ => load_submissions user true w
  end.
Proof.
  pose proof (SubmissionsCache_get_total (User.id user) w) as Htot.
  pose proof (SubmissionsCache_get_miss_world (User.id user) w) as Hmiss.
  unfold load_submissions. cbn [negb]. unfold bind at 1. unfold bind at 3.
  destruct (SubmissionsCache_get (User.id user) w) as [[[rows|]|e] w1]; cbn [fst snd] in *.
  - reflexivity.
  - rewrite (Hmiss eq_refl). reflexivity.
  - destruct Htot as [H|[rows H]]; discriminate.
Qed.

(** X14.  A refreshed listing is served from the cache for the next minute.
    After [load_submissions] with [force_refresh] has returned rows for a
    viewer, a later [load_submissions] of the same viewer, in any world that
    still holds that cache slot and whose clock is less than 60 seconds
    later, returns the same rows and changes nothing but the log, whether
    or not the database answers and whatever the table holds by then. *)
Theorem refreshed_listing_is_cached
    (user : User.t) (w w2 : World) (rows : list SubmissionRow.t) :
  SubmissionsCache._ttl_seconds (cache w) = CACHE_TTL_SECONDS ->
  fst (load_submissions user true w) = Ok rows ->
  cache w2 = cache (snd (load_submissions user true w)) ->
  datetime.to_microseconds (clock w2) - datetime.to_microseconds (clock w) < 60 * 1000000 ->
  fst (load_submissions user false w2) = Ok rows
  /\ same_but_log w2 (snd (load_submissions user false w2)).
Proof.
  intros Httl Hload Hcache Hage.
  rewrite load_submissions_rebuild in Hload, Hcache.
  destruct (fst (_fetch_from_database user w)) as [rows'|e]; [|discriminate].
  cbn [fst snd cache set_log set_cache] in *. injection Hload as ->.
  assert (Hhit : fst (SubmissionsCache_get (User.id user) w2) = Ok (Some rows)).
  { apply SubmissionsCache_get_hit. rewrite Hcache. cbn. repeat split.
    exists (clock w). split; [reflexivity|]. rewrite Httl. exact Hage. }
  rewrite load_submissions_unfold, Hhit. split; [reflexivity|].
  cbn [snd]. rewrite SubmissionsCache_get_unfold.
  repeat case_match; first [apply same_but_log_refl | apply same_but_log_set_log].
Qed.

Lemma refreshed_listing_is_cached_witness :
  fst (load_submissions staff_x false
         (set_db_up false
            (set_clock just_before_expiry (snd (load_submissions staff_x true world1)))))
  = Ok [row_of_reading reading1].
Proof.
  apply (refreshed_listing_is_cached staff_x world1
           (set_db_up false
              (set_clock just_before_expiry (snd (load_submissions staff_x true world1))))
           [row_of_reading reading1] eq_refl eq_refl eq_refl).
  vm_compute. reflexivity.
Defined.

(** X15.  Where the rows of a listing come from.  Whenever
    [load_submissions] returns rows, either no refresh was forced and the
    cache slot belongs to this very viewer and holds these rows, or the rows
    are what [_fetch_from_database] yields for this viewer in this world;
    rows cached for another viewer are never returned.  Afterwards the slot
    belongs to the viewer and holds the rows returned. *)
Theorem load_submissions_source
    (user : User.t) (force_refresh : bool) (w : World) (rows : list SubmissionRow.t) :
  fst (load_submissions user force_refresh w) = Ok rows ->
  ((force_refresh = false
    /\ SubmissionsCache._user_id (cache w) = Some (User.id user)
    /\ SubmissionsCache._data (cache w) = Some rows)
   \/ fst (_fetch_from_database user w) = Ok rows)
  /\ SubmissionsCache._user_id (cache (snd (load_submissions user force_refresh w)))
     = Some (User.id user)
  /\ SubmissionsCache._data (cache (snd (load_submissions user force_refresh w)))
     = Some rows.
Proof.
  assert (Hforce : fst (load_submissions user true w) = Ok rows ->
    fst (_fetch_from_database user w) = Ok rows
    /\ SubmissionsCache._user_id (cache (snd (load_submissions user true w)))
       = Some (User.id user)
    /\ SubmissionsCache._data (cache (snd (load_submissions user true w))) = Some rows).
  { rewrite load_submissions_rebuild.
    destruct (fst (_fetch_from_database user w)) as [rows'|e]; [|discriminate].
    cbn [fst snd]. intros H. injection H as ->. repeat split. }
  destruct force_refresh.
  - intros H. destruct (Hforce H) as (H1 & H2 & H3). repeat split; [right|..]; assumption.
  - rewrite load_submissions_unfold.
    destruct (fst (SubmissionsCache_get (User.id user) w)) as [[rows'|]|e] eqn:Hget.
    + cbn [fst snd]. intros H. injection H as ->.
      apply SubmissionsCache_get_hit in Hget as (Hd & Hu & _).
      rewrite SubmissionsCache_get_cache. repeat split; [left; repeat split|..]; assumption.
    + intros H. destruct (Hforce H) as (H1 & H2 & H3). repeat split; [right|..]; assumption.
    + intros H. destruct (Hforce H) as (H1 & H2 & H3). repeat split; [right|..]; assumption.
Qed.

Lemma load_submissions_source_witness :
  SubmissionsCache._user_id
    (cache (snd (load_submissions staff_y false
                   (snd (load_submissions staff_x true world_two_hotels)))))
  = Some (User.id staff_y)
  /\ SubmissionsCache._data
       (cache (snd (load_submissions staff_y false
                      (snd (load_submissions staff_x true world_two_hotels)))))
     = Some [row_of_reading reading_y].
Proof.
  destruct (load_submissions_source staff_y false
              (snd (load_submissions staff_x true world_two_hotels))
              [row_of_reading reading_y] eq_refl) as (_ & H2 & H3).
  split; assumption.
Defined.

(** X16.  No stale fallback.  When the database does not answer and the
    listing has to be rebuilt (a refresh is forced, or the cache misses for
    this viewer, for instance because the slot has expired),
    [load_submissions] raises the failure of the store and leaves the cache
    slot as it was: expired rows are not served. *)
Theorem load_submissions_outage (user : User.t) (force_refresh : bool) (w : World) :
  db_up w = false ->
  force_refresh = true \/ fst (SubmissionsCache_get (User.id user) w) = Ok None ->
  fst (load_submissions user force_refresh w) = Raise db_unavailable
  /\ cache (snd (load_submissions user force_refresh w)) = cache w.
Proof.
  intros Hdb Hmiss.
  assert (Hforce : fst (load_submissions user true w) = Raise db_unavailable
                   /\ cache (snd (load_submissions user true w)) = cache w).
  { rewrite load_submissions_rebuild, (_fetch_from_database_db_down _ _ Hdb). split; reflexivity. }
  destruct force_refresh; [exact Hforce|].
  destruct Hmiss as [|Hget]; [discriminate|].
  rewrite load_submissions_unfold, Hget. exact Hforce.
Qed.

Lemma load_submissions_outage_witness :
  fst (load_submissions staff_x false
         (set_db_up false
            (set_clock at_expiry (snd (load_submissions staff_x true world1)))))
  = Raise db_unavailable.
Proof.
  apply (load_submissions_outage staff_x false
           (set_db_up false (set_clock at_expiry (snd (load_submissions staff_x true world1))))
           eq_refl).
  right. vm_compute. reflexivity.
Defined.

(** ** Opening the form *)

Lemma load_data_unfold self w :
  load_data (self, w) =
  let self1 := PoolFormComponent.set_state
                 (FormState.set_hotel (_get_user_hotel_name self) (PoolFormComponent.state self))
                 self in
  match PoolFormComponent.reading_ref_id self with
  | None => (Ok tt, (self1, w))
  | Some ref_id =>
      if negb (truthy ref_id) then (Ok tt, (self1, w))
      else if negb (db_up w) then (Raise db_unavailable, (self1, w))
      else
        match filter (fun r => PoolReading.reference_id r = ref_id) (readings w) with
        | [] =>
            (Ok tt,
             (self1,
              set_notifications (notifications w ++ ["Reading " +:+ ref_id +:+ " not found"])
                (set_log (log w ++ [mkLog ERROR ("Reading not found: " +:+ ref_id)]) w)))
        | [reading] => (Ok tt, (_populate_state_from_reading reading self1, w))
        | _ :: _ :: _ =>
            (Raise (Exn MultipleObjectsReturned "get() returned more than one PoolReading"),
             (self1, w))
        end
  end.
Proof.
  unfold load_data, PoolReading_aget_reference_id, ui_notify. st_unfold.
  cbn [fst snd PoolFormComponent.reading_ref_id PoolFormComponent.set_state].
  destruct (PoolFormComponent.reading_ref_id self) as [ref_id|]; [|reflexivity].
  destruct (truthy ref_id); cbn [negb fst snd]; [|reflexivity].
  destruct (db_up w); cbn [negb fst snd]; [|reflexivity].
  destruct (filter _ (readings w)) as [|r [|r' rest]]; reflexivity.
Qed.

Lemma filter_stored_reference r w :
  store_wf w -> r ∈ readings w ->
  filter (fun x => PoolReading.reference_id x = PoolReading.reference_id r) (readings w) = [r].
Proof.
  intros (Hnd & _) Hin.
  assert (Hf : r ∈ filter (fun x => PoolReading.reference_id x = PoolReading.reference_id r)
                          (readings w))
    by (apply list_elem_of_filter; split; [reflexivity | exact Hin]).
  destruct (filter_unique_key PoolReading.reference_id (PoolReading.reference_id r)
              (readings w) Hnd) as [H0 | [x Hx]].
  - rewrite H0 in Hf. inversion Hf.
  - rewrite Hx in *. apply list_elem_of_singleton in Hf as ->. reflexivity.
Qed.

(** X17.  Opening the form of a stored reading.  With the database up and
    the table well formed, [load_data] for the reference id of a stored
    reading fills the form with that reading: its hotel name, status and
    measurements, marked as existing, and read-only exactly when the status
    is [in_progress] or [completed].  The viewer plays no part in this: the
    reading of any hotel is loaded for any user.  The submit button is then
    shown to an administrator always and to anybody else exactly when the
    form is not read-only.  The world is left as it was. *)
Theorem load_data_of_stored_reading (user : User.t) (r : PoolReading.t) (w : World) :
  db_up w = true ->
  store_wf w ->
  r ∈ readings w ->
  PoolReading.reference_id r <> EmptyString ->
  fst (load_data (PoolFormComponent.init user (Some (PoolReading.reference_id r)), w)) = Ok tt
  /\ PoolFormComponent.state
       (fst (snd (load_data (PoolFormComponent.init user (Some (PoolReading.reference_id r)), w))))
     = FormState.mk (Hotel.name (PoolReading.hotel r)) (PoolReading.status r)
         (PoolReading.ph_level r) (PoolReading.chlorine_ppm r) (PoolReading.alkalinity_ppm r)
         (PoolReading.temperature_celsius r) (PoolReading.water_clarity r) (PoolReading.notes r)
         (bool_decide (PoolReading.status r = "in_progress" \/ PoolReading.status r = "completed"))
         true
  /\ show_submit
       (fst (snd (load_data (PoolFormComponent.init user (Some (PoolReading.reference_id r)), w))))
     = (negb (bool_decide (PoolReading.status r = "in_progress"
                           \/ PoolReading.status r = "completed"))
        || User.is_admin user)
  /\ snd (snd (load_data (PoolFormComponent.init user (Some (PoolReading.reference_id r)), w)))
     = w.
Proof.
  intros Hdb Hwf Hin Href.
  assert (Hro : bool_decide (PoolReading.status r ∈ READONLY_STATUSES)
                = bool_decide (PoolReading.status r = "in_progress"
                               \/ PoolReading.status r = "completed")).
  { apply bool_decide_ext. unfold READONLY_STATUSES.
    rewrite !elem_of_cons, elem_of_nil. tauto. }
  rewrite load_data_unfold.
  cbn [PoolFormComponent.reading_ref_id PoolFormComponent.init].
  rewrite (truthy_nonempty _ Href), Hdb, (filter_stored_reference r w Hwf Hin).
  cbn [negb fst snd]. unfold show_submit, _populate_state_from_reading.
  cbn [PoolFormComponent.state PoolFormComponent.set_state PoolFormComponent.user
       FormState.is_readonly].
  rewrite Hro. repeat split.
Qed.

Lemma store_wf_world_two_hotels_next : store_wf world_two_hotels_next.
Proof.
  split; [|split; [|split]].
  - apply NoDup_cons. split; [|apply NoDup_singleton].
    intros H. apply list_elem_of_singleton in H. discriminate.
  - apply NoDup_cons. split; [|apply NoDup_singleton].
    intros H. apply list_elem_of_singleton in H. discriminate.
  - constructor; [exists 1; split; reflexivity|].
    constructor; [exists 2; split; reflexivity | constructor].
  - constructor; [eexists; reflexivity|].
    constructor; [eexists; reflexivity | constructor].
Qed.

Lemma load_data_of_stored_reading_witness :
  FormState.hotel
    (PoolFormComponent.state
       (fst (snd (load_data (PoolFormComponent.init staff_x
                               (Some (PoolReading.reference_id reading_y)),
                             world_two_hotels_next)))))
  = "Marina"
  /\ show_submit
       (fst (snd (load_data (PoolFormComponent.init staff_x
                               (Some (PoolReading.reference_id reading_y)),
                             world_two_hotels_next))))
     = false.
Proof.
  destruct (load_data_of_stored_reading staff_x reading_y world_two_hotels_next eq_refl
              store_wf_world_two_hotels_next ltac:(right; left) ltac:(discriminate))
    as (_ & H2 & H3 & _).
  split.
  - rewrite H2. reflexivity.
  - rewrite H3. reflexivity.
Defined.

(** X18.  Opening the form without a stored reading.  A new form (no
    reference id, or an empty one) gets the defaults and the hotel name of
    the user, the empty string when the user has no hotel, and the store is
    not consulted: the world is returned as it was, also during an outage.
    For a reference id that no stored reading has, with the database up,
    the form keeps the defaults, one error is logged and one notification is
    shown.  For a non-empty reference id during an outage the failure of
    the store is raised: the handler catches [DoesNotExist] only. *)
Theorem load_data_without_reading (user : User.t) (ref_id : string) (w : World) :
  let new_state :=
    FormState.set_hotel (from_option Hotel.name EmptyString (User.hotel user))
                        FormState.default in
  load_data (PoolFormComponent.init user None, w)
  = (Ok tt, (PoolFormComponent.mk user None new_state, w))
  /\ load_data (PoolFormComponent.init user (Some EmptyString), w)
     = (Ok tt, (PoolFormComponent.mk user (Some EmptyString) new_state, w))
  /\ (ref_id <> EmptyString -> db_up w = true ->
      (forall r, r ∈ readings w -> PoolReading.reference_id r <> ref_id) ->
      load_data (PoolFormComponent.init user (Some ref_id), w)
      = (Ok tt,
         (PoolFormComponent.mk user (Some ref_id) new_state,
          set_notifications (notifications w ++ ["Reading " +:+ ref_id +:+ " not found"])
            (set_log (log w ++ [mkLog ERROR ("Reading not found: " +:+ ref_id)]) w))))
  /\ (ref_id <> EmptyString -> db_up w = false ->
      fst (load_data (PoolFormComponent.init user (Some ref_id), w)) = Raise db_unavailable).
Proof.
  cbv zeta. rewrite !load_data_unfold. cbv zeta.
  assert (Hname : forall c, _get_user_hotel_name (PoolFormComponent.init user c)
                            = from_option Hotel.name EmptyString (User.hotel user)).
  { intros c. unfold _get_user_hotel_name. cbn. destruct (User.hotel user); reflexivity. }
  rewrite !Hname.
  unfold PoolFormComponent.set_state, PoolFormComponent.init.
  cbn [PoolFormComponent.state PoolFormComponent.user PoolFormComponent.reading_ref_id
       truthy negb].
  split; [reflexivity|]. split; [reflexivity|]. split.
  - intros Href Hdb Hnone. rewrite (truthy_nonempty _ Href), Hdb. cbn [negb].
    destruct (filter _ (readings w)) as [|r l] eqn:Hf; [reflexivity|].
    assert (Hr : r ∈ filter (fun r => PoolReading.reference_id r = ref_id) (readings w))
      by (rewrite Hf; left).
    apply list_elem_of_filter in Hr as [Heq Hin]. destruct (Hnone r Hin Heq).
  - intros Href Hdb. rewrite (truthy_nonempty _ Href), Hdb. reflexivity.
Qed.

Lemma load_data_without_reading_witness :
  fst (load_data (PoolFormComponent.init unassigned_user (Some "Nowhere__nobody__20240101_000000"),
                  world1)) = Ok tt
  /\ notifications
       (snd (snd (load_data (PoolFormComponent.init unassigned_user
                               (Some "Nowhere__nobody__20240101_000000"), world1))))
     = ["Reading Nowhere__nobody__20240101_000000 not found"].
Proof.
  pose proof (load_data_without_reading unassigned_user "Nowhere__nobody__20240101_000000"
                world1) as (_ & _ & H & _).
  rewrite H.
  - split; reflexivity.
  - discriminate.
  - reflexivity.
  - intros r Hr. apply list_elem_of_singleton in Hr as ->. discriminate.
Defined.

(** ** Submitting the form *)




(** ** Logging in *)

Lemma _authenticate_unfold check_password username password w :
  _authenticate check_password username password w
  = authenticate check_password username password w.
Proof.
  unfold _authenticate, authenticate_user, try_except.
  pose proof (authenticate_returns check_password username password w) as H.
  destruct (authenticate check_password username password w) as [[r|e] w']; [reflexivity|].
  discriminate H.
Qed.

Lemma handle_login_success prefix token check_password self user app :
  LoginFormComponent.username_input self <> EmptyString ->
  LoginFormComponent.password_input self <> EmptyString ->
  db_up (world app) = true ->
  filter (fun u => User.username u = LoginFormComponent.username_input self)
         (users (world app)) = [user] ->
  check_password (LoginFormComponent.password_input self) (User.password_hash user) = true ->
  handle_login prefix check_password (set_logged_in_user token) (self, app) =
  (Ok tt,
   (LoginFormComponent.set_message_label
      (Label.mk "Giriş başarılı!"
         (Label.classes (LoginFormComponent.message_label self) ++ ["text-green-600"])) self,
    mkApp (Some user) (navigated app ++ [ROUTE_SUBMISSIONS prefix])
      (set_storage
         (<[token := <[SESSION_USER_ID_KEY := User.id user]> (app_storage_user token (world app))]>
            (storage (world app)))
         (set_log (log (world app)
                   ++ [mkLog INFO ("Successful authentication for user: " +:+
                                   LoginFormComponent.username_input self);
                       mkLog INFO ("User logged in successfully: " +:+ User.username user)])
            (world app))))).
Proof.
  intros Hu Hp Hdb Hname Hc.
  unfold handle_login. unfold bind at 1. unfold gets at 1. cbn [fst].
  rewrite (truthy_nonempty _ Hu), (truthy_nonempty _ Hp). cbn [negb orb].
  unfold bind at 1, lift at 1, in_world at 1. cbn [snd fst].
  rewrite _authenticate_unfold, authenticate_unfold.
  rewrite (truthy_nonempty _ Hu), (truthy_nonempty _ Hp), Hdb, Hname, Hc.
  cbn [negb orb AuthenticationResult.success auth_ok_result].
  unfold login_handle_success, set_logged_in_user, ui_navigate_to, in_world.
  cbn [AuthenticationResult.user AuthenticationResult.message]. st_unfold.
  unfold auth_ok_result, app_storage_user.
  cbn [AuthenticationResult.user AuthenticationResult.message fst snd world set_world
       logged_in_user navigated storage set_log log].
  rewrite <- app_assoc. reflexivity.
Qed.

(** X20.  A successful login establishes the session.  With both inputs
    filled in, the database up, [user] the one stored user of the name
    entered and the one stored user of its id, an id other than 0 and a
    password that the hasher accepts, [handle_login] with the callback of
    [app.py] returns, shows the success message, records [user] as the
    logged-in user, navigates to the dashboard route, and afterwards
    [get_current_user] of the same browser returns [user]. *)
Theorem login_establishes_session
    (prefix token : string) (check_password : string -> string -> bool)
    (self : LoginFormComponent.t) (user : User.t) (app : App) :
  LoginFormComponent.username_input self <> EmptyString ->
  LoginFormComponent.password_input self <> EmptyString ->
  db_up (world app) = true ->
  filter (fun u => User.username u = LoginFormComponent.username_input self)
         (users (world app)) = [user] ->
  filter (fun u => User.id u = User.id user) (users (world app)) = [user] ->
  User.id user <> 0 ->
  check_password (LoginFormComponent.password_input self) (User.password_hash user) = true ->
  fst (handle_login prefix check_password (set_logged_in_user token) (self, app)) = Ok tt
  /\ Label.text (LoginFormComponent.message_label
                   (fst (snd (handle_login prefix check_password (set_logged_in_user token)
                                (self, app)))))
     = "Giriş başarılı!"
  /\ logged_in_user (snd (snd (handle_login prefix check_password (set_logged_in_user token)
                                 (self, app))))
     = Some user
  /\ navigated (snd (snd (handle_login prefix check_password (set_logged_in_user token)
                            (self, app))))
     = navigated app ++ [ROUTE_SUBMISSIONS prefix]
  /\ fst (get_current_user token
            (world (snd (snd (handle_login prefix check_password (set_logged_in_user token)
                                (self, app))))))
     = Ok (Some user).
Proof.
  intros Hu Hp Hdb Hname Hid Hnz Hc.
  rewrite (handle_login_success prefix token check_password self user app Hu Hp Hdb Hname Hc).
  cbn [fst snd world logged_in_user navigated LoginFormComponent.message_label
       LoginFormComponent.set_message_label Label.text].
  repeat split.
  rewrite get_current_user_unfold. unfold app_storage_user.
  cbn [storage set_storage set_log db_up users]. rewrite lookup_insert_eq.
  cbn [from_option id]. rewrite lookup_insert_eq.
  destruct (Z.eqb_spec (User.id user) 0) as [|_]; [contradiction|].
  rewrite Hdb, Hid. reflexivity.
Qed.

Lemma login_establishes_session_witness :
  logged_in_user (snd (snd (handle_login EmptyString accept_secret
                              (set_logged_in_user "browser-1") (login_form_ayse, app0))))
  = Some staff_x
  /\ fst (get_current_user "browser-1"
            (world (snd (snd (handle_login EmptyString accept_secret
                                (set_logged_in_user "browser-1") (login_form_ayse, app0))))))
     = Ok (Some staff_x).
Proof.
  destruct (login_establishes_session EmptyString "browser-1" accept_secret login_form_ayse
              staff_x app0 ltac:(discriminate) ltac:(discriminate) eq_refl eq_refl eq_refl
              ltac:(discriminate) eq_refl) as (_ & _ & H3 & _ & H5).
  split; assumption.
Defined.

Lemma authenticate_result check_password username password w :
  exists r,
    authenticate check_password username password w
    = (Ok r, snd (authenticate check_password username password w))
    /\ same_but_log w (snd (authenticate check_password username password w))
    /\ (AuthenticationResult.success r = true -> exists user, r = auth_ok_result user).
Proof.
  rewrite authenticate_unfold.
  repeat case_match; eexists; (split; [reflexivity|]); cbn [snd];
    (split; [first [apply same_but_log_refl | apply same_but_log_set_log]|]);
    cbn; intros Hsucc; try discriminate Hsucc; eexists; reflexivity.
Qed.

(** X21.  A failed login changes nothing.  Whenever the credentials in the
    form are not accepted (an input is empty, the user is unknown, the
    password is wrong or the store fails), [handle_login] returns, adds the
    red class to the message label, does not call the callback and does not
    navigate: the logged-in user, the targets navigated to and the world,
    but for its log, are as before, whatever the callback is. *)
Theorem failed_login_changes_nothing
    (prefix : string) (check_password : string -> string -> bool)
    (on_success_callback : User.t -> ST App unit)
    (self : LoginFormComponent.t) (app : App) :
  (forall user,
     fst (authenticate check_password (LoginFormComponent.username_input self)
            (LoginFormComponent.password_input self) (world app))
     <> Ok (auth_ok_result user)) ->
  fst (handle_login prefix check_password on_success_callback (self, app)) = Ok tt
  /\ logged_in_user (snd (snd (handle_login prefix check_password on_success_callback
                                 (self, app))))
     = logged_in_user app
  /\ navigated (snd (snd (handle_login prefix check_password on_success_callback (self, app))))
     = navigated app
  /\ same_but_log (world app)
       (world (snd (snd (handle_login prefix check_password on_success_callback (self, app)))))
  /\ Label.classes
       (LoginFormComponent.message_label
          (fst (snd (handle_login prefix check_password on_success_callback (self, app)))))
     = Label.classes (LoginFormComponent.message_label self) ++ ["text-red-600"].
Proof.
  intros Hfail.
  assert (Hrun : exists msg app',
    handle_login prefix check_password on_success_callback (self, app) =
    (Ok tt,
     (LoginFormComponent.set_message_label
        (Label.mk msg (Label.classes (LoginFormComponent.message_label self)
                       ++ ["text-red-600"])) self,
      app'))
    /\ logged_in_user app' = logged_in_user app
    /\ navigated app' = navigated app
    /\ same_but_log (world app) (world app')).
  { unfold handle_login. unfold bind at 1. unfold gets at 1. cbn [fst].
    destruct (negb (truthy (LoginFormComponent.username_input self))
              || negb (truthy (LoginFormComponent.password_input self))) eqn:Hempty.
    - eexists _, app. split; [reflexivity|]. repeat split.
    - unfold bind at 1, lift at 1, in_world at 1. cbn [snd fst].
      rewrite _authenticate_unfold.
      destruct (authenticate_result check_password (LoginFormComponent.username_input self)
                  (LoginFormComponent.password_input self) (world app))
        as (r & Hr & Hlog & Hok).
      rewrite Hr in Hfail. rewrite Hr. cbn [fst] in Hfail.
      destruct (AuthenticationResult.success r) eqn:Hs.
      + destruct (Hok eq_refl) as (user & ->). destruct (Hfail user eq_refl).
      + unfold login_handle_error, in_world. st_unfold.
        cbn [fst snd world set_world log set_log].
        eexists _, _. split; [reflexivity|].
        cbn [logged_in_user navigated world set_world].
        split; [reflexivity|]. split; [reflexivity|].
        destruct Hlog as (H1 & H2 & H3 & H4 & H5 & H6 & H7 & H8).
        repeat split; assumption. }
  destruct Hrun as (msg & app' & -> & Hl & Hn & Hw).
  cbn [fst snd LoginFormComponent.message_label LoginFormComponent.set_message_label
       Label.classes].
  repeat split; try assumption; apply Hw.
Qed.

Lemma failed_login_changes_nothing_witness :
  logged_in_user (snd (snd (handle_login EmptyString accept_secret
                              (set_logged_in_user "browser-1") (login_form_wrong, app0))))
  = None
  /\ navigated (snd (snd (handle_login EmptyString accept_secret
                            (set_logged_in_user "browser-1") (login_form_wrong, app0))))
     = [].
Proof.
  assert (Hfail : forall user,
    fst (authenticate accept_secret (LoginFormComponent.username_input login_form_wrong)
           (LoginFormComponent.password_input login_form_wrong) (world app0))
    <> Ok (auth_ok_result user)).
  { intros user H. vm_compute in H. discriminate H. }
  destruct (failed_login_changes_nothing EmptyString accept_secret
              (set_logged_in_user "browser-1") login_form_wrong app0 Hfail)
    as (_ & H2 & H3 & _).
  split; assumption.
Defined.

(** ** The pages *)

(** X22.  Two guards that disagree.  Once [set_logged_in_user] has run for
    one browser, [submissions_page] renders the dashboard of that user and
    [pool_page] a new form of that user (with the hotel name of the user and
    the defaults): these pages read the variable of the process, not the
    session of the asking browser, and clearing the session of the browser
    that logged in does not change them.  [form_page] reads the session: for
    a browser whose session holds no user id it navigates to the login route
    and renders nothing else, although a user is logged in to the process. *)
Theorem page_guards
    (prefix token token' ref_id : string) (user : User.t) (app : App) :
  token' <> token ->
  app_storage_user token' (world app) !! SESSION_USER_ID_KEY = None ->
  fst (submissions_page (snd (set_logged_in_user token user app))) = Ok (PageDashboard user)
  /\ fst (pool_page (snd (set_logged_in_user token user app)))
     = Ok (PagePoolForm
             (PoolFormComponent.mk user None
                (FormState.set_hotel (from_option Hotel.name EmptyString (User.hotel user))
                                     FormState.default)))
  /\ fst (submissions_page
            (snd (in_world (clear_session token) (snd (set_logged_in_user token user app)))))
     = Ok (PageDashboard user)
  /\ fst (form_page prefix token' ref_id (snd (set_logged_in_user token user app)))
     = Ok PageLoginRequired
  /\ navigated (snd (form_page prefix token' ref_id (snd (set_logged_in_user token user app))))
     = navigated app ++ [ROUTE_LOGIN prefix].
Proof.
  intros Hne Hnone.
  assert (Hnew : forall w,
    load_data (PoolFormComponent.init user None, w)
    = (Ok tt,
       (PoolFormComponent.mk user None
          (FormState.set_hotel (from_option Hotel.name EmptyString (User.hotel user))
                               FormState.default), w))).
  { intros w. rewrite load_data_unfold. cbv zeta.
    unfold _get_user_hotel_name, PoolFormComponent.set_state, PoolFormComponent.init.
    cbn [PoolFormComponent.state PoolFormComponent.user PoolFormComponent.reading_ref_id].
    destruct (User.hotel user); reflexivity. }
  assert (Hsess : forall l,
    get_current_user token'
      (set_storage
         (<[token := <[SESSION_USER_ID_KEY := User.id user]> (app_storage_user token (world app))]>
            (storage (world app))) (set_log l (world app)))
    = (Ok None,
       set_storage
         (<[token := <[SESSION_USER_ID_KEY := User.id user]> (app_storage_user token (world app))]>
            (storage (world app))) (set_log l (world app)))).
  { intros l. rewrite get_current_user_unfold. unfold app_storage_user in *.
    cbn [storage set_storage set_log].
    rewrite lookup_insert_ne by (intros Heq; apply Hne; symmetry; exact Heq).
    rewrite Hnone. reflexivity. }
  unfold submissions_page, pool_page, form_page, render_pool_form, set_logged_in_user,
    clear_session, get_current_user_legacy, ui_navigate_to, in_world, get_navigation_path,
    ROUTE_LOGIN.
  st_unfold. cbn [fst snd logged_in_user world set_world navigated].
  rewrite Hnew. cbn [fst snd].
  repeat split.
  - specialize (Hsess (log (world app))).
    match goal with |- context [get_current_user token' ?w] =>
      replace w with (set_storage
         (<[token := <[SESSION_USER_ID_KEY := User.id user]> (app_storage_user token (world app))]>
            (storage (world app))) (set_log (log (world app)) (world app)))
        by (destruct (world app); reflexivity) end.
    rewrite Hsess. reflexivity.
  - specialize (Hsess (log (world app))).
    match goal with |- context [get_current_user token' ?w] =>
      replace w with (set_storage
         (<[token := <[SESSION_USER_ID_KEY := User.id user]> (app_storage_user token (world app))]>
            (storage (world app))) (set_log (log (world app)) (world app)))
        by (destruct (world app); reflexivity) end.
    rewrite Hsess. reflexivity.
Qed.

Lemma page_guards_witness :
  fst (submissions_page (snd (set_logged_in_user "browser-1" staff_x app0)))
  = Ok (PageDashboard staff_x)
  /\ fst (form_page EmptyString "browser-2" "Palmiye__ayse__20240517_120000"
            (snd (set_logged_in_user "browser-1" staff_x app0)))
     = Ok PageLoginRequired.
Proof.
  destruct (page_guards EmptyString "browser-1" "browser-2" "Palmiye__ayse__20240517_120000"
              staff_x app0 ltac:(discriminate) ltac:(vm_compute; reflexivity))
    as (H1 & _ & _ & H4 & _).
  split; assumption.
Defined.

(** ** Which measurements are accepted *)

Lemma fields_valid_iff ph chl alk :
  PoolReadingData.fields_valid ph chl alk = true
  <-> (0 <= ph)%Q /\ (ph <= 14)%Q /\ (0 <= chl)%Q /\ 0 <= alk.
Proof.
  unfold PoolReadingData.fields_valid.
  rewrite !andb_true_iff, !Qle_bool_iff, Z.leb_le. tauto.
Qed.

(** X23.  [submit_pool_reading] returns a result, rather than raising,
    exactly when the pH is between 0 and 14 inclusive, the chlorine is not
    negative and the alkalinity is not negative; the temperature, the water
    clarity and the notes are not checked at all, so a water clarity outside
    the three choices is accepted.  When it raises, the world is returned
    as it was. *)
Theorem submit_pool_reading_accepts_iff
    (ph chl : Q) (alk : Z) (temp : Q) (wc notes : string) (user : User.t) (w : World) :
  (returns (fst (submit_pool_reading ph chl alk temp wc notes user w)) = true
   <-> (0 <= ph)%Q /\ (ph <= 14)%Q /\ (0 <= chl)%Q /\ 0 <= alk)
  /\ (returns (fst (submit_pool_reading ph chl alk temp wc notes user w)) = false ->
      submit_pool_reading ph chl alk temp wc notes user w
      = (Raise PoolReadingData.validation_error, w))
  /\ (forall temp' wc' notes',
        returns (fst (submit_pool_reading ph chl alk temp' wc' notes' user w))
        = returns (fst (submit_pool_reading ph chl alk temp wc notes user w))).
Proof.
  rewrite <- fields_valid_iff.
  split; [|split].
  - rewrite submit_pool_reading_unfold.
    destruct (PoolReadingData.fields_valid ph chl alk).
    + rewrite submit_reading_returns. tauto.
    + split; discriminate.
  - rewrite submit_pool_reading_unfold.
    destruct (PoolReadingData.fields_valid ph chl alk); [|reflexivity].
    rewrite submit_reading_returns. discriminate.
  - intros temp' wc' notes'. rewrite !submit_pool_reading_unfold.
    destruct (PoolReadingData.fields_valid ph chl alk); [|reflexivity].
    rewrite !submit_reading_returns. reflexivity.
Qed.

Lemma submit_pool_reading_accepts_iff_witness :
  returns (fst (submit_pool_reading 14 0 0 (-5) "murky" EmptyString staff_x world0)) = true.
Proof.
  apply (proj1 (submit_pool_reading_accepts_iff 14 0 0 (-5) "murky" EmptyString staff_x world0)).
  repeat split; discriminate.
Defined.

